(** * phoebe-shelves-clt: the book catalog and the reading log

    A shallow embedding of [data_management.py].  The program keeps two
    pandas tables, [books.csv] (the catalog) and [reading.csv] (the
    reading log), edits them through prompts on the terminal and writes
    them back.

    Modelling choices, all of them visible in the definitions below:
    - a cell of a table is a dynamically typed [value]; [NaN] stands for
      every missing marker of pandas ([nan], [NaT], [None]);
    - a table row is a [gmap string value], and a column it has no entry
      for reads as [NaN]; a Python [dict] literal is an association list,
      in insertion order;
    - a [DataFrame] is its column list and its rows, each with its index
      label; a file holds the columns and the rows without the labels
      ([to_csv(index=False)]), and [read_csv] numbers the rows again from 0.
      The text format of the file itself is not modelled: a file keeps the
      typed cells;
    - a [datetime.date] is its proleptic Gregorian ordinal, which is what
      date subtraction uses; a float is an exact rational;
    - the terminal is the list of lines still to be typed; [input] takes
      the first one and raises [EOFError] when none is left;
    - an exception stops the program: every effectful function returns
      either an error or a result, together with the world it leaves;
    - the world also keeps a log of what was done, in order: the mutations
      of the reading log, the calls of the two synchronizer functions, the
      sorts and the files written.  The program never reads it; the
      statements about the order of a session's steps do;
    - [print] and the display-only helpers of [data_view] write to the
      screen only and are left out. *)

From Stdlib Require Import Ascii String ZArith QArith Qround Qabs Lia Lqa.
From stdpp Require Import gmap strings list fin_maps.

Open Scope string_scope.
Open Scope Z_scope.

(** ** Cells, rows, tables *)

Inductive value :=
| NaN
| Str (s : string)
| Int (z : Z)
| Float (q : Q)
| Date (ordinal : Z).

Inductive error :=
| EOFError | ValueError | KeyError | IndexError | TypeError
| FileNotFoundError.

Inductive result (A : Type) :=
| OK (a : A)
| Err (e : error).
Arguments OK {A} a.
Arguments Err {A} e.

#[global] Instance Q_eq_dec : EqDecision Q.
Proof. solve_decision. Defined.

#[global] Instance value_eq_dec : EqDecision value.
Proof. solve_decision. Defined.

(** [pd.isnull] / [pd.isna], and [pd.notna]. *)
Definition isnull (v : value) : bool :=
  match v with NaN => true | _ => false end.
Definition notna (v : value) : bool := negb (isnull v).

(** [cell == s] for a Python [str] [s]: only a string cell can be equal. *)
Definition str_eq (v : value) (s : string) : bool :=
  match v with Str t => String.eqb t s | _ => false end.

Record DataFrame := {
  columns : list string;
  rows : list (Z * gmap string value)
}.

Record csv_file := {
  csv_columns : list string;
  csv_rows : list (gmap string value)
}.

(** [row[col]]: a column without an entry is missing. *)
Definition cell (r : gmap string value) (col : string) : value :=
  default NaN (r !! col).

Definition index (df : DataFrame) : list Z := fst <$> rows df.

(** A fresh [RangeIndex]: labels 0, 1, 2, ... *)
Definition range_index (rs : list (gmap string value))
  : list (Z * gmap string value) :=
  imap (fun i r => (Z.of_nat i, r)) rs.

(** [df.reset_index(drop=True)], the effect of [ignore_index=True]. *)
Definition reset_index (df : DataFrame) : DataFrame :=
  {| columns := columns df; rows := range_index (snd <$> rows df) |}.

Definition add_column (cols : list string) (c : string) : list string :=
  if bool_decide (c ∈ cols) then cols else cols ++ [c].

(** [df[col].values] *)
Definition column_values (df : DataFrame) (col : string) : list value :=
  (fun lr => cell (snd lr) col) <$> rows df.

(** [s in df['Title'].values] *)
Definition title_in (s : string) (df : DataFrame) : bool :=
  existsb (fun v => str_eq v s) (column_values df "Title").

(** [df.loc[mask, col] = v], for a boolean mask computed row by row. *)
Definition loc_set_mask (mask : gmap string value -> bool) (col : string)
    (v : value) (df : DataFrame) : DataFrame :=
  {| columns := add_column (columns df) col;
     rows := (fun lr => if mask (snd lr) then (fst lr, <[col := v]> (snd lr))
                        else lr) <$> rows df |}.

(** [df.loc[mask, col].values] *)
Definition loc_mask_values (mask : gmap string value -> bool) (col : string)
    (df : DataFrame) : list value :=
  (fun lr => cell (snd lr) col)
  <$> filter (fun lr => mask (snd lr) = true) (rows df).

(** [df.loc[label, col]], read.  An unknown label raises [KeyError]. *)
Definition loc_get (label : Z) (col : string) (df : DataFrame)
  : result value :=
  match list_find (fun lr => fst lr = label) (rows df) with
  | Some (_, lr) => OK (cell (snd lr) col)
  | None => Err KeyError
  end.

(** [df.loc[label, col] = v].  pandas sets the cell of every row carrying
    the label; when no row carries it the frame is enlarged by a new row
    with that label, [v] in [col] and every other column missing. *)
Definition loc_set (label : Z) (col : string) (v : value) (df : DataFrame)
  : DataFrame :=
  if bool_decide (label ∈ index df) then
    {| columns := add_column (columns df) col;
       rows := (fun lr => if bool_decide (fst lr = label)
                          then (fst lr, <[col := v]> (snd lr)) else lr)
               <$> rows df |}
  else
    {| columns := add_column (columns df) col;
       rows := rows df ++ [(label, {[col := v]})] |}.

(** [df.drop(label)]: the rows without that label; [KeyError] when no row
    carries it. *)
Definition drop (label : Z) (df : DataFrame) : result DataFrame :=
  if bool_decide (label ∈ index df) then
    OK {| columns := columns df;
          rows := filter (fun lr => fst lr ≠ label) (rows df) |}
  else Err KeyError.

(** [df.drop(df[mask].index)]: the labels of the masked rows are collected,
    and every row carrying one of them goes. *)
Definition drop_mask (mask : gmap string value -> bool) (df : DataFrame)
  : DataFrame :=
  let labels := fst <$> filter (fun lr => mask (snd lr) = true) (rows df) in
  {| columns := columns df;
     rows := filter (fun lr => fst lr ∉ labels) (rows df) |}.

(** [df.append(d, ignore_index=True)] for a dict [d].  A Python dict keeps
    its keys in insertion order, so it is an association list here. *)
Definition append_dict (d : list (string * value)) (df : DataFrame)
  : DataFrame :=
  {| columns := foldl add_column (columns df) (fst <$> d);
     rows := range_index ((snd <$> rows df) ++ [list_to_map d]) |}.

(** ** The world: terminal, files, and the log of what was done *)

Inductive event :=
| ReadingEntryAdded (book_title : string)
| ReadingEntryEdited (book_title : string)
| ReadingEntryRemoved (book_title : string)
| ReadingCountUpdate (book_title : string)
| BookRatingUpdate (book_title : string)
| SortValues (by_columns : list string)
| ToCsv (path : string).

Record world := {
  stdin : list string;
  fs : gmap string csv_file;
  trace : list event
}.

Definition M (A : Type) : Type := world -> result A * world.

#[global] Instance M_ret : MRet M := fun A a w => (OK a, w).
#[global] Instance M_bind : MBind M := fun A B k m w =>
  match m w with
  | (OK a, w') => k a w'
  | (Err e, w') => (Err e, w')
  end.

Definition raise {A} (e : error) : M A := fun w => (Err e, w).
Definition lift {A} (r : result A) : M A := fun w => (r, w).
Definition from_option {A} (e : error) (o : option A) : M A :=
  match o with Some a => mret a | None => raise e end.

(** A loop that reads lines until it is satisfied. *)
Definition on_stdin {A} (f : list string -> result A * list string) : M A :=
  fun w => let (r, rest) := f (stdin w) in
           (r, {| stdin := rest; fs := fs w; trace := trace w |}).

(** [input(prompt)]: the next line typed. *)
Definition input : M string := fun w =>
  match stdin w with
  | [] => (Err EOFError, w)
  | line :: rest =>
      (OK line, {| stdin := rest; fs := fs w; trace := trace w |})
  end.

Definition emit (e : event) : M unit := fun w =>
  (OK tt, {| stdin := stdin w; fs := fs w; trace := trace w ++ [e] |}).

(** [os.path.isfile(path)] *)
Definition isfile (path : string) : M bool := fun w =>
  (OK (bool_decide (is_Some (fs w !! path))), w).

(** The frame a file is read into, and the file a frame is written to. *)
Definition frame_of_file (f : csv_file) : DataFrame :=
  {| columns := csv_columns f; rows := range_index (csv_rows f) |}.

Definition file_of_frame (df : DataFrame) : csv_file :=
  {| csv_columns := columns df; csv_rows := snd <$> rows df |}.

(** [pd.read_csv(path)] *)
Definition read_csv (path : string) : M DataFrame := fun w =>
  match fs w !! path with
  | Some f => (OK (frame_of_file f), w)
  | None => (Err FileNotFoundError, w)
  end.

(** [df.to_csv(path, index=False)] *)
Definition to_csv (df : DataFrame) (path : string) : M unit := fun w =>
  (OK tt, {| stdin := stdin w;
             fs := <[path := file_of_frame df]> (fs w);
             trace := trace w ++ [ToCsv path] |}).

(** ** Database creation *)

Definition book_db_cols : list string :=
  ["Title"; "Author"; "Author FN"; "Author MN"; "Author LN"; "Length";
   "Times Read"; "Rating"; "Genre"].

Definition reading_db_cols : list string :=
  ["Title"; "Start"; "Finish"; "Reading Time"; "Rating"].

Definition create_books_db (db_path : string) : M unit :=
  to_csv {| columns := book_db_cols; rows := [] |} db_path.

Definition create_reading_db (db_path : string) : M unit :=
  to_csv {| columns := reading_db_cols; rows := [] |} db_path.

Definition create_databases (force_overwrite : bool) (data_directory : string)
  : M unit :=
  let books_db_path := data_directory +:+ "/" +:+ "books.csv" in
  let reading_db_path := data_directory +:+ "/" +:+ "reading.csv" in
  books_db_exists ← isfile books_db_path;
  reading_db_exists ← isfile reading_db_path;
  (if books_db_exists && negb force_overwrite then mret tt
   else if books_db_exists && force_overwrite then create_books_db books_db_path
   else create_books_db books_db_path);;
  (if reading_db_exists && negb force_overwrite then mret tt
   else if reading_db_exists && force_overwrite
        then create_reading_db reading_db_path
   else create_reading_db reading_db_path).

(** ** Sorting ([DataFrame.sort_values])

    Ascending, missing values last, several key columns compared in order.
    With more than one key pandas sorts through [lexsort_indexer], which is
    stable; a stable sort is determined by its order, so insertion from the
    right stands for it.  A key column that mixes strings, numbers and
    dates cannot be ordered and raises [TypeError]. *)

Inductive kind := KStr | KNum | KDate.

Definition kind_of (v : value) : option kind :=
  match v with
  | NaN => None
  | Str _ => Some KStr
  | Int _ | Float _ => Some KNum
  | Date _ => Some KDate
  end.

Definition kind_eqb (a b : kind) : bool :=
  match a, b with
  | KStr, KStr | KNum, KNum | KDate, KDate => true
  | _, _ => false
  end.

Definition homogeneous (vs : list value) : bool :=
  match omap kind_of vs with
  | [] => true
  | k :: ks => forallb (kind_eqb k) ks
  end.

Definition to_Q (v : value) : Q :=
  match v with
  | Int z => inject_Z z
  | Float q => q
  | _ => 0%Q
  end.

Definition value_compare (a b : value) : comparison :=
  match a, b with
  | NaN, NaN => Eq
  | NaN, _ => Gt
  | _, NaN => Lt
  | Str s, Str t => String.compare s t
  | Date x, Date y => Z.compare x y
  | (Int _ | Float _), (Int _ | Float _) => Qcompare (to_Q a) (to_Q b)
  | _, _ => Eq
  end.

Fixpoint key_compare (by_columns : list string) (r1 r2 : gmap string value)
  : comparison :=
  match by_columns with
  | [] => Eq
  | c :: cs =>
      match value_compare (cell r1 c) (cell r2 c) with
      | Eq => key_compare cs r1 r2
      | o => o
      end
  end.

Definition key_leb (by_columns : list string) (r1 r2 : gmap string value)
  : bool :=
  match key_compare by_columns r1 r2 with Gt => false | _ => true end.

Fixpoint insert_row (by_columns : list string) (x : Z * gmap string value)
    (l : list (Z * gmap string value)) : list (Z * gmap string value) :=
  match l with
  | [] => [x]
  | y :: l' =>
      if key_leb by_columns (snd x) (snd y) then x :: y :: l'
      else y :: insert_row by_columns x l'
  end.

Definition stable_sort (by_columns : list string)
    (l : list (Z * gmap string value)) : list (Z * gmap string value) :=
  foldr (insert_row by_columns) [] l.

Definition sortable (by_columns : list string) (df : DataFrame) : bool :=
  forallb (fun c => homogeneous (column_values df c)) by_columns.

(** [df.sort_values(by, ignore_index=..., na_position='last')] *)
Definition sort_values (by_columns : list string) (ignore_index : bool)
    (df : DataFrame) : result DataFrame :=
  if sortable by_columns df then
    let sorted := {| columns := columns df;
                     rows := stable_sort by_columns (rows df) |} in
    OK (if ignore_index then reset_index sorted else sorted)
  else Err TypeError.

(** Rows in the order [sort_values] produces: each row's key is no greater
    than the key of the row after it. *)
Definition in_sort_order (by_columns : list string)
    (rs : list (gmap string value)) : Prop :=
  forall (i : nat) r1 r2, rs !! i = Some r1 -> rs !! S i = Some r2 ->
    key_leb by_columns r1 r2 = true.

(** ** Names, reading time, averages *)

(** [sep.join(parts)]: every part must be a [str]. *)
Fixpoint join_strings (sep : string) (parts : list string) : string :=
  match parts with
  | [] => ""
  | [s] => s
  | s :: rest => s +:+ sep +:+ join_strings sep rest
  end.

Definition as_str (v : value) : option string :=
  match v with Str s => Some s | _ => None end.

Definition str_join (sep : string) (parts : list value) : result value :=
  match mapM as_str parts with
  | Some ss => OK (Str (join_strings sep ss))
  | None => Err TypeError
  end.

Definition generate_full_author (author_fn author_mn author_ln : value)
  : result value :=
  if str_eq author_mn "" then str_join " " [author_fn; author_ln]
  else str_join " " [author_fn; author_mn; author_ln].

(** [(finish - start).days + 1]; subtraction is defined between dates. *)
Definition update_reading_time (start finish : value) : result value :=
  if isnull start || isnull finish then OK NaN
  else match start, finish with
       | Date s, Date f => OK (Int (f - s + 1))
       | _, _ => Err TypeError
       end.

(** Round half to even, the rounding of [numpy.rint]. *)
Definition rint (q : Q) : Z :=
  let f := Qfloor q in
  match Qcompare (q - inject_Z f) (1 # 2) with
  | Lt => f
  | Gt => f + 1
  | Eq => if Z.even f then f else f + 1
  end.

(** [round(x, 1)] on a numpy float: scale by ten, round, scale back. *)
Definition round1 (q : Q) : Q := Qred (inject_Z (rint (q * 10)) / 10).

Definition numeric (v : value) : option Q :=
  match v with
  | Int z => Some (inject_Z z)
  | Float q => Some q
  | _ => None
  end.

Definition Qsum (qs : list Q) : Q := foldr Qplus 0%Q qs.

(** [Series.mean()]: missing values are skipped, no value left gives [nan],
    a cell that is not a number raises [TypeError]. *)
Definition series_mean (cells : list value) : result value :=
  match mapM numeric (filter (fun v => notna v = true) cells) with
  | None => Err TypeError
  | Some [] => OK NaN
  | Some qs => OK (Float (Qred (Qsum qs / inject_Z (Z.of_nat (length qs)))))
  end.

(** [round(avg_rating, 1)] when [pd.notna(avg_rating)] *)
Definition round_rating (avg_rating : value) : value :=
  match avg_rating with
  | Float q => Float (round1 q)
  | Int z => Float (round1 (inject_Z z))
  | v => v
  end.

(** ** The program

    [int], [float] and [pd.to_datetime(...).date()] read a typed line; what
    they accept is Python's and pandas' business, so they are parameters:
    [None] is the exception they raise ([ValueError]), and a parsed date is
    either an ordinal or missing ([NaT], which the empty line gives). *)

Section Program.

Variable py_int : string -> option Z.
Variable py_float : string -> option Q.
Variable to_datetime_date : string -> option (option Z).

Definition int_input : M Z :=
  line ← input; from_option ValueError (py_int line).

Definition date_value (d : option Z) : value :=
  match d with Some o => Date o | None => NaN end.

Definition date_input : M value :=
  line ← input; from_option ValueError (date_value <$> to_datetime_date line).

(** [int(rating) if rating != '' else np.nan] *)
Definition format_rating (rating : string) : M value :=
  if bool_decide (rating ≠ "") then
    from_option ValueError (Int <$> py_int rating)
  else mret NaN.

(** *** Common functions *)

(** The [while update_mode not in [1,2,3]] loop: it ends at a valid answer,
    at a line [int] rejects, or at the end of the input. *)
Fixpoint select_mode_loop (update_mode : Z) (lines : list string)
  : result Z * list string :=
  if bool_decide (update_mode ∈ [1; 2; 3]) then (OK update_mode, lines)
  else match lines with
       | [] => (Err EOFError, [])
       | line :: rest =>
           match py_int line with
           | Some n => select_mode_loop n rest
           | None => (Err ValueError, rest)
           end
       end.

Definition select_mode : M Z :=
  update_mode ← int_input;
  on_stdin (select_mode_loop update_mode).

(** The [while book_title not in db['Title'].values] loop. *)
Fixpoint prompt_for_title_loop (db : DataFrame) (book_title : string)
    (lines : list string) : result string * list string :=
  if title_in book_title db then (OK book_title, lines)
  else match lines with
       | [] => (Err EOFError, [])
       | line :: rest => prompt_for_title_loop db line rest
       end.

Definition prompt_for_title (db : DataFrame) (update_mode : Z) : M string :=
  book_title ← input;
  if bool_decide (update_mode = 1) then mret book_title
  else on_stdin (prompt_for_title_loop db book_title).

(** *** Book database updates *)

Definition title_is (book_title : string) (r : gmap string value) : bool :=
  str_eq (cell r "Title") book_title.

(** The dict [new_book], its ['Author'] entry set last. *)
Definition new_book (book_title author_fn author_mn author_ln length rating
    genre : string) (author : value) : list (string * value) :=
  [("Title", Str book_title);
   ("Author FN", Str author_fn);
   ("Author MN", Str author_mn);
   ("Author LN", Str author_ln);
   ("Length", Str length);
   ("Rating", Str rating);
   ("Genre", Str genre);
   ("Author", author)].

Definition add_new_book (books_db : DataFrame) (book_title : string)
  : M DataFrame :=
  author_fn ← input;
  author_mn ← input;
  author_ln ← input;
  length ← input;
  rating ← input;
  genre ← input;
  author ← lift (generate_full_author (Str author_fn) (Str author_mn)
                                      (Str author_ln));
  mret (append_dict (new_book book_title author_fn author_mn author_ln
                              length rating genre author) books_db).

Definition book_prop_dict : list (Z * string) :=
  [(1, "Title"); (2, "Author FN"); (3, "Author MN"); (4, "Author LN");
   (5, "Length"); (6, "Rating"); (7, "Genre")].

(** [d[key]] on a dict: [KeyError] for a key it does not have. *)
Definition dict_get (d : list (Z * string)) (key : Z) : M string :=
  from_option KeyError
    ((fun found => snd (snd found)) <$> list_find (fun kv => fst kv = key) d).

(** [values[0]]: [IndexError] on an empty array. *)
Definition first_value (vs : list value) : M value :=
  from_option IndexError (head vs).

Definition edit_existing_book (books_db : DataFrame) (book_title : string)
  : M DataFrame :=
  key ← int_input;
  prop_to_update ← dict_get book_prop_dict key;
  new_value ← input;
  new_value ←
    (if String.eqb prop_to_update "Length" then
       from_option ValueError (Int <$> py_int new_value)
     else if String.eqb prop_to_update "Rating" then
       from_option ValueError (Float <$> py_float new_value)
     else mret (Str new_value));
  let books_db :=
    loc_set_mask (title_is book_title) prop_to_update new_value books_db in
  if bool_decide (prop_to_update ∈ ["Author FN"; "Author MN"; "Author LN"])
  then
    author_fn ← first_value
      (loc_mask_values (title_is book_title) "Author FN" books_db);
    author_mn ← first_value
      (loc_mask_values (title_is book_title) "Author MN" books_db);
    let author_mn := if isnull author_mn then Str "" else author_mn in
    author_ln ← first_value
      (loc_mask_values (title_is book_title) "Author LN" books_db);
    author ← lift (generate_full_author author_fn author_mn author_ln);
    mret (loc_set_mask (title_is book_title) "Author" author books_db)
  else mret books_db.

Definition remove_existing_book (books_db : DataFrame) (book_title : string)
  : DataFrame :=
  drop_mask (title_is book_title) books_db.

Definition sort_values_M (by_columns : list string) (ignore_index : bool)
    (df : DataFrame) : M DataFrame :=
  df ← lift (sort_values by_columns ignore_index df);
  emit (SortValues by_columns);;
  mret df.

Definition update_book_db (db_directory : string) : M unit :=
  let db_path := db_directory +:+ "/" +:+ "books.csv" in
  books_db ← read_csv db_path;
  update_mode ← select_mode;
  book_title ← prompt_for_title books_db update_mode;
  books_db ←
    (if bool_decide (update_mode = 1) then
       if title_in book_title books_db then
         switch_mode ← int_input;
         if bool_decide (switch_mode = 1) then
           edit_existing_book books_db book_title
         else
           add_new_book (drop_mask (title_is book_title) books_db) book_title
       else add_new_book books_db book_title
     else if bool_decide (update_mode = 2) then
       edit_existing_book books_db book_title
     else mret (remove_existing_book books_db book_title));
  books_db ← sort_values_M ["Author LN"; "Title"] true books_db;
  to_csv books_db db_path.

(** *** Reading database updates *)

Definition update_reading_count (reading_db : DataFrame)
    (db_directory book_title : string) : M unit :=
  emit (ReadingCountUpdate book_title);;
  let title_filter := title_is book_title in
  let finish_filter := fun r => notna (cell r "Finish") in
  let read_cnt :=
    Z.of_nat (length (filter (fun lr => title_filter (snd lr)
                                        && finish_filter (snd lr) = true)
                             (rows reading_db))) in
  let books_db_path := db_directory +:+ "/books.csv" in
  books_db ← read_csv books_db_path;
  books_db ←
    (if title_in book_title books_db then
       mret (loc_set_mask (title_is book_title) "Times Read" (Int read_cnt)
                          books_db)
     else
       books_db ← add_new_book books_db book_title;
       mret (loc_set_mask (title_is book_title) "Times Read" (Int read_cnt)
                          books_db));
  to_csv books_db books_db_path.

Definition update_book_rating (reading_db : DataFrame)
    (db_directory book_title : string) : M unit :=
  emit (BookRatingUpdate book_title);;
  let title_filter := title_is book_title in
  avg_rating ← lift (series_mean
                       (loc_mask_values title_filter "Rating" reading_db));
  let avg_rating :=
    if notna avg_rating then round_rating avg_rating else avg_rating in
  let books_db_path := db_directory +:+ "/books.csv" in
  books_db ← read_csv books_db_path;
  books_db ←
    (if title_in book_title books_db then
       mret (loc_set_mask (title_is book_title) "Rating" avg_rating books_db)
     else
       books_db ← add_new_book books_db book_title;
       mret (loc_set_mask (title_is book_title) "Rating" avg_rating
                          books_db));
  to_csv books_db books_db_path.

Definition add_reading_entry (reading_db : DataFrame) (book_title : string)
  : M DataFrame :=
  start_date ← date_input;
  finish_date ← date_input;
  rating ← input;
  rating ← format_rating rating;
  reading_time ← lift (update_reading_time start_date finish_date);
  let new_entry_dict := [("Title", Str book_title);
                         ("Start", start_date);
                         ("Finish", finish_date);
                         ("Reading Time", reading_time);
                         ("Rating", rating)] in
  let reading_db := append_dict new_entry_dict reading_db in
  emit (ReadingEntryAdded book_title);;
  mret reading_db.

Definition reading_prop_dict : list (Z * string) :=
  [(1, "Title"); (2, "Start"); (3, "Finish"); (4, "Rating")].

Definition edit_reading_entry (reading_db : DataFrame) (book_title : string)
  : M DataFrame :=
  index_to_edit ← int_input;
  key ← int_input;
  prop_to_update ← dict_get reading_prop_dict key;
  new_value ← input;
  new_value ←
    (if String.eqb prop_to_update "Start"
        || String.eqb prop_to_update "Finish" then
       from_option ValueError (date_value <$> to_datetime_date new_value)
     else if String.eqb prop_to_update "Rating" then
       format_rating new_value
     else mret (Str new_value));
  let reading_db := loc_set index_to_edit prop_to_update new_value reading_db in
  start ← lift (loc_get index_to_edit "Start" reading_db);
  finish ← lift (loc_get index_to_edit "Finish" reading_db);
  new_time ← lift (update_reading_time start finish);
  let reading_db := loc_set index_to_edit "Reading Time" new_time reading_db in
  emit (ReadingEntryEdited book_title);;
  mret reading_db.

Definition remove_reading_entry (reading_db : DataFrame) (book_title : string)
  : M DataFrame :=
  index_to_remove ← int_input;
  reading_db ← lift (drop index_to_remove reading_db);
  emit (ReadingEntryRemoved book_title);;
  mret reading_db.

(** [edit_reading_entry] changes the frame it is given and returns that same
    frame, so the name [reading_rb] the first branch binds its result to and
    [reading_db] are one object: the edited frame is what the calls after
    it see.  Turning the start and finish columns into dates after
    [read_csv] is part of reading the file here, whose cells are typed. *)
Definition update_reading_db (db_directory : string) : M unit :=
  let db_path := db_directory +:+ "/" +:+ "reading.csv" in
  reading_db ← read_csv db_path;
  update_mode ← int_input;
  book_title ← prompt_for_title reading_db update_mode;
  reading_db ←
    (if bool_decide (update_mode = 1) then
       if title_in book_title reading_db then
         switch_to_edit ← input;
         if bool_decide (switch_to_edit ∈ ["Y"; "y"]) then
           reading_db ← edit_reading_entry reading_db book_title;
           update_reading_count reading_db db_directory book_title;;
           update_book_rating reading_db db_directory book_title;;
           mret reading_db
         else
           reading_db ← add_reading_entry reading_db book_title;
           update_reading_count reading_db db_directory book_title;;
           update_book_rating reading_db db_directory book_title;;
           mret reading_db
       else
         reading_db ← add_reading_entry reading_db book_title;
         update_reading_count reading_db db_directory book_title;;
         update_book_rating reading_db db_directory book_title;;
         mret reading_db
     else if bool_decide (update_mode = 2) then
       reading_db ← edit_reading_entry reading_db book_title;
       update_reading_count reading_db db_directory book_title;;
       update_book_rating reading_db db_directory book_title;;
       mret reading_db
     else
       reading_db ← remove_reading_entry reading_db book_title;
       update_reading_count reading_db db_directory book_title;;
       update_book_rating reading_db db_directory book_title;;
       mret reading_db);
  reading_db ← sort_values_M ["Finish"; "Start"] false reading_db;
  to_csv reading_db db_path.

End Program.

(** ** Readers for plain ASCII lines

    Instances of the three parameters, enough to run the program on
    concrete sessions: decimal integers with an optional minus sign,
    decimals with an optional fraction, and [YYYY-MM-DD] dates turned into
    ordinals the way [datetime.date.toordinal] counts them. *)

Definition digit_of (c : ascii) : option Z :=
  let n := Z.of_nat (nat_of_ascii c) in
  if (48 <=? n) && (n <=? 57) then Some (n - 48) else None.

Fixpoint digits_value (acc : Z) (s : string) : option Z :=
  match s with
  | EmptyString => Some acc
  | String c rest =>
      match digit_of c with
      | Some d => digits_value (10 * acc + d) rest
      | None => None
      end
  end.

Definition ascii_nat (s : string) : option Z :=
  if String.eqb s "" then None else digits_value 0 s.

Definition ascii_int (s : string) : option Z :=
  match s with
  | String "-" rest => Z.opp <$> ascii_nat rest
  | _ => ascii_nat s
  end.

Definition ascii_float (s : string) : option Q :=
  match String.index 0 "." s with
  | None => inject_Z <$> ascii_int s
  | Some i =>
      let whole := String.substring 0 i s in
      let frac := String.substring (S i) (String.length s - S i) s in
      match ascii_int whole, ascii_nat frac with
      | Some n, Some f =>
          let scale := inject_Z (10 ^ Z.of_nat (String.length frac)) in
          let part := (inject_Z f / scale)%Q in
          Some (Qred (if String.prefix "-" s then inject_Z n - part
                      else inject_Z n + part))
      | _, _ => None
      end
  end.

Definition is_leap (y : Z) : bool :=
  (y mod 4 =? 0) && (negb (y mod 100 =? 0) || (y mod 400 =? 0)).

Definition days_in_month (y m : Z) : Z :=
  if m =? 2 then (if is_leap y then 29 else 28)
  else if (m =? 4) || (m =? 6) || (m =? 9) || (m =? 11) then 30 else 31.

Definition days_before_year (y : Z) : Z :=
  let y := y - 1 in y * 365 + y / 4 - y / 100 + y / 400.

Definition days_before_month (y m : Z) : Z :=
  foldr Z.add 0 ((fun k => days_in_month y (Z.of_nat k)) <$> seq 1 (Z.to_nat m - 1)).

Definition ymd2ord (y m d : Z) : Z :=
  days_before_year y + days_before_month y m + d.

Definition iso_date (s : string) : option (option Z) :=
  if String.eqb s "" then Some None
  else if negb (Nat.eqb (String.length s) 10) then None
  else
    match ascii_nat (String.substring 0 4 s),
          ascii_nat (String.substring 5 2 s),
          ascii_nat (String.substring 8 2 s) with
    | Some y, Some m, Some d =>
        if String.eqb (String.substring 4 1 s) "-"
           && String.eqb (String.substring 7 1 s) "-"
           && (1 <=? y) && (1 <=? m) && (m <=? 12)
           && (1 <=? d) && (d <=? days_in_month y m)
        then Some (Some (ymd2ord y m d)) else None
    | _, _, _ => None
    end.

(** ** Vocabulary of the specification

    What the claims speak of, written from their words; the theorems below
    relate the program to these. *)

Definition empty_books : csv_file :=
  {| csv_columns := book_db_cols; csv_rows := [] |}.
Definition empty_reading : csv_file :=
  {| csv_columns := reading_db_cols; csv_rows := [] |}.

(** What the files are after a run. *)
Definition created (force_overwrite : bool) (dir : string)
    (files : gmap string csv_file) : gmap string csv_file :=
  let books := dir +:+ "/" +:+ "books.csv" in
  let reading := dir +:+ "/" +:+ "reading.csv" in
  let with_books :=
    if bool_decide (is_Some (files !! books)) && negb force_overwrite
    then files else <[books := empty_books]> files in
  if bool_decide (is_Some (files !! reading)) && negb force_overwrite
  then with_books else <[reading := empty_reading]> with_books.

(** The number of reading-log rows for a title with a finish date. *)
Definition finished_readings (book_title : string) (reading_db : DataFrame)
  : Z :=
  Z.of_nat (length (filter (fun lr : Z * gmap string value =>
                              cell (snd lr) "Title" = Str book_title
                              /\ cell (snd lr) "Finish" ≠ NaN)
                           (rows reading_db))).

(** The ratings on the rows for a title, missing or not, in row order. *)
Definition ratings_of (book_title : string) (reading_db : DataFrame)
  : list value :=
  (fun lr => cell (snd lr) "Rating")
  <$> filter (fun lr : Z * gmap string value =>
                cell (snd lr) "Title" = Str book_title) (rows reading_db).

(** The ratings that are defined, as numbers. *)
Definition defined_ratings (book_title : string) (reading_db : DataFrame)
  : list Q :=
  omap numeric (ratings_of book_title reading_db).

(** Every rating on a row for the title is a number or missing. *)
Definition ratings_numeric (book_title : string) (reading_db : DataFrame)
  : Prop :=
  Forall (fun v => v = NaN \/ is_Some (numeric v))
         (ratings_of book_title reading_db).

Definition mean (qs : list Q) : Q :=
  (Qsum qs / inject_Z (Z.of_nat (length qs)))%Q.

(** The rating the catalog is to show: nothing without a rating, else the
    mean rounded to one decimal place. *)
Definition expected_rating (book_title : string) (reading_db : DataFrame)
  : value :=
  match defined_ratings book_title reading_db with
  | [] => NaN
  | qs => Float (round1 (mean qs))
  end.

(** The catalog has a record for the title. *)
Definition in_catalog (book_title : string) (catalog : csv_file) : Prop :=
  exists r, r ∈ csv_rows catalog /\ cell r "Title" = Str book_title.

(** "First Last", or "First Middle Last" with a middle name. *)
Definition full_author (first middle last : string) : string :=
  if String.eqb middle "" then first +:+ " " +:+ last
  else first +:+ " " +:+ middle +:+ " " +:+ last.

(** A stub record for a title: the title, and nothing else but possibly
    the one derived field the synchronizer has just set. *)
Definition is_stub (book_title derived : string) (r : gmap string value)
  : bool :=
  str_eq (cell r "Title") book_title
  && forallb (fun c => String.eqb c "Title" || String.eqb c derived
                       || isnull (cell r c)) book_db_cols.

(** At most one record of the catalog carries the title. *)
Definition unique_title (book_title : string) (books_db : DataFrame) : Prop :=
  forall (i j : nat) lr1 lr2,
    rows books_db !! i = Some lr1 -> rows books_db !! j = Some lr2 ->
    title_is book_title (snd lr1) = true ->
    title_is book_title (snd lr2) = true -> i = j.

(** A computation that writes no file and logs nothing. *)
Definition quiet {A} (m : M A) : Prop :=
  forall w, fs (snd (m w)) = fs w /\ trace (snd (m w)) = trace w.

(** A computation that writes no file and logs one event, as its last
    step, when it completes, and nothing when it fails. *)
Definition announces {A} (ev : event) (m : M A) : Prop :=
  forall w,
    fs (snd (m w)) = fs w
    /\ trace (snd (m w))
       = match fst (m w) with
         | OK _ => (trace w ++ [ev])%list
         | Err _ => trace w
         end.

(** A synchronizer pass: it logs its start, writes at most the catalog,
    and logs that write when it completes. *)
Definition passes {A} (ev : event) (path : string) (m : M A) : Prop :=
  forall w,
    (forall p, p ≠ path -> fs (snd (m w)) !! p = fs w !! p)
    /\ trace (snd (m w))
       = match fst (m w) with
         | OK _ => (trace w ++ [ev; ToCsv path])%list
         | Err _ => (trace w ++ [ev])%list
         end.

(** The events of a reading-log session that runs to its end. *)
Definition session_events (dir book_title : string) (mutation : event)
  : list event :=
  [mutation;
   ReadingCountUpdate book_title; ToCsv (dir +:+ "/books.csv");
   BookRatingUpdate book_title; ToCsv (dir +:+ "/books.csv");
   SortValues ["Finish"; "Start"]; ToCsv (dir +:+ "/" +:+ "reading.csv")].

(** The sort keys of the catalog are text: each record's last name and
    title is a string or missing. *)
Definition text_keys (rs : list (gmap string value)) : Prop :=
  forall r c, r ∈ rs -> c ∈ ["Author LN"; "Title"] ->
    cell r c = NaN \/ exists s, cell r c = Str s.

(** Every entry's reading time is the one its start and finish give. *)
Definition reading_times_consistent (rs : list (gmap string value)) : Prop :=
  forall r, r ∈ rs ->
    update_reading_time (cell r "Start") (cell r "Finish")
    = OK (cell r "Reading Time").

(** The files at [paths] are on disk. *)
Definition on_disk (paths : list string) (files : gmap string csv_file)
  : Prop :=
  forall p, p ∈ paths -> is_Some (files !! p).

(** A computation that removes no file and, started with the files at
    [paths] on disk, does not fail for a missing file. *)
Definition finds_files (paths : list string) {A} (m : M A) : Prop :=
  forall w,
    (forall p, is_Some (fs w !! p) -> is_Some (fs (snd (m w)) !! p))
    /\ (on_disk paths (fs w) -> fst (m w) ≠ Err FileNotFoundError).

(** The rows of a stored table; none when there is no such file. *)
Definition stored_rows (path : string) (w : world)
  : list (gmap string value) :=
  default [] (csv_rows <$> fs w !! path).

(** ** Sample data *)

Definition dune_entry : gmap string value :=
  list_to_map [("Title", Str "Dune"); ("Start", Date 738886);
               ("Finish", Date 738895); ("Reading Time", Int 10);
               ("Rating", Int 5)].

Definition emma_entry : gmap string value :=
  list_to_map [("Title", Str "Emma"); ("Start", Date 738900);
               ("Finish", NaN); ("Reading Time", NaN); ("Rating", NaN)].

Definition dune_log : DataFrame :=
  {| columns := reading_db_cols; rows := [(0, dune_entry); (1, emma_entry)] |}.

Definition dune_book : gmap string value :=
  list_to_map [("Title", Str "Dune"); ("Author", Str "Frank Herbert");
               ("Author FN", Str "Frank"); ("Author MN", NaN);
               ("Author LN", Str "Herbert")].

Definition emma_book : gmap string value :=
  list_to_map [("Title", Str "Emma"); ("Author", Str "Jane Austen");
               ("Author FN", Str "Jane"); ("Author LN", Str "Austen")].

(** A data directory ["d"] with both stores just created. *)
Definition fresh_files : gmap string csv_file :=
  {["d/books.csv" := empty_books; "d/reading.csv" := empty_reading]}.

(** A data directory with one book read once and one being read. *)
Definition dune_files : gmap string csv_file :=
  {["d/books.csv" := {| csv_columns := book_db_cols;
                        csv_rows := [emma_book; dune_book] |};
    "d/reading.csv" := file_of_frame dune_log]}.

Definition typing (lines : list string) (files : gmap string csv_file)
  : world :=
  {| stdin := lines; fs := files; trace := [] |}.

(** * Properties *)

(** ** Tools *)

Ltac unfold_monad :=
  unfold update_reading_count, update_book_rating, add_new_book,
    sort_values_M, int_input, date_input, format_rating, dict_get,
    first_value, create_books_db, create_reading_db,
    mbind, M_bind, mret, M_ret, from_option, lift, raise, emit, input,
    read_csv, to_csv, isfile, on_stdin in *.

Lemma books_path_ne_reading (dir : string) :
  dir +:+ "/" +:+ "books.csv" ≠ dir +:+ "/" +:+ "reading.csv".
Proof.
  intros H. apply (inj (String.app dir)) in H. discriminate H.
Qed.

Lemma reading_path_ne_books (dir : string) :
  dir +:+ "/" +:+ "reading.csv" ≠ dir +:+ "/books.csv".
Proof.
  intros H. apply (inj (String.app dir)) in H. discriminate H.
Qed.

(** ** The readers *)

Example iso_date_2024_01_10 : iso_date "2024-01-10" = Some (Some 738895).
Proof. vm_compute. reflexivity. Qed.

Example ascii_float_4_5 : ascii_float "4.5" = Some (9 # 2)%Q.
Proof. vm_compute. reflexivity. Qed.

Example ascii_int_neg : ascii_int "-12" = Some (-12).
Proof. vm_compute. reflexivity. Qed.

(** ** Reading time *)

Lemma update_reading_time_dates (s f : Z) :
  update_reading_time (Date s) (Date f) = OK (Int (f - s + 1)).
Proof. reflexivity. Qed.

(** C5.  For dates [start <= finish] the reading time is the number of
    days from [start] to [finish] plus one; and whatever the two arguments
    are, the result is missing exactly when [start] or [finish] is. *)
Theorem update_reading_time_spec :
  (forall s f : Z, s <= f ->
     update_reading_time (Date s) (Date f) = OK (Int (f - s + 1))
     /\ 1 <= f - s + 1)
  /\ (forall start finish : value,
        update_reading_time start finish = OK NaN
        <-> isnull start = true \/ isnull finish = true).
Proof.
  split.
  - intros s f Hle. split; [apply update_reading_time_dates | lia].
  - intros start finish. unfold update_reading_time. split.
    + destruct start, finish; simpl; intros H;
        first [ discriminate H | left; reflexivity | right; reflexivity ].
    + intros [H | H].
      * rewrite H. reflexivity.
      * rewrite H, orb_true_r. reflexivity.
Qed.

Lemma update_reading_time_spec_witness :
  738886 <= 738895
  /\ update_reading_time (Date 738886) (Date 738895) = OK (Int 10).
Proof.
  split; [lia |].
  apply (proj1 update_reading_time_spec 738886 738895). lia.
Defined.

(** ** Author names *)

(** For name parts that are strings the author is "First Last" when the
    middle name is empty and "First Middle Last" otherwise. *)
Lemma generate_full_author_strings (first middle last : string) :
  generate_full_author (Str first) (Str middle) (Str last)
  = OK (Str (if String.eqb middle ""
             then first +:+ " " +:+ last
             else first +:+ " " +:+ middle +:+ " " +:+ last)).
Proof.
  unfold generate_full_author. simpl.
  destruct (String.eqb middle ""); reflexivity.
Qed.

(** ** Database creation *)

Lemma create_databases_run (force_overwrite : bool) (dir : string) (w : world) :
  fst (create_databases force_overwrite dir w) = OK tt
  /\ fs (snd (create_databases force_overwrite dir w))
     = created force_overwrite dir (fs w).
Proof.
  unfold create_databases, created. unfold_monad. simpl.
  destruct (bool_decide (is_Some (fs w !! (dir +:+ "/" +:+ "books.csv"))));
    destruct (bool_decide (is_Some (fs w !! (dir +:+ "/" +:+ "reading.csv"))));
    destruct force_overwrite; simpl; split; reflexivity.
Qed.

Lemma created_keeps (dir : string) (files : gmap string csv_file) path content :
  files !! path = Some content -> created false dir files !! path = Some content.
Proof.
  intros Hpath. unfold created. rewrite !andb_true_r.
  repeat case_bool_decide;
    repeat (rewrite lookup_insert; case_decide; subst);
    try assumption;
    match goal with
    | H : ¬ is_Some (files !! ?p), Hp : files !! ?p = Some _ |- _ =>
        exfalso; apply H; rewrite Hp; eauto
    end.
Qed.

Lemma created_has_both (force_overwrite : bool) (dir : string)
    (files : gmap string csv_file) :
  is_Some (created force_overwrite dir files !! (dir +:+ "/" +:+ "books.csv"))
  /\ is_Some (created force_overwrite dir files
              !! (dir +:+ "/" +:+ "reading.csv")).
Proof.
  pose proof (books_path_ne_reading dir) as Hne.
  unfold created.
  destruct force_overwrite; rewrite ?andb_false_r, ?andb_true_r;
    repeat case_bool_decide; split;
    repeat (rewrite lookup_insert; case_decide; subst);
    first [ assumption | congruence | solve [eauto] ].
Qed.

(** C9.  Without the force flag [create_databases] leaves every file that
    exists as it is, and a second run changes nothing; with the flag both
    storage files end up as empty tables with the columns of their store,
    whatever they held, and no other file is touched. *)
Theorem create_databases_spec (data_directory : string) (w : world) :
  let books := data_directory +:+ "/" +:+ "books.csv" in
  let reading := data_directory +:+ "/" +:+ "reading.csv" in
  let once := snd (create_databases false data_directory w) in
  let forced := snd (create_databases true data_directory w) in
  (forall path content, fs w !! path = Some content ->
     fs once !! path = Some content)
  /\ fs (snd (create_databases false data_directory once)) = fs once
  /\ fst (create_databases false data_directory w) = OK tt
  /\ fst (create_databases true data_directory w) = OK tt
  /\ fs forced !! books
     = Some {| csv_columns := book_db_cols; csv_rows := [] |}
  /\ fs forced !! reading
     = Some {| csv_columns := reading_db_cols; csv_rows := [] |}
  /\ (forall path, path ≠ books -> path ≠ reading ->
        fs forced !! path = fs w !! path).
Proof.
  pose proof (books_path_ne_reading data_directory) as Hne.
  cbv zeta.
  destruct (create_databases_run false data_directory w) as [Hr1 Hf1].
  destruct (create_databases_run true data_directory w) as [Hr2 Hf2].
  rewrite Hf1, Hf2.
  repeat split; try assumption.
  - intros path content. apply created_keeps.
  - destruct (create_databases_run false data_directory
                (snd (create_databases false data_directory w))) as [_ Hf3].
    rewrite Hf3, Hf1.
    destruct (created_has_both false data_directory (fs w)) as [Hb Hr].
    unfold created at 1. rewrite !andb_true_r.
    rewrite (bool_decide_eq_true_2 _ Hb), (bool_decide_eq_true_2 _ Hr).
    reflexivity.
  - unfold created. rewrite !andb_false_r. by simplify_map_eq.
  - unfold created. rewrite !andb_false_r. by simplify_map_eq.
  - intros path Hb Hr. unfold created. rewrite !andb_false_r.
    by simplify_map_eq.
Qed.

Lemma create_databases_spec_witness :
  let w := {| stdin := [];
              fs := {["d/books.csv" :=
                        {| csv_columns := book_db_cols;
                           csv_rows := [{["Title" := Str "Dune"]}] |}]};
              trace := [] |} in
  fs w !! "d/books.csv"
  = Some {| csv_columns := book_db_cols;
            csv_rows := [{["Title" := Str "Dune"]}] |}
  /\ fs (snd (create_databases false "d" w)) !! "d/books.csv"
     = Some {| csv_columns := book_db_cols;
               csv_rows := [{["Title" := Str "Dune"]}] |}.
Proof.
  cbv zeta. split; [reflexivity |].
  apply (proj1 (create_databases_spec "d" _)). reflexivity.
Defined.

(** ** Frames *)

Lemma snd_range_index (rs : list (gmap string value)) :
  snd <$> range_index rs = rs.
Proof.
  unfold range_index. rewrite fmap_imap.
  rewrite (imap_ext _ (const id)) by done.
  rewrite imap_const. apply list_fmap_id.
Qed.

Lemma fst_range_index (rs : list (gmap string value)) :
  fst <$> range_index rs = Z.of_nat <$> seq 0 (length rs).
Proof.
  unfold range_index. apply list_eq. intros i.
  rewrite !list_lookup_fmap, list_lookup_imap.
  destruct (rs !! i) as [r|] eqn:Hi; simpl.
  - apply lookup_lt_Some in Hi.
    rewrite lookup_seq_lt by lia. reflexivity.
  - apply lookup_ge_None in Hi.
    rewrite lookup_seq_ge by lia. reflexivity.
Qed.

Lemma file_of_frame_of_file (f : csv_file) : file_of_frame (frame_of_file f) = f.
Proof.
  destruct f as [cols rs]. unfold file_of_frame, frame_of_file. simpl.
  by rewrite snd_range_index.
Qed.

(** The labels of a frame just read are all different. *)
Lemma frame_of_file_NoDup (f : csv_file) : NoDup (index (frame_of_file f)).
Proof.
  unfold index, frame_of_file. simpl. rewrite fst_range_index.
  apply NoDup_fmap; [apply _ | apply NoDup_seq].
Qed.

Lemma title_is_true (book_title : string) (r : gmap string value) :
  title_is book_title r = true <-> cell r "Title" = Str book_title.
Proof.
  unfold title_is, str_eq. destruct (cell r "Title"); try (split; discriminate).
  rewrite String.eqb_eq. split; congruence.
Qed.

Lemma title_in_true (book_title : string) (df : DataFrame) :
  title_in book_title df = true
  <-> exists lr, lr ∈ rows df /\ title_is book_title (snd lr) = true.
Proof.
  unfold title_in, column_values, title_is. induction (rows df) as [|lr l IH].
  - simpl. split; [discriminate |]. intros (lr & Hin & _). inversion Hin.
  - rewrite fmap_cons. simpl. rewrite orb_true_iff, IH. split.
    + intros [H | (x & Hin & H)].
      * exists lr. split; [left | exact H].
      * exists x. split; [by right | exact H].
    + intros (x & Hin & H). apply elem_of_cons in Hin as [-> | Hin].
      * by left.
      * right. by exists x.
Qed.

Lemma title_in_false (book_title : string) (df : DataFrame) :
  title_in book_title df = false
  -> forall lr, lr ∈ rows df -> title_is book_title (snd lr) = false.
Proof.
  intros Hnot lr Hin. destruct (title_is book_title (snd lr)) eqn:Ht; [|done].
  assert (title_in book_title df = true) as Hyes
    by (apply title_in_true; eauto).
  congruence.
Qed.

Lemma title_in_frame_of_file (book_title : string) (f : csv_file) :
  title_in book_title (frame_of_file f) = true <-> in_catalog book_title f.
Proof.
  rewrite title_in_true. unfold in_catalog, frame_of_file. simpl. split.
  - intros (lr & Hin & Ht). exists (snd lr). split.
    + rewrite <- (snd_range_index (csv_rows f)).
      by apply list_elem_of_fmap_2.
    + by apply title_is_true.
  - intros (r & Hin & Ht).
    rewrite <- (snd_range_index (csv_rows f)) in Hin.
    apply list_elem_of_fmap in Hin as (lr & -> & Hin).
    exists lr. split; [done | by apply title_is_true].
Qed.

(** The rows [loc_set_mask] leaves, without their labels. *)
Lemma snd_loc_set_mask mask col v df :
  snd <$> rows (loc_set_mask mask col v df)
  = (fun r => if mask r then <[col := v]> r else r) <$> (snd <$> rows df).
Proof.
  unfold loc_set_mask. simpl. rewrite <- !list_fmap_compose.
  apply list_fmap_ext. intros i [l r] _. simpl. by destruct (mask r).
Qed.

Lemma snd_append_dict d df :
  snd <$> rows (append_dict d df)
  = ((snd <$> rows df) ++ [list_to_map d])%list.
Proof. unfold append_dict. simpl. apply snd_range_index. Qed.

Lemma fmap_unmasked (mask : gmap string value -> bool) col (v : value)
    (rs : list (gmap string value)) :
  (forall r, r ∈ rs -> mask r = false) ->
  (fun r => if mask r then <[col := v]> r else r) <$> rs = rs.
Proof.
  intros Hno. rewrite <- (list_fmap_id rs) at 2.
  apply list_fmap_ext. intros i r Hi. simpl.
  rewrite Hno; [done |]. apply list_elem_of_lookup. eauto.
Qed.

(** ** [add_new_book] *)

Lemma add_new_book_run books_db book_title fn mn ln len rat gen rest files tr :
  add_new_book books_db book_title
    {| stdin := fn :: mn :: ln :: len :: rat :: gen :: rest;
       fs := files; trace := tr |}
  = (OK (append_dict (new_book book_title fn mn ln len rat gen
                               (Str (full_author fn mn ln))) books_db),
     {| stdin := rest; fs := files; trace := tr |}).
Proof.
  unfold add_new_book. unfold_monad. simpl.
  rewrite generate_full_author_strings. reflexivity.
Qed.

Lemma new_book_title book_title fn mn ln len rat gen author col v :
  title_is book_title
    (<[col := v]> (list_to_map (new_book book_title fn mn ln len rat gen author)))
  = (if decide (col = "Title") then str_eq v book_title else true).
Proof.
  unfold title_is, cell. rewrite lookup_insert.
  destruct (decide (col = "Title")) as [->|Hne].
  - reflexivity.
  - replace (list_to_map (new_book book_title fn mn ln len rat gen author)
             !! "Title") with (Some (Str book_title)) by reflexivity.
    apply String.eqb_refl.
Qed.

(** ** The synchronizer *)

Lemma read_cnt_finished (book_title : string) (reading_db : DataFrame) :
  Z.of_nat (length (filter
    (fun lr : Z * gmap string value =>
       title_is book_title (snd lr) && notna (cell (snd lr) "Finish") = true)
    (rows reading_db)))
  = finished_readings book_title reading_db.
Proof.
  unfold finished_readings. f_equal. f_equal.
  apply list_filter_iff. intros [l r]. simpl.
  rewrite andb_true_iff, title_is_true. unfold notna.
  destruct (cell r "Finish"); simpl; split; intros [H1 H2]; split;
    solve [ assumption | discriminate | reflexivity | congruence ].
Qed.

Lemma update_reading_count_present reading_db dir book_title w catalog :
  fs w !! (dir +:+ "/books.csv") = Some catalog ->
  title_in book_title (frame_of_file catalog) = true ->
  update_reading_count reading_db dir book_title w
  = (OK tt,
     {| stdin := stdin w;
        fs := <[dir +:+ "/books.csv" :=
                  file_of_frame
                    (loc_set_mask (title_is book_title) "Times Read"
                       (Int (finished_readings book_title reading_db))
                       (frame_of_file catalog))]> (fs w);
        trace := trace w ++ [ReadingCountUpdate book_title;
                             ToCsv (dir +:+ "/books.csv")] |}).
Proof.
  intros Hfile Hin. destruct w as [lines files tr]. simpl in *.
  unfold_monad. simpl. rewrite Hfile, Hin. simpl.
  rewrite read_cnt_finished, <- app_assoc. reflexivity.
Qed.

Lemma update_reading_count_absent reading_db dir book_title catalog
    fn mn ln len rat gen rest files tr :
  files !! (dir +:+ "/books.csv") = Some catalog ->
  title_in book_title (frame_of_file catalog) = false ->
  update_reading_count reading_db dir book_title
    {| stdin := fn :: mn :: ln :: len :: rat :: gen :: rest;
       fs := files; trace := tr |}
  = (OK tt,
     {| stdin := rest;
        fs := <[dir +:+ "/books.csv" :=
                  file_of_frame
                    (loc_set_mask (title_is book_title) "Times Read"
                       (Int (finished_readings book_title reading_db))
                       (append_dict
                          (new_book book_title fn mn ln len rat gen
                                    (Str (full_author fn mn ln)))
                          (frame_of_file catalog)))]> files;
        trace := tr ++ [ReadingCountUpdate book_title;
                        ToCsv (dir +:+ "/books.csv")] |}).
Proof.
  intros Hfile Hin.
  unfold update_reading_count, emit, read_csv, to_csv, mbind, M_bind,
    mret, M_ret. simpl.
  rewrite Hfile, Hin. rewrite add_new_book_run. simpl.
  rewrite read_cnt_finished, <- app_assoc. reflexivity.
Qed.

(** The rows a pass leaves in the catalog when the title was absent: the
    old rows, untouched, and the new record with the derived field set. *)
Lemma synced_new_rows book_title col (v : value) catalog d :
  title_in book_title (frame_of_file catalog) = false ->
  title_is book_title (list_to_map d) = true ->
  csv_rows (file_of_frame (loc_set_mask (title_is book_title) col v
                             (append_dict d (frame_of_file catalog))))
  = (csv_rows catalog ++ [<[col := v]> (list_to_map d)])%list.
Proof.
  intros Hin Hd. unfold file_of_frame at 1. simpl.
  change (snd <$> rows (loc_set_mask (title_is book_title) col v
                          (append_dict d (frame_of_file catalog)))
          = (csv_rows catalog ++ [<[col := v]> (list_to_map d)])%list).
  rewrite snd_loc_set_mask, snd_append_dict, fmap_app. simpl. rewrite Hd.
  f_equal. unfold frame_of_file. simpl. rewrite snd_range_index.
  apply fmap_unmasked. intros r Hr.
  destruct (title_is book_title r) eqn:Ht; [|done].
  assert (title_in book_title (frame_of_file catalog) = true) as Hyes.
  { apply title_in_frame_of_file. exists r. split; [done|].
    by apply title_is_true. }
  congruence.
Qed.

(** The rows a pass leaves when the title was present. *)
Lemma synced_rows book_title col (v : value) catalog :
  csv_rows (file_of_frame (loc_set_mask (title_is book_title) col v
                             (frame_of_file catalog)))
  = (fun r => if title_is book_title r then <[col := v]> r else r)
    <$> csv_rows catalog.
Proof.
  unfold file_of_frame at 1. simpl.
  change (snd <$> rows (loc_set_mask (title_is book_title) col v
                          (frame_of_file catalog))
          = (fun r => if title_is book_title r then <[col := v]> r else r)
            <$> csv_rows catalog).
  rewrite snd_loc_set_mask. unfold frame_of_file. simpl.
  by rewrite snd_range_index.
Qed.

(** After either kind of pass: the title has a record, and every record
    with the title holds [v] in the column that was set. *)
Lemma synced_field book_title col (v : value) (rs : list (gmap string value)) :
  col ≠ "Title" ->
  (exists r, r ∈ rs /\ title_is book_title r = true) ->
  let rs' := (fun r => if title_is book_title r then <[col := v]> r else r)
             <$> rs in
  (exists r, r ∈ rs' /\ cell r "Title" = Str book_title)
  /\ (forall r, r ∈ rs' -> cell r "Title" = Str book_title -> cell r col = v).
Proof.
  intros Hcol (r0 & Hin0 & Ht0). simpl. split.
  - exists (<[col := v]> r0). split.
    + apply list_elem_of_fmap. exists r0. by rewrite Ht0.
    + unfold cell. rewrite lookup_insert_ne by done.
      by apply title_is_true.
  - intros r' Hin' Ht'. apply list_elem_of_fmap in Hin' as (r & -> & Hin).
    destruct (title_is book_title r) eqn:Ht.
    + unfold cell. by rewrite lookup_insert_eq.
    + apply title_is_true in Ht'. congruence.
Qed.

Lemma new_book_titled book_title fn mn ln len rat gen author :
  title_is book_title
    (list_to_map (new_book book_title fn mn ln len rat gen author)) = true.
Proof.
  unfold title_is.
  replace (cell (list_to_map (new_book book_title fn mn ln len rat gen author))
                "Title") with (Str book_title) by reflexivity.
  apply String.eqb_refl.
Qed.

(** What a pass that sets [col] to [v] leaves in the catalog, whether the
    title had a record or one was added. *)
Lemma synced_catalog book_title col (v : value) (df : DataFrame) :
  col ≠ "Title" ->
  title_in book_title df = true ->
  let catalog' := file_of_frame (loc_set_mask (title_is book_title) col v df) in
  in_catalog book_title catalog'
  /\ (forall r, r ∈ csv_rows catalog' -> cell r "Title" = Str book_title ->
        cell r col = v).
Proof.
  intros Hcol Hin. cbv zeta. unfold in_catalog, file_of_frame.
  cbn [csv_rows]. rewrite snd_loc_set_mask.
  apply synced_field; [done |].
  apply title_in_true in Hin as (lr & Hlr & Ht).
  exists (snd lr). split; [by apply list_elem_of_fmap_2 | done].
Qed.

Lemma title_in_append_new_book book_title fn mn ln len rat gen author df :
  title_in book_title
    (append_dict (new_book book_title fn mn ln len rat gen author) df) = true.
Proof.
  apply title_in_true.
  pose proof (snd_append_dict
                (new_book book_title fn mn ln len rat gen author) df) as Hrows.
  assert (list_to_map (new_book book_title fn mn ln len rat gen author)
          ∈ snd <$> rows (append_dict
                            (new_book book_title fn mn ln len rat gen author) df))
    as Hin.
  { rewrite Hrows. apply elem_of_app. right. by left. }
  apply list_elem_of_fmap in Hin as (lr & Heq & Hin).
  exists lr. split; [done |]. rewrite <- Heq. apply new_book_titled.
Qed.

(** C1.  After [update_reading_count] for a title, the catalog has a record
    for the title and every record with the title has, as its times read,
    the number of reading-log rows with that title and a finish date.  The
    pass completes whenever the catalog file exists and, if the title is
    new, the six answers [add_new_book] asks for are typed. *)
Theorem update_reading_count_spec (reading_db : DataFrame)
    (dir book_title : string) (w : world) (catalog : csv_file) :
  fs w !! (dir +:+ "/books.csv") = Some catalog ->
  in_catalog book_title catalog \/ (6 <= length (stdin w))%nat ->
  exists w' catalog',
    update_reading_count reading_db dir book_title w = (OK tt, w')
    /\ fs w' !! (dir +:+ "/books.csv") = Some catalog'
    /\ in_catalog book_title catalog'
    /\ (forall r, r ∈ csv_rows catalog' ->
          cell r "Title" = Str book_title ->
          cell r "Times Read"
          = Int (finished_readings book_title reading_db)).
Proof.
  intros Hfile Hready.
  destruct (title_in book_title (frame_of_file catalog)) eqn:Hin.
  - eexists _, _. split; [by apply update_reading_count_present |].
    simpl. split; [by rewrite lookup_insert_eq |].
    by apply synced_catalog.
  - destruct Hready as [Hcat | Hlines].
    { apply title_in_frame_of_file in Hcat. congruence. }
    destruct w as [lines files tr]. simpl in *.
    destruct lines as [|fn [|mn [|ln [|len [|rat [|gen rest]]]]]];
      simpl in Hlines; try lia.
    eexists _, _. split; [by apply update_reading_count_absent |].
    simpl. split; [by rewrite lookup_insert_eq |].
    apply synced_catalog; [done |]. apply title_in_append_new_book.
Qed.

(** ** Averages and rounding *)

Lemma rint_comp (p q : Q) : (p == q)%Q -> rint p = rint q.
Proof.
  intros Heq. unfold rint. rewrite (Qfloor_comp _ _ Heq).
  assert (((p - inject_Z (Qfloor q)) ?= (1 # 2))%Q
          = ((q - inject_Z (Qfloor q)) ?= (1 # 2))%Q) as ->.
  { apply Qcompare_comp; [|reflexivity]. rewrite Heq. reflexivity. }
  reflexivity.
Qed.

(** [rint] is a nearest integer. *)
Lemma rint_near (q : Q) : (Qabs (inject_Z (rint q) - q) <= 1 # 2)%Q.
Proof.
  pose proof (Qfloor_le q) as Hlo. pose proof (Qlt_floor q) as Hhi.
  rewrite inject_Z_plus in Hhi. change (inject_Z 1) with 1%Q in Hhi.
  unfold rint. apply Qabs_Qle_condition.
  destruct (Qcompare_spec (q - inject_Z (Qfloor q)) (1 # 2)) as [He|Hl|Hg].
  - destruct (Z.even (Qfloor q)); rewrite ?inject_Z_plus;
      change (inject_Z 1) with 1%Q; split; lra.
  - split; lra.
  - rewrite inject_Z_plus. change (inject_Z 1) with 1%Q. split; lra.
Qed.

Lemma round1_comp (p q : Q) : (p == q)%Q -> round1 p = round1 q.
Proof.
  intros Heq. unfold round1. f_equal. f_equal. f_equal.
  apply rint_comp. by rewrite Heq.
Qed.

(** [round1] gives a whole number of tenths ... *)
Lemma round1_tenths (q : Q) : (round1 q == inject_Z (rint (q * 10)) / 10)%Q.
Proof. unfold round1. apply Qred_correct. Qed.

(** ... and one nearest to its argument. *)
Lemma round1_near (q : Q) : (Qabs (round1 q - q) <= 1 # 20)%Q.
Proof.
  rewrite round1_tenths.
  pose proof (rint_near (q * 10)) as H.
  apply Qabs_Qle_condition in H. apply Qabs_Qle_condition.
  destruct H as [H1 H2].
  set (k := inject_Z (rint (q * 10))) in *.
  assert (k / 10 == k * (1 # 10))%Q as -> by reflexivity.
  split; lra.
Qed.

Lemma mapM_numeric_defined (cells : list value) :
  Forall (fun v => v = NaN \/ is_Some (numeric v)) cells ->
  mapM numeric (filter (fun v => notna v = true) cells)
  = Some (omap numeric cells).
Proof.
  induction 1 as [|v l [-> | [q Hq]] _ IH].
  - reflexivity.
  - rewrite filter_cons_False by (simpl; discriminate). exact IH.
  - assert (notna v = true) as Hv by (destruct v; done).
    rewrite filter_cons_True by done.
    cbn [mapM omap list_omap]. rewrite Hq, IH. reflexivity.
Qed.

Lemma series_mean_numeric (cells : list value) :
  Forall (fun v => v = NaN \/ is_Some (numeric v)) cells ->
  series_mean cells
  = OK (match omap numeric cells with
        | [] => NaN
        | qs => Float (Qred (mean qs))
        end).
Proof.
  intros Hcells. unfold series_mean. rewrite mapM_numeric_defined by done.
  destruct (omap numeric cells); reflexivity.
Qed.

Lemma loc_mask_values_ratings (book_title : string) (reading_db : DataFrame) :
  loc_mask_values (title_is book_title) "Rating" reading_db
  = ratings_of book_title reading_db.
Proof.
  unfold loc_mask_values, ratings_of. f_equal.
  apply list_filter_iff. intros [l r]. simpl. apply title_is_true.
Qed.

(** The value [update_book_rating] writes. *)
Lemma rounded_mean (book_title : string) (reading_db : DataFrame) :
  (let avg_rating :=
     match defined_ratings book_title reading_db with
     | [] => NaN
     | qs => Float (Qred (mean qs))
     end in
   if notna avg_rating then round_rating avg_rating else avg_rating)
  = expected_rating book_title reading_db.
Proof.
  unfold expected_rating.
  destruct (defined_ratings book_title reading_db) as [|q qs]; [reflexivity|].
  simpl. f_equal. apply round1_comp, Qred_correct.
Qed.

Lemma update_book_rating_present reading_db dir book_title w catalog :
  fs w !! (dir +:+ "/books.csv") = Some catalog ->
  ratings_numeric book_title reading_db ->
  title_in book_title (frame_of_file catalog) = true ->
  update_book_rating reading_db dir book_title w
  = (OK tt,
     {| stdin := stdin w;
        fs := <[dir +:+ "/books.csv" :=
                  file_of_frame
                    (loc_set_mask (title_is book_title) "Rating"
                       (expected_rating book_title reading_db)
                       (frame_of_file catalog))]> (fs w);
        trace := trace w ++ [BookRatingUpdate book_title;
                             ToCsv (dir +:+ "/books.csv")] |}).
Proof.
  intros Hfile Hnum Hin. destruct w as [lines files tr]. simpl in *.
  unfold update_book_rating, emit, read_csv, to_csv, lift, mbind, M_bind,
    mret, M_ret. simpl.
  rewrite loc_mask_values_ratings, series_mean_numeric by done.
  rewrite Hfile, Hin. simpl.
  fold (defined_ratings book_title reading_db).
  pose proof (rounded_mean book_title reading_db) as Hrounded.
  cbv zeta in Hrounded. rewrite Hrounded, <- app_assoc. reflexivity.
Qed.

Lemma update_book_rating_absent reading_db dir book_title catalog
    fn mn ln len rat gen rest files tr :
  files !! (dir +:+ "/books.csv") = Some catalog ->
  ratings_numeric book_title reading_db ->
  title_in book_title (frame_of_file catalog) = false ->
  update_book_rating reading_db dir book_title
    {| stdin := fn :: mn :: ln :: len :: rat :: gen :: rest;
       fs := files; trace := tr |}
  = (OK tt,
     {| stdin := rest;
        fs := <[dir +:+ "/books.csv" :=
                  file_of_frame
                    (loc_set_mask (title_is book_title) "Rating"
                       (expected_rating book_title reading_db)
                       (append_dict
                          (new_book book_title fn mn ln len rat gen
                                    (Str (full_author fn mn ln)))
                          (frame_of_file catalog)))]> files;
        trace := tr ++ [BookRatingUpdate book_title;
                        ToCsv (dir +:+ "/books.csv")] |}).
Proof.
  intros Hfile Hnum Hin.
  unfold update_book_rating, emit, read_csv, to_csv, lift, mbind, M_bind,
    mret, M_ret. simpl.
  rewrite loc_mask_values_ratings, series_mean_numeric by done.
  rewrite Hfile, Hin. rewrite add_new_book_run. simpl.
  fold (defined_ratings book_title reading_db).
  pose proof (rounded_mean book_title reading_db) as Hrounded.
  cbv zeta in Hrounded. rewrite Hrounded, <- app_assoc. reflexivity.
Qed.

(** C2.  After [update_book_rating] for a title, every catalog record with
    the title has as its rating the mean of the defined ratings of the
    title's reading-log rows rounded to one decimal place, and no rating at
    all (not zero) when none of those rows has one.  The rounded value is a
    whole number of tenths and no further than a twentieth from the mean. *)
Theorem update_book_rating_spec (reading_db : DataFrame)
    (dir book_title : string) (w : world) (catalog : csv_file) :
  fs w !! (dir +:+ "/books.csv") = Some catalog ->
  ratings_numeric book_title reading_db ->
  in_catalog book_title catalog \/ (6 <= length (stdin w))%nat ->
  exists w' catalog',
    update_book_rating reading_db dir book_title w = (OK tt, w')
    /\ fs w' !! (dir +:+ "/books.csv") = Some catalog'
    /\ in_catalog book_title catalog'
    /\ (forall r, r ∈ csv_rows catalog' ->
          cell r "Title" = Str book_title ->
          match defined_ratings book_title reading_db with
          | [] => cell r "Rating" = NaN
          | qs =>
              cell r "Rating" = Float (round1 (mean qs))
              /\ (exists tenths : Z,
                    round1 (mean qs) == inject_Z tenths / 10)%Q
              /\ (Qabs (round1 (mean qs) - mean qs) <= 1 # 20)%Q
          end).
Proof.
  intros Hfile Hnum Hready.
  assert (forall v, v = expected_rating book_title reading_db ->
            match defined_ratings book_title reading_db with
            | [] => v = NaN
            | qs =>
                v = Float (round1 (mean qs))
                /\ (exists tenths : Z,
                      round1 (mean qs) == inject_Z tenths / 10)%Q
                /\ (Qabs (round1 (mean qs) - mean qs) <= 1 # 20)%Q
            end) as Hvalue.
  { intros v ->. unfold expected_rating.
    destruct (defined_ratings book_title reading_db) as [|q qs]; [done |].
    split; [done |]. split; [|apply round1_near].
    eexists. apply round1_tenths. }
  destruct (title_in book_title (frame_of_file catalog)) eqn:Hin.
  - eexists _, _. split; [by apply update_book_rating_present |].
    simpl. split; [by rewrite lookup_insert_eq |].
    destruct (synced_catalog book_title "Rating"
                (expected_rating book_title reading_db)
                (frame_of_file catalog)) as [Hex Hall]; [done | done |].
    split; [exact Hex |]. intros r Hr Ht. apply Hvalue. by apply Hall.
  - destruct Hready as [Hcat | Hlines].
    { apply title_in_frame_of_file in Hcat. congruence. }
    destruct w as [lines files tr]. simpl in *.
    destruct lines as [|fn [|mn [|ln [|len [|rat [|gen rest]]]]]];
      simpl in Hlines; try lia.
    eexists _, _. split; [by apply update_book_rating_absent |].
    simpl. split; [by rewrite lookup_insert_eq |].
    destruct (synced_catalog book_title "Rating"
                (expected_rating book_title reading_db)
                (append_dict (new_book book_title fn mn ln len rat gen
                                       (Str (full_author fn mn ln)))
                             (frame_of_file catalog))) as [Hex Hall];
      [done | apply title_in_append_new_book |].
    split; [exact Hex |]. intros r Hr Ht. apply Hvalue. by apply Hall.
Qed.

(** ** Records the synchronizer adds *)

Lemma not_in_catalog (book_title : string) (catalog : csv_file) :
  ~ in_catalog book_title catalog ->
  title_in book_title (frame_of_file catalog) = false.
Proof.
  intros Hnot. destruct (title_in book_title (frame_of_file catalog)) eqn:Hin;
    [|done].
  exfalso. apply Hnot. by apply title_in_frame_of_file.
Qed.

(** C3, as the code has it.  When the title has no catalog record, a pass
    of either kind appends one record to the catalog, after the records
    already there and without changing them: its title is the title, its
    name parts, length, rating and genre are the six lines typed in
    answer to [add_new_book]'s prompts, its author is composed from the
    typed name parts, and its times read is missing; on that record the
    pass then sets its derived field.  After the pass the catalog has a
    record for the title.  ([update_book_rating] computes its average
    first, which takes ratings that are numbers or missing.) *)
Theorem synchronizer_adds_typed_record (reading_db : DataFrame)
    (dir book_title : string) (catalog : csv_file)
    (fn mn ln len rat gen : string) (rest : list string)
    (files : gmap string csv_file) (tr : list event) :
  files !! (dir +:+ "/books.csv") = Some catalog ->
  ~ in_catalog book_title catalog ->
  let w := {| stdin := fn :: mn :: ln :: len :: rat :: gen :: rest;
              fs := files; trace := tr |} in
  let record : gmap string value :=
    list_to_map [("Title", Str book_title); ("Author FN", Str fn);
                 ("Author MN", Str mn); ("Author LN", Str ln);
                 ("Length", Str len); ("Rating", Str rat);
                 ("Genre", Str gen);
                 ("Author", Str (full_author fn mn ln))] in
  cell record "Times Read" = NaN
  /\ (exists w' catalog',
        update_reading_count reading_db dir book_title w = (OK tt, w')
        /\ stdin w' = rest
        /\ fs w' !! (dir +:+ "/books.csv") = Some catalog'
        /\ csv_rows catalog'
           = (csv_rows catalog
              ++ [<["Times Read" :=
                      Int (finished_readings book_title reading_db)]> record])%list
        /\ in_catalog book_title catalog')
  /\ (ratings_numeric book_title reading_db ->
      exists w' catalog',
        update_book_rating reading_db dir book_title w = (OK tt, w')
        /\ stdin w' = rest
        /\ fs w' !! (dir +:+ "/books.csv") = Some catalog'
        /\ csv_rows catalog'
           = (csv_rows catalog
              ++ [<["Rating" :=
                      expected_rating book_title reading_db]> record])%list
        /\ in_catalog book_title catalog').
Proof.
  intros Hfile Hnot. cbv zeta.
  apply not_in_catalog in Hnot.
  split; [reflexivity |]. split; [| intros Hnum].
  - eexists _, _. split; [by apply update_reading_count_absent |].
    simpl. split; [done |]. split; [by rewrite lookup_insert_eq |].
    split.
    + apply synced_new_rows; [done | apply new_book_titled].
    + apply synced_catalog; [done | apply title_in_append_new_book].
  - eexists _, _. split; [by apply update_book_rating_absent |].
    simpl. split; [done |]. split; [by rewrite lookup_insert_eq |].
    split.
    + apply synced_new_rows; [done | apply new_book_titled].
    + apply synced_catalog; [done | apply title_in_append_new_book].
Qed.

(** C3, as the claim has it, fails: the record a pass creates for a new
    title carries what was typed at the prompts. *)
Lemma synchronizer_record_is_not_a_stub :
  let run :=
    update_reading_count dune_log "d" "Dune"
      (typing ["Frank"; ""; "Herbert"; "412"; ""; "Science fiction"]
              fresh_files) in
  let records := stored_rows "d/books.csv" (snd run) in
  ~ in_catalog "Dune" empty_books
  /\ fst run = OK tt
  /\ (fun r => cell r "Title") <$> records = [Str "Dune"]
  /\ is_stub "Dune" "Times Read" <$> records = [false]
  /\ (fun r => cell r "Author FN") <$> records = [Str "Frank"]
  /\ (fun r => cell r "Author LN") <$> records = [Str "Herbert"]
  /\ (fun r => cell r "Author") <$> records = [Str "Frank Herbert"]
  /\ (fun r => cell r "Length") <$> records = [Str "412"]
  /\ (fun r => cell r "Genre") <$> records = [Str "Science fiction"]
  /\ (fun r => cell r "Times Read") <$> records = [Int 1].
Proof.
  cbv zeta. split.
  - intros (r & Hin & _). inversion Hin.
  - repeat split; vm_compute; reflexivity.
Qed.

(** Even when every prompt is answered with an empty line the author of
    the new record is a string, a single space. *)
Example blank_answers_author :
  let run :=
    update_reading_count dune_log "d" "Dune"
      (typing [""; ""; ""; ""; ""; ""] fresh_files) in
  let records := stored_rows "d/books.csv" (snd run) in
  fst run = OK tt
  /\ (fun r => cell r "Author") <$> records = [Str " "]
  /\ (fun r => cell r "Author FN") <$> records = [Str ""]
  /\ is_stub "Dune" "Times Read" <$> records = [false].
Proof. cbv zeta. repeat split; vm_compute; reflexivity. Qed.

Lemma dune_ratings_numeric : ratings_numeric "Dune" dune_log.
Proof.
  unfold ratings_numeric.
  replace (ratings_of "Dune" dune_log) with [Int 5]
    by (vm_compute; reflexivity).
  constructor; [right; eexists; reflexivity | constructor].
Defined.

Lemma dune_in_catalog :
  in_catalog "Dune" {| csv_columns := book_db_cols;
                       csv_rows := [emma_book; dune_book] |}.
Proof.
  exists dune_book. split; [right; left | reflexivity].
Defined.

Lemma update_reading_count_spec_witness :
  fs (typing [] dune_files) !! ("d" +:+ "/books.csv")
  = Some {| csv_columns := book_db_cols; csv_rows := [emma_book; dune_book] |}
  /\ exists w' catalog',
       update_reading_count dune_log "d" "Dune" (typing [] dune_files)
       = (OK tt, w')
       /\ fs w' !! ("d" +:+ "/books.csv") = Some catalog'
       /\ in_catalog "Dune" catalog'
       /\ (forall r, r ∈ csv_rows catalog' ->
             cell r "Title" = Str "Dune" ->
             cell r "Times Read" = Int (finished_readings "Dune" dune_log)).
Proof.
  split; [vm_compute; reflexivity |].
  apply (update_reading_count_spec dune_log "d" "Dune" (typing [] dune_files)
           {| csv_columns := book_db_cols;
              csv_rows := [emma_book; dune_book] |}).
  - vm_compute. reflexivity.
  - left. exact dune_in_catalog.
Defined.

Lemma update_book_rating_spec_witness :
  ratings_numeric "Dune" dune_log
  /\ exists w' catalog',
       update_book_rating dune_log "d" "Dune" (typing [] dune_files)
       = (OK tt, w')
       /\ fs w' !! ("d" +:+ "/books.csv") = Some catalog'
       /\ in_catalog "Dune" catalog'
       /\ (forall r, r ∈ csv_rows catalog' ->
             cell r "Title" = Str "Dune" ->
             match defined_ratings "Dune" dune_log with
             | [] => cell r "Rating" = NaN
             | qs =>
                 cell r "Rating" = Float (round1 (mean qs))
                 /\ (exists tenths : Z,
                       round1 (mean qs) == inject_Z tenths / 10)%Q
                 /\ (Qabs (round1 (mean qs) - mean qs) <= 1 # 20)%Q
             end).
Proof.
  split; [exact dune_ratings_numeric |].
  apply (update_book_rating_spec dune_log "d" "Dune" (typing [] dune_files)
           {| csv_columns := book_db_cols;
              csv_rows := [emma_book; dune_book] |}).
  - vm_compute. reflexivity.
  - exact dune_ratings_numeric.
  - left. exact dune_in_catalog.
Defined.

Lemma synchronizer_adds_typed_record_witness :
  ~ in_catalog "Dune" empty_books
  /\ exists w' catalog',
       update_reading_count dune_log "d" "Dune"
         (typing ["Frank"; ""; "Herbert"; "412"; ""; "Science fiction"]
                 fresh_files) = (OK tt, w')
       /\ stdin w' = []
       /\ fs w' !! ("d" +:+ "/books.csv") = Some catalog'
       /\ csv_rows catalog'
          = (csv_rows empty_books
             ++ [<["Times Read" := Int (finished_readings "Dune" dune_log)]>
                   (list_to_map
                      [("Title", Str "Dune"); ("Author FN", Str "Frank");
                       ("Author MN", Str ""); ("Author LN", Str "Herbert");
                       ("Length", Str "412"); ("Rating", Str "");
                       ("Genre", Str "Science fiction");
                       ("Author", Str (full_author "Frank" "" "Herbert"))]
                    : gmap string value)])%list
       /\ in_catalog "Dune" catalog'.
Proof.
  assert (~ in_catalog "Dune" empty_books) as Hnot
    by (intros (r & Hin & _); inversion Hin).
  split; [exact Hnot |].
  apply (proj1 (proj2
    (synchronizer_adds_typed_record dune_log "d" "Dune" empty_books
       "Frank" "" "Herbert" "412" "" "Science fiction" [] fresh_files []
       ltac:(vm_compute; reflexivity) Hnot))).
Defined.

Example dune_counts :
  finished_readings "Dune" dune_log = 1
  /\ finished_readings "Emma" dune_log = 0
  /\ expected_rating "Dune" dune_log = Float 5
  /\ expected_rating "Emma" dune_log = NaN.
Proof. repeat split; vm_compute; reflexivity. Qed.

(** ** Editing a book *)

Lemma generate_full_author_OK (a b c v : value) :
  generate_full_author a b c = OK v ->
  exists first middle last,
    a = Str first /\ b = Str middle /\ c = Str last
    /\ v = Str (full_author first middle last).
Proof.
  unfold generate_full_author, str_join, full_author.
  destruct b as [|middle| | |]; simpl;
    try (destruct a, c; simpl; discriminate).
  destruct a as [|first| | |], c as [|last| | |];
    destruct (String.eqb middle "") eqn:Hm; simpl; try discriminate.
  - apply String.eqb_eq in Hm. subst middle. intros [= <-].
    exists first, "", last. done.
  - intros [= <-]. exists first, middle, last. rewrite Hm. done.
Qed.

Lemma head_filter_unique {A B} (P : A -> bool) (f : A -> B) (l : list A) (x : A) :
  (forall (i j : nat) a b, l !! i = Some a -> l !! j = Some b ->
     P a = true -> P b = true -> i = j) ->
  x ∈ l -> P x = true ->
  head (f <$> filter (fun a => P a = true) l) = Some (f x).
Proof.
  induction l as [|y l IH]; intros Huniq Hin Hx; [inversion Hin |].
  destruct (P y) eqn:Hy.
  - rewrite filter_cons_True by done. simpl. f_equal. f_equal.
    apply list_elem_of_lookup in Hin as [j Hj].
    assert (0%nat = j) as <- by (eapply (Huniq 0%nat j y x); eauto).
    by injection Hj.
  - rewrite filter_cons_False by (rewrite Hy; discriminate).
    apply IH.
    + intros i j a b Hi Hj Ha Hb.
      assert (S i = S j) by (eapply (Huniq (S i) (S j) a b); eauto). lia.
    + apply elem_of_cons in Hin as [-> | Hin]; [congruence | done].
    + done.
Qed.

Lemma title_is_insert_ne book_title col (v : value) (r : gmap string value) :
  col ≠ "Title" -> title_is book_title (<[col := v]> r) = title_is book_title r.
Proof.
  intros Hne. unfold title_is, cell. by rewrite lookup_insert_ne.
Qed.

Lemma unique_title_loc_set_mask book_title col v df :
  col ≠ "Title" ->
  unique_title book_title df ->
  unique_title book_title (loc_set_mask (title_is book_title) col v df).
Proof.
  intros Hne Huniq i j lr1 lr2 Hi Hj H1 H2.
  unfold loc_set_mask in Hi, Hj. simpl in Hi, Hj.
  rewrite list_lookup_fmap in Hi, Hj.
  destruct (rows df !! i) as [a|] eqn:Ha; [|done].
  destruct (rows df !! j) as [b|] eqn:Hb; [|done].
  simpl in Hi, Hj. injection Hi as <-. injection Hj as <-.
  apply (Huniq i j a b); try done.
  - destruct (title_is book_title (snd a)) eqn:E; [done |]. by rewrite E in H1.
  - destruct (title_is book_title (snd b)) eqn:E; [done |]. by rewrite E in H2.
Qed.

(** The second half of [edit_existing_book], run on the frame [df] the
    first half leaves: the author is composed anew from the name parts of
    the record with the title. *)
Lemma recomputed_author book_title (df : DataFrame) (w : world) df' w' :
  unique_title book_title df ->
  (author_fn ← first_value
      (loc_mask_values (title_is book_title) "Author FN" df);
   author_mn ← first_value
      (loc_mask_values (title_is book_title) "Author MN" df);
   let author_mn := if isnull author_mn then Str "" else author_mn in
   author_ln ← first_value
      (loc_mask_values (title_is book_title) "Author LN" df);
   author ← lift (generate_full_author author_fn author_mn author_ln);
   mret (loc_set_mask (title_is book_title) "Author" author df)) w
  = (OK df', w') ->
  (exists author, df' = loc_set_mask (title_is book_title) "Author" author df)
  /\ forall lr, lr ∈ rows df' -> cell (snd lr) "Title" = Str book_title ->
    exists first middle last,
      cell (snd lr) "Author FN" = Str first
      /\ (cell (snd lr) "Author MN" = Str middle
          \/ cell (snd lr) "Author MN" = NaN /\ middle = "")
      /\ cell (snd lr) "Author LN" = Str last
      /\ cell (snd lr) "Author" = Str (full_author first middle last).
Proof.
  intros Huniq Hrun. unfold_monad. unfold loc_mask_values in Hrun.
  destruct (head ((fun lr => cell (snd lr) "Author FN")
                  <$> filter (fun lr => title_is book_title (snd lr) = true)
                             (rows df))) as [fnv|] eqn:Hfn; [|done].
  destruct (head ((fun lr => cell (snd lr) "Author MN")
                  <$> filter (fun lr => title_is book_title (snd lr) = true)
                             (rows df))) as [mnv|] eqn:Hmn; [|done].
  destruct (head ((fun lr => cell (snd lr) "Author LN")
                  <$> filter (fun lr => title_is book_title (snd lr) = true)
                             (rows df))) as [lnv|] eqn:Hln; [|done].
  simpl in Hrun.
  destruct (generate_full_author fnv (if isnull mnv then Str "" else mnv) lnv)
    as [author|] eqn:Hauthor; [|done].
  injection Hrun as <- <-.
  split; [by eexists |]. intros lr' Hin' Htitle'.
  unfold loc_set_mask in Hin'. simpl in Hin'.
  apply list_elem_of_fmap in Hin' as (lr & -> & Hin).
  apply title_is_true in Htitle'.
  assert (title_is book_title (snd lr) = true) as Htitle.
  { destruct (title_is book_title (snd lr)) eqn:E; [done |]. congruence. }
  rewrite Htitle in *. simpl in *.
  rewrite (head_filter_unique (fun lr => title_is book_title (snd lr))
             (fun lr => cell (snd lr) "Author FN") _ lr) in Hfn by done.
  rewrite (head_filter_unique (fun lr => title_is book_title (snd lr))
             (fun lr => cell (snd lr) "Author MN") _ lr) in Hmn by done.
  rewrite (head_filter_unique (fun lr => title_is book_title (snd lr))
             (fun lr => cell (snd lr) "Author LN") _ lr) in Hln by done.
  injection Hfn as <-. injection Hmn as <-. injection Hln as <-.
  apply generate_full_author_OK in Hauthor
    as (first & middle & last & Hf & Hm & Hl & ->).
  exists first, middle, last. unfold cell in *.
  rewrite !lookup_insert_ne by done. rewrite lookup_insert_eq.
  repeat split; try done.
  destruct (default NaN (snd lr !! "Author MN")) eqn:E; simpl in Hm;
    try discriminate;
    [right; split; [reflexivity | congruence] | left; congruence].
Qed.

Lemma loc_set_mask_elem book_title col (v : value) (df : DataFrame) lr :
  col ≠ "Title" ->
  lr ∈ rows (loc_set_mask (title_is book_title) col v df) ->
  title_is book_title (snd lr) = true ->
  exists lr0, lr0 ∈ rows df /\ title_is book_title (snd lr0) = true
              /\ snd lr = <[col := v]> (snd lr0).
Proof.
  intros Hne Hin Ht. unfold loc_set_mask in Hin. simpl in Hin.
  apply list_elem_of_fmap in Hin as (lr0 & -> & Hin).
  exists lr0. destruct (title_is book_title (snd lr0)) eqn:E.
  - done.
  - congruence.
Qed.


Lemma dune_unique_title :
  unique_title "Dune"
    (frame_of_file {| csv_columns := book_db_cols;
                      csv_rows := [emma_book; dune_book] |}).
Proof.
  intros i j lr1 lr2 Hi Hj H1 H2.
  destruct i as [|[|i]], j as [|[|j]]; simpl in Hi, Hj;
    try discriminate; try reflexivity;
    injection Hi as <-; injection Hj as <-;
    vm_compute in H1; vm_compute in H2; discriminate.
Defined.


Example edit_middle_name :
  let run :=
    edit_existing_book ascii_int ascii_float
      (frame_of_file {| csv_columns := book_db_cols;
                        csv_rows := [emma_book; dune_book] |})
      "Dune" (typing ["3"; "Patrick"] dune_files) in
  match fst run with
  | OK df => (fun lr => cell (snd lr) "Author") <$> rows df
  | Err _ => []
  end = [Str "Jane Austen"; Str "Frank Patrick Herbert"].
Proof. vm_compute. reflexivity. Qed.

(** ** Editing and removing reading entries *)

Lemma edit_reading_entry_inv py_int to_datetime_date reading_db book_title
    idx_line rest files tr idx df' w' :
  py_int idx_line = Some idx ->
  edit_reading_entry py_int to_datetime_date reading_db book_title
    {| stdin := idx_line :: rest; fs := files; trace := tr |} = (OK df', w') ->
  exists prop v start finish new_time,
    let edited := loc_set idx prop v reading_db in
    loc_get idx "Start" edited = OK start
    /\ loc_get idx "Finish" edited = OK finish
    /\ update_reading_time start finish = OK new_time
    /\ df' = loc_set idx "Reading Time" new_time edited
    /\ fs w' = files
    /\ trace w' = (tr ++ [ReadingEntryEdited book_title])%list.
Proof.
  intros Hidx Hrun.
  unfold edit_reading_entry, int_input, input, dict_get, format_rating,
    mbind, M_bind in Hrun.
  cbn [stdin] in Hrun. unfold from_option at 1 in Hrun. rewrite Hidx in Hrun.
  unfold mret at 1, M_ret at 1 in Hrun.
  destruct rest as [|key_line rest]; cbn [stdin] in Hrun; [discriminate |].
  destruct (py_int key_line) as [key|]; [| discriminate].
  unfold from_option at 1, mret at 1, M_ret at 1 in Hrun.
  destruct (_ <$> list_find _ reading_prop_dict) as [prop|];
    [| discriminate].
  unfold from_option at 1, mret at 1, M_ret at 1 in Hrun.
  destruct rest as [|new_value rest]; cbn [stdin] in Hrun; [discriminate |].
  match type of Hrun with
  | (match ?m ?w with _ => _ end) = _ =>
      destruct (m w) as [[v|?] w1] eqn:Hformat; [| discriminate]
  end.
  assert (fs w1 = files /\ trace w1 = tr) as [Hfs Htr].
  { clear Hrun. unfold from_option, mret, M_ret, raise in Hformat.
    repeat match type of Hformat with
           | context [if ?b then _ else _] => destruct b
           | context [match ?o with Some _ => _ | None => _ end] => destruct o
           end; simpl in Hformat; try discriminate;
      injection Hformat as _ <-; done. }
  unfold lift, emit, mret, M_ret in Hrun.
  destruct (loc_get idx "Start" (loc_set idx prop v reading_db))
    as [start|] eqn:Hstart; [| discriminate].
  destruct (loc_get idx "Finish" (loc_set idx prop v reading_db))
    as [finish|] eqn:Hfinish; [| discriminate].
  destruct (update_reading_time start finish) as [new_time|] eqn:Htime;
    [| discriminate].
  injection Hrun as <- <-.
  exists prop, v, start, finish, new_time. simpl.
  rewrite Hfs, Htr. done.
Qed.

Lemma loc_set_known label col (v : value) (df : DataFrame) :
  label ∈ index df ->
  rows (loc_set label col v df)
  = (fun lr => if bool_decide (fst lr = label)
               then (fst lr, <[col := v]> (snd lr)) else lr) <$> rows df.
Proof.
  intros Hin. unfold loc_set. by rewrite (bool_decide_eq_true_2 _ Hin).
Qed.

Lemma loc_set_unknown label col (v : value) (df : DataFrame) :
  label ∉ index df ->
  rows (loc_set label col v df) = (rows df ++ [(label, {[col := v]})])%list.
Proof.
  intros Hin. unfold loc_set. by rewrite (bool_decide_eq_false_2 _ Hin).
Qed.

Lemma index_loc_set label col (v : value) (df : DataFrame) :
  index (loc_set label col v df)
  = if bool_decide (label ∈ index df) then index df
    else (index df ++ [label])%list.
Proof.
  unfold index at 1. case_bool_decide as Hin.
  - rewrite loc_set_known by done. unfold index.
    rewrite <- list_fmap_compose. apply list_fmap_ext.
    intros i [l r] _. simpl. by case_bool_decide.
  - rewrite loc_set_unknown by done. by rewrite fmap_app.
Qed.

Lemma loc_set_labelled label col (v : value) (df : DataFrame) :
  label ∈ index (loc_set label col v df).
Proof.
  rewrite index_loc_set. case_bool_decide; [done |].
  apply elem_of_app. right. by left.
Qed.

Lemma loc_set_NoDup label col (v : value) (df : DataFrame) :
  NoDup (index df) -> NoDup (index (loc_set label col v df)).
Proof.
  intros Hnd. rewrite index_loc_set. case_bool_decide as Hin; [done |].
  apply NoDup_app. repeat split; [done | | apply NoDup_singleton].
  intros x Hx Hx'. apply list_elem_of_singleton in Hx'. by subst.
Qed.

Lemma NoDup_index_lookup (df : DataFrame) label r1 r2 :
  NoDup (index df) ->
  (label, r1) ∈ rows df -> (label, r2) ∈ rows df -> r1 = r2.
Proof.
  intros Hnd H1 H2.
  apply list_elem_of_lookup in H1 as [i Hi].
  apply list_elem_of_lookup in H2 as [j Hj].
  assert (i = j) as ->.
  { eapply NoDup_lookup; [exact Hnd | |];
      unfold index; rewrite list_lookup_fmap.
    - by rewrite Hi.
    - by rewrite Hj. }
  congruence.
Qed.

(** With unique labels, [df.loc[label, col]] reads the row with the label. *)
Lemma loc_get_elem label col (df : DataFrame) r :
  NoDup (index df) -> (label, r) ∈ rows df ->
  loc_get label col df = OK (cell r col).
Proof.
  intros Hnd Hin. unfold loc_get.
  destruct (list_find (fun lr => fst lr = label) (rows df))
    as [[i [l r']]|] eqn:Hfind.
  - apply list_find_Some in Hfind as (Hi & Hl & _). simpl in Hl. subst l.
    simpl. f_equal. f_equal.
    eapply NoDup_index_lookup; [exact Hnd | | exact Hin].
    apply list_elem_of_lookup. eauto.
  - apply list_find_None in Hfind.
    rewrite Forall_forall in Hfind. by specialize (Hfind _ Hin).
Qed.

Lemma loc_set_elem label col (v : value) (df : DataFrame) r' :
  (label, r') ∈ rows (loc_set label col v df) ->
  (exists r, (label, r) ∈ rows df /\ r' = <[col := v]> r)
  \/ ((label ∉ index df) /\ r' = {[col := v]}).
Proof.
  intros Hin. destruct (decide (label ∈ index df)) as [Hl | Hl].
  - left. rewrite loc_set_known in Hin by done.
    apply list_elem_of_fmap in Hin as ([l r] & Heq & Hin).
    simpl in Heq. case_bool_decide; simplify_eq; eauto.
  - right. split; [done |]. rewrite loc_set_unknown in Hin by done.
    apply elem_of_app in Hin as [Hin | Hin].
    + exfalso. apply Hl. unfold index.
      apply list_elem_of_fmap. by exists (label, r').
    + apply list_elem_of_singleton in Hin. by simplify_eq.
Qed.

(** Rows with another label are left alone. *)
Lemma loc_set_other label col (v : value) (df : DataFrame) lr :
  fst lr ≠ label ->
  (lr ∈ rows (loc_set label col v df)) <-> (lr ∈ rows df).
Proof.
  intros Hne. destruct (decide (label ∈ index df)) as [Hl | Hl].
  - rewrite loc_set_known by done. rewrite list_elem_of_fmap. split.
    + intros (lr0 & -> & Hin). by rewrite bool_decide_eq_false_2
        by (intros E; apply Hne; case_bool_decide; done).
    + intros Hin. exists lr. by rewrite bool_decide_eq_false_2.
  - rewrite loc_set_unknown by done. rewrite elem_of_app. split.
    + intros [Hin | Hin]; [done |].
      apply list_elem_of_singleton in Hin. by subst.
    + by left.
Qed.

Lemma update_reading_time_singleton col (v : value) :
  update_reading_time (cell {[col := v]} "Start") (cell {[col := v]} "Finish")
  = OK NaN.
Proof.
  unfold update_reading_time, cell.
  destruct (decide (col = "Start")) as [-> | Hne].
  - rewrite (lookup_singleton_ne "Start" "Finish") by done. simpl.
    by rewrite orb_true_r.
  - by rewrite lookup_singleton_ne by done.
Qed.

(** C10.  After [edit_reading_entry], whichever field was edited, the
    reading time of the row at the edited position is [update_reading_time]
    of the start and finish the row now has; at a valid position the table
    keeps its positions, and the rows at the other positions are the rows
    it had. *)
Theorem edit_reading_entry_reading_time
    (py_int : string -> option Z)
    (to_datetime_date : string -> option (option Z))
    (reading_db : DataFrame) (book_title idx_line : string)
    (rest : list string) (files : gmap string csv_file) (tr : list event)
    (idx : Z) (df' : DataFrame) (w' : world) :
  NoDup (index reading_db) ->
  idx ∈ index reading_db ->
  py_int idx_line = Some idx ->
  edit_reading_entry py_int to_datetime_date reading_db book_title
    {| stdin := idx_line :: rest; fs := files; trace := tr |} = (OK df', w') ->
  index df' = index reading_db
  /\ (exists r, (idx, r) ∈ rows df')
  /\ (forall r, (idx, r) ∈ rows df' ->
        update_reading_time (cell r "Start") (cell r "Finish")
        = OK (cell r "Reading Time"))
  /\ (forall lr, fst lr ≠ idx -> (lr ∈ rows df') <-> (lr ∈ rows reading_db)).
Proof.
  intros Hnd Hvalid Hidx Hrun.
  apply (edit_reading_entry_inv _ _ _ _ _ _ _ _ idx) in Hrun
    as (prop & v & start & finish & new_time & Hstart & Hfinish & Htime
        & -> & _ & _); [| done].
  set (edited := loc_set idx prop v reading_db) in *.
  assert (NoDup (index edited)) as Hnd1 by by apply loc_set_NoDup.
  assert (idx ∈ index edited) as Hin1 by apply loc_set_labelled.
  assert (index edited = index reading_db) as Hindex1.
  { subst edited. rewrite index_loc_set. by rewrite bool_decide_eq_true_2. }
  split; [| split; [| split]].
  - rewrite index_loc_set. by rewrite bool_decide_eq_true_2.
  - pose proof (loc_set_labelled idx "Reading Time" new_time edited) as Hin2.
    unfold index in Hin2. apply list_elem_of_fmap in Hin2 as ([l r] & Hl & Hin2).
    simpl in Hl. subst l. eauto.
  - intros r Hr. apply loc_set_elem in Hr as [(r1 & Hr1 & ->) | [Hno _]];
      [| done].
    rewrite (loc_get_elem idx "Start" edited r1) in Hstart by done.
    rewrite (loc_get_elem idx "Finish" edited r1) in Hfinish by done.
    injection Hstart as <-. injection Hfinish as <-.
    unfold cell in *. rewrite !lookup_insert_ne by done.
    rewrite lookup_insert_eq. exact Htime.
  - intros lr Hne. rewrite loc_set_other by done.
    subst edited. by rewrite loc_set_other.
Qed.

(** C4, as the code has it.  At a position the table does not have,
    [remove_reading_entry] stops with [KeyError] and changes nothing, but
    [edit_reading_entry], when it completes, has added a row at that
    position: the rows the table had, followed by one row that holds
    nothing but the typed value for the chosen field. *)
Theorem invalid_position_edit_adds_row
    (py_int : string -> option Z)
    (to_datetime_date : string -> option (option Z))
    (reading_db : DataFrame) (book_title idx_line : string)
    (rest : list string) (files : gmap string csv_file) (tr : list event)
    (idx : Z) :
  py_int idx_line = Some idx ->
  idx ∉ index reading_db ->
  remove_reading_entry py_int reading_db book_title
    {| stdin := idx_line :: rest; fs := files; trace := tr |}
  = (Err KeyError, {| stdin := rest; fs := files; trace := tr |})
  /\ (forall df' w',
        edit_reading_entry py_int to_datetime_date reading_db book_title
          {| stdin := idx_line :: rest; fs := files; trace := tr |}
        = (OK df', w') ->
        exists prop v,
          rows df'
          = (rows reading_db
             ++ [(idx, <["Reading Time" := NaN]> {[prop := v]})])%list
          /\ length (rows df') = S (length (rows reading_db))).
Proof.
  intros Hidx Hinvalid. split.
  - unfold remove_reading_entry, int_input, input, lift, drop,
      mbind, M_bind, from_option, mret, M_ret. simpl.
    rewrite Hidx. by rewrite (bool_decide_eq_false_2 _ Hinvalid).
  - intros df' w' Hrun.
    apply (edit_reading_entry_inv _ _ _ _ _ _ _ _ idx) in Hrun
      as (prop & v & start & finish & new_time & Hstart & Hfinish & Htime
          & -> & _ & _); [| done].
    set (edited := loc_set idx prop v reading_db) in *.
    assert (rows edited = (rows reading_db ++ [(idx, {[prop := v]})])%list)
      as Hrows by by apply loc_set_unknown.
    assert (Hnew : forall col,
              loc_get idx col edited = OK (cell {[prop := v]} col)).
    { intros col. unfold loc_get. rewrite Hrows.
      destruct (list_find (fun lr => fst lr = idx)
                  (rows reading_db ++ [(idx, {[prop := v]})]))
        as [[i [l r]]|] eqn:Hfind.
      - apply list_find_Some in Hfind as (Hi & Hl & _). simpl in Hl. subst l.
        apply lookup_app_Some in Hi as [Hi | [_ Hi]].
        + exfalso. apply Hinvalid. unfold index.
          apply list_elem_of_fmap. exists (idx, r). split; [done |].
          apply list_elem_of_lookup. eauto.
        + apply list_lookup_singleton_Some in Hi as [_ Hi]. by simplify_eq.
      - apply list_find_None in Hfind. rewrite Forall_app in Hfind.
        destruct Hfind as [_ Hfind]. rewrite Forall_singleton in Hfind.
        done. }
    rewrite Hnew in Hstart, Hfinish.
    injection Hstart as <-. injection Hfinish as <-.
    rewrite update_reading_time_singleton in Htime. injection Htime as <-.
    exists prop, v.
    assert (rows (loc_set idx "Reading Time" NaN edited)
            = (rows reading_db
               ++ [(idx, <["Reading Time" := NaN]> {[prop := v]})])%list)
      as Hfinal.
    { rewrite loc_set_known by apply loc_set_labelled.
      rewrite Hrows, fmap_app. simpl.
      rewrite bool_decide_eq_true_2 by done. f_equal.
      rewrite <- (list_fmap_id (rows reading_db)) at 2.
      apply list_fmap_ext. intros i [l r] Hi. simpl.
      rewrite bool_decide_eq_false_2; [done |].
      intros ->. apply Hinvalid. unfold index.
      apply list_elem_of_fmap. exists (idx, r). split; [done |].
      apply list_elem_of_lookup. eauto. }
    split; [exact Hfinal |].
    rewrite Hfinal, length_app. simpl. lia.
Qed.

Lemma dune_log_index :
  NoDup (index dune_log) /\ (0 ∈ index dune_log) /\ (7 ∉ index dune_log).
Proof.
  repeat split; apply (bool_decide_unpack _); vm_compute; exact I.
Defined.

Lemma edit_reading_entry_reading_time_witness :
  NoDup (index dune_log)
  /\ (0 ∈ index dune_log)
  /\ ascii_int "0" = Some 0
  /\ exists df' w',
       edit_reading_entry ascii_int iso_date dune_log "Dune"
         (typing ["0"; "4"; "3"] dune_files) = (OK df', w')
       /\ index df' = index dune_log
       /\ (exists r, (0, r) ∈ rows df')
       /\ (forall r, (0, r) ∈ rows df' ->
             update_reading_time (cell r "Start") (cell r "Finish")
             = OK (cell r "Reading Time"))
       /\ (forall lr, fst lr ≠ 0 -> (lr ∈ rows df') <-> (lr ∈ rows dune_log)).
Proof.
  destruct dune_log_index as (Hnd & Hin & _).
  split; [exact Hnd |]. split; [exact Hin |]. split; [reflexivity |].
  eexists _, _. split; [vm_compute; reflexivity |].
  eapply (edit_reading_entry_reading_time ascii_int iso_date dune_log "Dune"
            "0" ["4"; "3"] dune_files [] 0).
  - exact Hnd.
  - exact Hin.
  - reflexivity.
  - vm_compute. reflexivity.
Defined.

Lemma invalid_position_edit_adds_row_witness :
  ascii_int "7" = Some 7
  /\ (7 ∉ index dune_log)
  /\ remove_reading_entry ascii_int dune_log "Dune"
       (typing ["7"; "1"; "Emma"] dune_files)
     = (Err KeyError, typing ["1"; "Emma"] dune_files)
  /\ (forall df' w',
        edit_reading_entry ascii_int iso_date dune_log "Dune"
          (typing ["7"; "1"; "Emma"] dune_files) = (OK df', w') ->
        exists prop v,
          rows df'
          = (rows dune_log
             ++ [(7, <["Reading Time" := NaN]> {[prop := v]})])%list
          /\ length (rows df') = S (length (rows dune_log))).
Proof.
  destruct dune_log_index as (_ & _ & Hout).
  split; [reflexivity |]. split; [exact Hout |].
  apply (invalid_position_edit_adds_row ascii_int iso_date dune_log "Dune"
           "7" ["1"; "Emma"] dune_files [] 7).
  - reflexivity.
  - exact Hout.
Defined.

(** The run itself: asked to edit entry 7 of a two-row log, the program
    completes and the log has a third row, titled as typed and otherwise
    empty. *)
Example edit_at_position_7 :
  let run :=
    edit_reading_entry ascii_int iso_date dune_log "Dune"
      (typing ["7"; "1"; "Emma"] dune_files) in
  match fst run with
  | OK df => (fun lr => (fst lr, cell (snd lr) "Title", cell (snd lr) "Start",
                         cell (snd lr) "Reading Time")) <$> rows df
  | Err _ => []
  end
  = [(0, Str "Dune", Date 738886, Int 10);
     (1, Str "Emma", Date 738900, NaN);
     (7, Str "Emma", NaN, NaN)].
Proof. vm_compute. reflexivity. Qed.

(** ** Sorting *)

Lemma in_sort_order_tail by_columns r (rs : list (gmap string value)) :
  in_sort_order by_columns (r :: rs) -> in_sort_order by_columns rs.
Proof. intros H i r1 r2 H1 H2. exact (H (S i) r1 r2 H1 H2). Qed.

Lemma in_sort_order_cons by_columns r1 r2 (rs : list (gmap string value)) :
  key_leb by_columns r1 r2 = true ->
  in_sort_order by_columns (r2 :: rs) ->
  in_sort_order by_columns (r1 :: r2 :: rs).
Proof.
  intros Hle H [|i] a b Ha Hb; simpl in *.
  - by simplify_eq.
  - exact (H i a b Ha Hb).
Qed.

(** Sorting rows that are in order leaves them as they are. *)
Lemma stable_sort_in_order by_columns (l : list (Z * gmap string value)) :
  in_sort_order by_columns (snd <$> l) -> stable_sort by_columns l = l.
Proof.
  induction l as [|x l IH]; intros Hsorted; [reflexivity |].
  unfold stable_sort in *. simpl.
  rewrite IH by (eapply in_sort_order_tail; exact Hsorted).
  destruct l as [|y l]; [reflexivity |]. simpl.
  by rewrite (Hsorted 0%nat (snd x) (snd y)).
Qed.

Lemma value_compare_antisym (a b : value) :
  value_compare b a = CompOpp (value_compare a b).
Proof.
  destruct a, b; simpl; try reflexivity.
  - apply String.compare_antisym.
  - by rewrite <- Qcompare_antisym.
  - by rewrite <- Qcompare_antisym.
  - by rewrite <- Qcompare_antisym.
  - by rewrite <- Qcompare_antisym.
  - apply Z.compare_antisym.
Qed.

Lemma key_compare_antisym by_columns (r1 r2 : gmap string value) :
  key_compare by_columns r2 r1 = CompOpp (key_compare by_columns r1 r2).
Proof.
  induction by_columns as [|c cs IH]; [reflexivity |]. simpl.
  rewrite (value_compare_antisym (cell r1 c) (cell r2 c)).
  destruct (value_compare (cell r1 c) (cell r2 c)); simpl; done.
Qed.

Lemma key_leb_total by_columns (r1 r2 : gmap string value) :
  key_leb by_columns r1 r2 = false -> key_leb by_columns r2 r1 = true.
Proof.
  unfold key_leb. rewrite (key_compare_antisym by_columns r1 r2).
  by destruct (key_compare by_columns r1 r2).
Qed.

Lemma insert_row_in_order by_columns x (l : list (Z * gmap string value)) :
  in_sort_order by_columns (snd <$> l) ->
  in_sort_order by_columns (snd <$> insert_row by_columns x l).
Proof.
  induction l as [|y l IH]; intros Hsorted.
  - intros [|i] a b Ha Hb; simpl in *; done.
  - simpl. destruct (key_leb by_columns (snd x) (snd y)) eqn:Hle.
    + rewrite !fmap_cons. by apply in_sort_order_cons.
    + rewrite fmap_cons. specialize (IH (in_sort_order_tail _ _ _ Hsorted)).
      destruct l as [|z l]; simpl in *.
      * apply in_sort_order_cons; [by apply key_leb_total |].
        intros [|i] a b Ha Hb; simpl in *; done.
      * destruct (key_leb by_columns (snd x) (snd z)) eqn:Hxz;
          rewrite !fmap_cons in *.
        -- apply in_sort_order_cons; [by apply key_leb_total | exact IH].
        -- apply in_sort_order_cons; [| exact IH].
           exact (Hsorted 0%nat (snd y) (snd z) eq_refl eq_refl).
Qed.

(** What the sort returns is in order. *)
Lemma stable_sort_sorts by_columns (l : list (Z * gmap string value)) :
  in_sort_order by_columns (snd <$> stable_sort by_columns l).
Proof.
  induction l as [|x l IH].
  - intros [|i] a b Ha Hb; simpl in *; done.
  - unfold stable_sort in *. simpl. by apply insert_row_in_order.
Qed.

Lemma insert_row_Permutation by_columns x (l : list (Z * gmap string value)) :
  insert_row by_columns x l ≡ₚ x :: l.
Proof.
  induction l as [|y l IH]; [reflexivity |]. simpl.
  destruct (key_leb by_columns (snd x) (snd y)); [reflexivity |].
  rewrite IH. apply Permutation_swap.
Qed.

Lemma stable_sort_Permutation by_columns (l : list (Z * gmap string value)) :
  stable_sort by_columns l ≡ₚ l.
Proof.
  induction l as [|x l IH]; [reflexivity |].
  unfold stable_sort in *. simpl. rewrite insert_row_Permutation.
  by rewrite IH.
Qed.

Lemma homogeneous_spec (vs : list value) :
  homogeneous vs = true
  <-> forall k1 k2, k1 ∈ omap kind_of vs -> k2 ∈ omap kind_of vs -> k1 = k2.
Proof.
  unfold homogeneous. destruct (omap kind_of vs) as [|k ks].
  - split; [| done]. intros _ k1 k2 H. inversion H.
  - rewrite forallb_forall. split.
    + intros Hall k1 k2 H1 H2.
      assert (forall k', k' ∈ k :: ks -> k' = k) as Hsame.
      { intros k' Hk'. apply elem_of_cons in Hk' as [-> | Hk']; [done |].
        apply list_elem_of_In in Hk'. specialize (Hall _ Hk').
        destruct k, k'; done. }
      rewrite (Hsame k1 H1), (Hsame k2 H2). done.
    + intros Hall k' Hk'. apply list_elem_of_In in Hk'.
      rewrite (Hall k k'); [by destruct k' | by left | by right].
Qed.

Lemma homogeneous_Permutation (vs ws : list value) :
  vs ≡ₚ ws -> homogeneous vs = true -> homogeneous ws = true.
Proof.
  intros Hperm. rewrite !homogeneous_spec. intros Hall k1 k2 H1 H2.
  apply Hall; by rewrite Hperm.
Qed.

Lemma sortable_Permutation by_columns (df1 df2 : DataFrame) :
  snd <$> rows df1 ≡ₚ snd <$> rows df2 -> sortable by_columns df1 = true ->
  sortable by_columns df2 = true.
Proof.
  intros Hperm. unfold sortable. rewrite !forallb_forall.
  intros Hall c Hc. apply (homogeneous_Permutation (column_values df1 c)).
  - unfold column_values.
    assert (forall df : DataFrame,
              (fun lr => cell (snd lr) c) <$> rows df
              = (fun r => cell r c) <$> (snd <$> rows df)) as Hcol
      by (intros df; by rewrite <- list_fmap_compose).
    rewrite !Hcol. by rewrite Hperm.
  - by apply Hall.
Qed.

(** A column of strings, some of them missing, can be sorted. *)
Lemma text_column_homogeneous (vs : list value) :
  Forall (fun v => v = NaN \/ exists s, v = Str s) vs ->
  homogeneous vs = true.
Proof.
  intros Htext. apply homogeneous_spec.
  assert (forall k, k ∈ omap kind_of vs -> k = KStr) as Hstr.
  { intros k Hk. apply list_elem_of_omap in Hk as (v & Hv & Hkind).
    rewrite Forall_forall in Htext.
    destruct (Htext v Hv) as [-> | [s ->]]; simpl in Hkind; congruence. }
  intros k1 k2 H1 H2. by rewrite (Hstr k1 H1), (Hstr k2 H2).
Qed.

Lemma sort_values_run by_columns (df : DataFrame) :
  sortable by_columns df = true ->
  sort_values by_columns true df
  = OK {| columns := columns df;
          rows := range_index (snd <$> stable_sort by_columns (rows df)) |}.
Proof. intros Hs. unfold sort_values. by rewrite Hs. Qed.

(** C8.  The catalog's sort, by author's last name and then title with
    missing values last, leaves a catalog that is already in that order
    exactly as it is, so the file written is the same; and what the sort
    returns is in that order, so sorting it again returns it unchanged. *)
Theorem sort_for_persist_idempotent (books_db : DataFrame) :
  let by_columns := ["Author LN"; "Title"] in
  sortable by_columns books_db = true ->
  (in_sort_order by_columns (snd <$> rows books_db) ->
   exists sorted,
     sort_values by_columns true books_db = OK sorted
     /\ snd <$> rows sorted = snd <$> rows books_db
     /\ file_of_frame sorted = file_of_frame books_db)
  /\ (exists sorted,
        sort_values by_columns true books_db = OK sorted
        /\ in_sort_order by_columns (snd <$> rows sorted)
        /\ snd <$> rows sorted ≡ₚ snd <$> rows books_db
        /\ sort_values by_columns true sorted = OK sorted).
Proof.
  cbv zeta. intros Hsortable. split.
  - intros Hordered. eexists. split; [by apply sort_values_run |].
    simpl. rewrite stable_sort_in_order by done.
    rewrite snd_range_index. split; [done |].
    unfold file_of_frame. simpl. by rewrite snd_range_index.
  - eexists. split; [by apply sort_values_run |].
    simpl. rewrite snd_range_index.
    split; [apply stable_sort_sorts |].
    split; [by rewrite stable_sort_Permutation |].
    rewrite sort_values_run.
    + simpl. rewrite stable_sort_in_order.
      * by rewrite snd_range_index.
      * rewrite snd_range_index. apply stable_sort_sorts.
    + apply (sortable_Permutation _ books_db); [| done].
      simpl. rewrite snd_range_index. by rewrite stable_sort_Permutation.
Qed.

(** ** What a session does, step by step *)

Lemma quiet_ret {A} (a : A) : quiet (mret a).
Proof. intros w. done. Qed.

Lemma quiet_raise {A} (e : error) : quiet (@raise A e).
Proof. intros w. done. Qed.

Lemma quiet_lift {A} (r : result A) : quiet (lift r).
Proof. intros w. done. Qed.

Lemma quiet_from_option {A} (e : error) (o : option A) :
  quiet (from_option e o).
Proof. destruct o; [apply quiet_ret | apply quiet_raise]. Qed.

Lemma quiet_input : quiet input.
Proof. intros [[|line rest] files tr]; done. Qed.

Lemma quiet_on_stdin {A} (f : list string -> result A * list string) :
  quiet (on_stdin f).
Proof. intros w. unfold on_stdin. by destruct (f (stdin w)). Qed.

Lemma quiet_read_csv path : quiet (read_csv path).
Proof. intros w. unfold read_csv. by destruct (fs w !! path). Qed.

Lemma quiet_bind {A B} (m : M A) (k : A -> M B) :
  quiet m -> (forall a, quiet (k a)) -> quiet (m ≫= k).
Proof.
  intros Hm Hk w. unfold mbind, M_bind.
  specialize (Hm w). destruct (m w) as [[a|e] w1]; simpl in *; [| done].
  destruct (Hk a w1) as [Hfs Htr]. rewrite Hfs, Htr. done.
Qed.

Create HintDb quiet.
#[local] Hint Resolve quiet_ret quiet_raise quiet_lift quiet_from_option
  quiet_input quiet_on_stdin quiet_read_csv : quiet.

Ltac solve_quiet :=
  repeat first
    [ progress auto with quiet
    | apply quiet_bind; [| intros ?]
    | match goal with
      | |- quiet (if ?b then _ else _) => destruct b
      | |- quiet (let _ := _ in _) => cbv zeta
      end ].

Lemma quiet_int_input py_int : quiet (int_input py_int).
Proof. unfold int_input. solve_quiet. Qed.

Lemma quiet_date_input to_datetime_date : quiet (date_input to_datetime_date).
Proof. unfold date_input. solve_quiet. Qed.

Lemma quiet_format_rating py_int rating : quiet (format_rating py_int rating).
Proof. unfold format_rating. solve_quiet. Qed.

Lemma quiet_dict_get d key : quiet (dict_get d key).
Proof. unfold dict_get. solve_quiet. Qed.

Lemma quiet_prompt_for_title db update_mode :
  quiet (prompt_for_title db update_mode).
Proof. unfold prompt_for_title. solve_quiet. Qed.

Lemma quiet_add_new_book books_db book_title :
  quiet (add_new_book books_db book_title).
Proof. unfold add_new_book. solve_quiet. Qed.

#[local] Hint Resolve quiet_int_input quiet_date_input quiet_format_rating
  quiet_dict_get quiet_prompt_for_title quiet_add_new_book : quiet.

Lemma announces_emit {A} (ev : event) (a : A) :
  announces ev (emit ev;; mret a).
Proof. intros w. done. Qed.

Lemma announces_bind {A B} (ev : event) (m : M A) (k : A -> M B) :
  quiet m -> (forall a, announces ev (k a)) -> announces ev (m ≫= k).
Proof.
  intros Hm Hk w. unfold mbind, M_bind.
  specialize (Hm w). destruct (m w) as [[a|e] w1]; simpl in *; [| done].
  destruct Hm as [Hfs Htr]. destruct (Hk a w1) as [Hfs1 Htr1].
  rewrite Hfs1, Htr1, Hfs, Htr. done.
Qed.

Ltac solve_announces :=
  repeat first
    [ apply announces_emit
    | apply announces_bind; [solve [solve_quiet] | intros ?]
    | match goal with
      | |- announces _ (let _ := _ in _) => cbv zeta
      end ].

Lemma add_reading_entry_announces py_int to_datetime_date reading_db
    book_title :
  announces (ReadingEntryAdded book_title)
    (add_reading_entry py_int to_datetime_date reading_db book_title).
Proof. unfold add_reading_entry. solve_announces. Qed.

Lemma edit_reading_entry_announces py_int to_datetime_date reading_db
    book_title :
  announces (ReadingEntryEdited book_title)
    (edit_reading_entry py_int to_datetime_date reading_db book_title).
Proof. unfold edit_reading_entry. solve_announces. Qed.

Lemma remove_reading_entry_announces py_int reading_db book_title :
  announces (ReadingEntryRemoved book_title)
    (remove_reading_entry py_int reading_db book_title).
Proof. unfold remove_reading_entry. solve_announces. Qed.

Lemma passes_to_csv_after {A} (ev : event) (path : string) (m : M A)
    (k : A -> DataFrame) :
  quiet m ->
  passes ev path (emit ev;; (a ← m; to_csv (k a) path)).
Proof.
  intros Hm w. unfold mbind, M_bind, emit, to_csv. simpl.
  specialize (Hm {| stdin := stdin w; fs := fs w; trace := trace w ++ [ev] |}).
  destruct (m _) as [[a|e] w1]; simpl in *; destruct Hm as [Hfs Htr].
  - rewrite Hfs, Htr, <- app_assoc. split; [| done].
    intros p Hp. by rewrite lookup_insert_ne.
  - rewrite Hfs, Htr. done.
Qed.

Lemma update_reading_count_passes reading_db dir book_title :
  passes (ReadingCountUpdate book_title) (dir +:+ "/books.csv")
    (update_reading_count reading_db dir book_title).
Proof.
  unfold update_reading_count. cbv zeta.
  match goal with
  | |- passes ?ev ?path (emit _;; (books_db ← read_csv _; b ← @?branch books_db;
                                   to_csv b _)) =>
      pose proof (passes_to_csv_after ev path
                    (books_db ← read_csv path; branch books_db) id) as Hpass
  end.
  intros w. specialize (Hpass ltac:(solve_quiet) w).
  unfold mbind, M_bind, emit, id in *. simpl in *.
  destruct (read_csv _ _) as [[books_db|e] w1]; simpl in *; [| exact Hpass].
  match goal with
  | |- context [match ?m with _ => _ end] => destruct m as [[b|e] w2]
  end; exact Hpass.
Qed.

Lemma update_book_rating_passes reading_db dir book_title :
  passes (BookRatingUpdate book_title) (dir +:+ "/books.csv")
    (update_book_rating reading_db dir book_title).
Proof.
  unfold update_book_rating. cbv zeta.
  match goal with
  | |- passes ?ev ?path
         (emit _;; (avg ← lift ?mean;
                    books_db ← read_csv _; b ← @?branch avg books_db;
                    to_csv b _)) =>
      pose proof (passes_to_csv_after ev path
                    (avg ← lift mean; books_db ← read_csv path;
                     branch avg books_db) id) as Hpass
  end.
  intros w. specialize (Hpass ltac:(solve_quiet) w).
  unfold mbind, M_bind, emit, lift, id in *. simpl in *.
  destruct (series_mean _) as [avg|e]; simpl in *; [| exact Hpass].
  destruct (read_csv _ _) as [[books_db|e] w1]; simpl in *; [| exact Hpass].
  match goal with
  | |- context [match ?m with _ => _ end] => destruct m as [[b|e] w2]
  end; exact Hpass.
Qed.

(** A mutation followed by the two synchronizer calls, as every branch of
    [update_reading_db] has them. *)
Lemma mutation_then_pass (mutate : M DataFrame) (mutation : event)
    (dir book_title : string) (w : world) :
  announces mutation mutate ->
  mutation ∈ [ReadingEntryAdded book_title; ReadingEntryEdited book_title;
              ReadingEntryRemoved book_title] ->
  let run :=
    (reading_db ← mutate;
     update_reading_count reading_db dir book_title;;
     update_book_rating reading_db dir book_title;;
     mret reading_db) w in
  fs (snd run) !! (dir +:+ "/" +:+ "reading.csv")
  = fs w !! (dir +:+ "/" +:+ "reading.csv")
  /\ exists evs,
       trace (snd run) = (trace w ++ evs)%list
       /\ match fst run with
          | OK _ =>
              evs = [mutation;
                     ReadingCountUpdate book_title;
                     ToCsv (dir +:+ "/books.csv");
                     BookRatingUpdate book_title;
                     ToCsv (dir +:+ "/books.csv")]
          | Err _ =>
              (ToCsv (dir +:+ "/" +:+ "reading.csv") ∉ evs)
              /\ (forall by_columns, SortValues by_columns ∉ evs)
          end.
Proof.
  intros Hmutate Hkind. cbv zeta.
  pose proof (reading_path_ne_books dir) as Hne.
  assert (forall evs : list event,
            (forall ev, ev ∈ evs ->
               ev = mutation \/ ev = ReadingCountUpdate book_title
               \/ ev = BookRatingUpdate book_title
               \/ ev = ToCsv (dir +:+ "/books.csv")) ->
            (ToCsv (dir +:+ "/" +:+ "reading.csv") ∉ evs)
            /\ (forall by_columns, SortValues by_columns ∉ evs)) as Hnone.
  { intros evs Hevs. split; [| intros by_columns]; intros Hin;
      apply Hevs in Hin as [Hin | [Hin | [Hin | Hin]]];
      try discriminate Hin.
    - rewrite <- Hin in Hkind.
      repeat (apply elem_of_cons in Hkind as [Hkind | Hkind];
              [discriminate |]).
      inversion Hkind.
    - injection Hin as Hin. done.
    - rewrite <- Hin in Hkind.
      repeat (apply elem_of_cons in Hkind as [Hkind | Hkind];
              [discriminate |]).
      inversion Hkind. }
  unfold mbind, M_bind.
  destruct (Hmutate w) as [Hfs0 Htr0].
  destruct (mutate w) as [[reading_db|e] w1]; simpl in *.
  2:{ split; [by rewrite Hfs0 |]. exists []. rewrite app_nil_r.
      split; [done |]. apply Hnone. intros ev Hev. inversion Hev. }
  destruct (update_reading_count_passes reading_db dir book_title w1)
    as [Hfs1 Htr1].
  destruct (update_reading_count reading_db dir book_title w1)
    as [[[]|e] w2]; simpl in *.
  2:{ split; [by rewrite Hfs1, Hfs0 |]. eexists.
      rewrite Htr1, Htr0, <- app_assoc. split; [done |].
      apply Hnone. intros ev Hev.
      repeat (apply elem_of_cons in Hev as [-> | Hev]; [by eauto 6 |]).
      inversion Hev. }
  destruct (update_book_rating_passes reading_db dir book_title w2)
    as [Hfs2 Htr2].
  destruct (update_book_rating reading_db dir book_title w2)
    as [[[]|e] w3]; simpl in *.
  - split; [by rewrite Hfs2, Hfs1, Hfs0 |]. eexists.
    rewrite Htr2, Htr1, Htr0, <- !app_assoc. split; done.
  - split; [by rewrite Hfs2, Hfs1, Hfs0 |]. eexists.
    rewrite Htr2, Htr1, Htr0, <- !app_assoc. split; [done |].
    apply Hnone. intros ev Hev.
      repeat (apply elem_of_cons in Hev as [-> | Hev]; [by eauto 6 |]).
      inversion Hev.
Qed.


(** A session that runs to its end: a first entry for a book the catalog
    does not have yet. *)
Example first_reading_of_dune :
  let run :=
    update_reading_db ascii_int iso_date "d"
      (typing ["1"; "Dune"; "2024-01-01"; "2024-01-10"; "5";
               "Frank"; ""; "Herbert"; ""; ""; ""] fresh_files) in
  fst run = OK tt
  /\ trace (snd run) = session_events "d" "Dune" (ReadingEntryAdded "Dune")
  /\ (fun r => (cell r "Title", cell r "Reading Time", cell r "Rating"))
     <$> stored_rows "d/reading.csv" (snd run)
     = [(Str "Dune", Int 10, Int 5)]
  /\ (fun r => (cell r "Title", cell r "Author", cell r "Times Read",
                cell r "Rating"))
     <$> stored_rows "d/books.csv" (snd run)
     = [(Str "Dune", Str "Frank Herbert", Int 1, Float 5)].
Proof. cbv zeta. repeat split; vm_compute; reflexivity. Qed.

(** A session that stops: there is no entry 7 to remove, and the reading
    log on disk is what it was. *)
Example remove_at_position_7 :
  let run :=
    update_reading_db ascii_int iso_date "d"
      (typing ["3"; "Dune"; "7"] dune_files) in
  fst run = Err KeyError
  /\ trace (snd run) = []
  /\ fs (snd run) = dune_files.
Proof. cbv zeta. repeat split; vm_compute; reflexivity. Qed.

(** The title of the pass is the one resolved at the prompt, the title the
    mutation is called with.  The entry is picked by its position in the
    whole log: here the position typed is the one of an entry for "Emma". *)
Example pass_is_for_prompted_title :
  let run :=
    update_reading_db ascii_int iso_date "d"
      (typing ["3"; "Dune"; "1"] dune_files) in
  fst run = OK tt
  /\ trace (snd run) = session_events "d" "Dune" (ReadingEntryRemoved "Dune")
  /\ (fun r => cell r "Title") <$> stored_rows "d/reading.csv" (snd run)
     = [Str "Dune"].
Proof. cbv zeta. repeat split; vm_compute; reflexivity. Qed.

Lemma catalog_in_order :
  let books_db :=
    frame_of_file {| csv_columns := book_db_cols;
                     csv_rows := [emma_book; dune_book] |} in
  sortable ["Author LN"; "Title"] books_db = true
  /\ in_sort_order ["Author LN"; "Title"] (snd <$> rows books_db).
Proof.
  cbv zeta. split; [vm_compute; reflexivity |].
  intros [|[|i]] r1 r2 H1 H2; simpl in H1, H2; try discriminate.
  injection H1 as <-. injection H2 as <-. vm_compute. reflexivity.
Defined.

Lemma sort_for_persist_idempotent_witness :
  let books_db :=
    frame_of_file {| csv_columns := book_db_cols;
                     csv_rows := [emma_book; dune_book] |} in
  sortable ["Author LN"; "Title"] books_db = true
  /\ in_sort_order ["Author LN"; "Title"] (snd <$> rows books_db)
  /\ exists sorted,
       sort_values ["Author LN"; "Title"] true books_db = OK sorted
       /\ snd <$> rows sorted = snd <$> rows books_db
       /\ file_of_frame sorted = file_of_frame books_db.
Proof.
  cbv zeta. destruct catalog_in_order as [Hsortable Hordered].
  split; [exact Hsortable |]. split; [exact Hordered |].
  exact (proj1 (sort_for_persist_idempotent _ Hsortable) Hordered).
Defined.

(** The order itself: by last name, then by title, a record without a last
    name after all the others. *)
Example sort_by_author_then_title :
  let anonymous : gmap string value :=
    list_to_map [("Title", Str "Beowulf")] in
  let children : gmap string value :=
    list_to_map [("Title", Str "Children of Dune");
                 ("Author LN", Str "Herbert")] in
  match sort_values ["Author LN"; "Title"] true
          (frame_of_file {| csv_columns := book_db_cols;
                            csv_rows := [anonymous; dune_book; emma_book;
                                         children] |}) with
  | OK sorted => (fun lr => (fst lr, cell (snd lr) "Title")) <$> rows sorted
  | Err _ => []
  end
  = [(0, Str "Emma"); (1, Str "Children of Dune"); (2, Str "Dune");
     (3, Str "Beowulf")].
Proof. vm_compute. reflexivity. Qed.

(** * More of the program *)

(** ** The two prompts that insist *)

Lemma select_mode_loop_OK py_int (lines : list string) (n m : Z)
    (rest : list string) :
  select_mode_loop py_int n lines = (OK m, rest) ->
  m ∈ [1; 2; 3]
  /\ (n = m /\ rest = lines
      \/ (n ∉ [1; 2; 3])
         /\ exists invalid line,
              lines = (invalid ++ line :: rest)%list
              /\ py_int line = Some m
              /\ Forall (fun l => exists k, py_int l = Some k /\ k ∉ [1; 2; 3])
                        invalid).
Proof.
  revert n. induction lines as [|l lines IH]; intros n Hrun; simpl in Hrun.
  - case_bool_decide as Hn; [| discriminate].
    injection Hrun as <- <-. split; [done |]. by left.
  - case_bool_decide as Hn.
    + injection Hrun as <- <-. split; [done |]. by left.
    + destruct (py_int l) as [k|] eqn:Hl; [| discriminate].
      apply IH in Hrun as [Hm Hcases]. split; [done |]. right.
      split; [done |].
      destruct Hcases as [[-> ->] | (Hk & invalid & line & -> & Hline & Hall)].
      * exists [], l. done.
      * exists (l :: invalid), line. split; [done |]. split; [done |].
        constructor; [| done]. eauto.
Qed.

Lemma select_mode_loop_skips py_int (invalid : list string) (line : string)
    (rest : list string) (n m : Z) :
  n ∉ [1; 2; 3] ->
  Forall (fun l => exists k, py_int l = Some k /\ k ∉ [1; 2; 3]) invalid ->
  py_int line = Some m -> m ∈ [1; 2; 3] ->
  select_mode_loop py_int n (invalid ++ line :: rest) = (OK m, rest).
Proof.
  intros Hn Hall Hline Hm. revert n Hn.
  induction Hall as [|l invalid (k & Hl & Hk) _ IH]; intros n Hn; simpl.
  - rewrite bool_decide_eq_false_2 by done. rewrite Hline.
    destruct rest; simpl; by rewrite bool_decide_eq_true_2.
  - rewrite bool_decide_eq_false_2 by done. rewrite Hl. by apply IH.
Qed.

(** [select_mode] gives back 1, 2 or 3 and nothing else: it is the first
    answer among the lines typed that is one of them, every answer before it
    being a number outside the menu; the lines after it are left for the
    next prompt.  Conversely such a run of answers is read up to that one. *)
Theorem select_mode_first_valid (py_int : string -> option Z)
    (lines : list string) (files : gmap string csv_file) (tr : list event) :
  let w := {| stdin := lines; fs := files; trace := tr |} in
  (forall m w', select_mode py_int w = (OK m, w') ->
     m ∈ [1; 2; 3]
     /\ fs w' = files /\ trace w' = tr
     /\ exists invalid line,
          lines = (invalid ++ line :: stdin w')%list
          /\ py_int line = Some m
          /\ Forall (fun l => exists k, py_int l = Some k /\ k ∉ [1; 2; 3])
                    invalid)
  /\ (forall invalid line rest m,
        lines = (invalid ++ line :: rest)%list ->
        Forall (fun l => exists k, py_int l = Some k /\ k ∉ [1; 2; 3])
               invalid ->
        py_int line = Some m -> m ∈ [1; 2; 3] ->
        select_mode py_int w
        = (OK m, {| stdin := rest; fs := files; trace := tr |})).
Proof.
  cbv zeta. split.
  - intros m w' Hrun.
    unfold select_mode, int_input, input, on_stdin, mbind, M_bind in Hrun.
    destruct lines as [|l lines]; simpl in Hrun; [discriminate |].
    destruct (py_int l) as [n|] eqn:Hl; simpl in Hrun; [| discriminate].
    destruct (select_mode_loop py_int n lines) as [r rest] eqn:Hloop.
    injection Hrun as -> <-. simpl.
    apply select_mode_loop_OK in Hloop as [Hm Hcases].
    split; [done |]. split; [done |]. split; [done |].
    destruct Hcases as [[-> ->] | (Hn & invalid & line & -> & Hline & Hall)].
    + exists [], l. done.
    + exists (l :: invalid), line. split; [done |]. split; [done |].
      constructor; [| done]. eauto.
  - intros invalid line rest m -> Hall Hline Hm.
    unfold select_mode, int_input, input, on_stdin, mbind, M_bind.
    destruct Hall as [|l invalid (k & Hl & Hk) Hall]; simpl.
    + rewrite Hline. simpl.
      destruct rest; simpl; by rewrite bool_decide_eq_true_2.
    + rewrite Hl. simpl.
      by rewrite (select_mode_loop_skips py_int invalid line rest k m).
Qed.

Lemma select_mode_first_valid_witness :
  Forall (fun l => exists k, ascii_int l = Some k /\ k ∉ [1; 2; 3]) ["0"; "7"]
  /\ select_mode ascii_int (typing ["0"; "7"; "2"; "Dune"] dune_files)
     = (OK 2, typing ["Dune"] dune_files).
Proof.
  assert (Forall (fun l => exists k, ascii_int l = Some k /\ k ∉ [1; 2; 3])
                 ["0"; "7"]) as Hall.
  { repeat constructor.
    - exists 0. split; [reflexivity |].
      apply (bool_decide_unpack _). vm_compute. exact I.
    - exists 7. split; [reflexivity |].
      apply (bool_decide_unpack _). vm_compute. exact I. }
  split; [exact Hall |].
  apply (proj2 (select_mode_first_valid ascii_int ["0"; "7"; "2"; "Dune"]
                  dune_files []) ["0"; "7"] "2" ["Dune"] 2).
  - reflexivity.
  - exact Hall.
  - reflexivity.
  - right. left.
Defined.

Lemma prompt_for_title_loop_OK (db : DataFrame) (lines : list string)
    (t0 t : string) (rest : list string) :
  prompt_for_title_loop db t0 lines = (OK t, rest) ->
  title_in t db = true
  /\ exists unknown,
       (t0 :: lines = unknown ++ t :: rest)%list
       /\ Forall (fun l => title_in l db = false) unknown.
Proof.
  revert t0. induction lines as [|l lines IH]; intros t0 Hrun; simpl in Hrun.
  - destruct (title_in t0 db) eqn:Ht0; [| discriminate].
    injection Hrun as <- <-. split; [done |]. by exists [].
  - destruct (title_in t0 db) eqn:Ht0.
    + injection Hrun as <- <-. split; [done |]. by exists [].
    + apply IH in Hrun as (Ht & unknown & Heq & Hall). split; [done |].
      exists (t0 :: unknown). rewrite Heq. split; [done |]. by constructor.
Qed.

Lemma prompt_for_title_loop_none (db : DataFrame) (lines : list string)
    (t0 : string) :
  title_in t0 db = false ->
  Forall (fun l => title_in l db = false) lines ->
  prompt_for_title_loop db t0 lines = (Err EOFError, []).
Proof.
  intros Ht0 Hall. revert t0 Ht0.
  induction Hall as [|l lines Hl _ IH]; intros t0 Ht0; simpl; rewrite Ht0.
  - reflexivity.
  - by apply IH.
Qed.

(** [prompt_for_title]: to add, the first line typed is the title, whether
    the table has it or not; to edit or remove, the title given back is one
    the table has, the first such line typed, and when no line typed is a
    title of the table (so always on an empty table) the prompt uses up the
    input and stops with [EOFError]. *)
Theorem prompt_for_title_spec (db : DataFrame) (update_mode : Z)
    (lines : list string) (files : gmap string csv_file) (tr : list event) :
  let w := {| stdin := lines; fs := files; trace := tr |} in
  (update_mode = 1 ->
   forall line rest, lines = line :: rest ->
     prompt_for_title db update_mode w
     = (OK line, {| stdin := rest; fs := files; trace := tr |}))
  /\ (update_mode ≠ 1 ->
      forall t w', prompt_for_title db update_mode w = (OK t, w') ->
        title_in t db = true
        /\ exists unknown,
             lines = (unknown ++ t :: stdin w')%list
             /\ Forall (fun l => title_in l db = false) unknown)
  /\ (update_mode ≠ 1 ->
      Forall (fun l => title_in l db = false) lines ->
      prompt_for_title db update_mode w
      = (Err EOFError, {| stdin := []; fs := files; trace := tr |})).
Proof.
  cbv zeta. unfold prompt_for_title, input, on_stdin, mbind, M_bind.
  split; [| split].
  - intros -> line rest ->. simpl. reflexivity.
  - intros Hmode t w' Hrun.
    destruct lines as [|l lines]; simpl in Hrun; [discriminate |].
    rewrite bool_decide_eq_false_2 in Hrun by done. simpl in Hrun.
    destruct (prompt_for_title_loop db l lines) as [r rest] eqn:Hloop.
    injection Hrun as -> <-. simpl.
    by apply prompt_for_title_loop_OK in Hloop.
  - intros Hmode Hall.
    destruct Hall as [|l lines Hl Hall]; simpl; [reflexivity |].
    rewrite bool_decide_eq_false_2 by done. simpl.
    by rewrite prompt_for_title_loop_none.
Qed.

Lemma prompt_for_title_spec_witness :
  prompt_for_title (frame_of_file empty_books) 1
    (typing ["Dune"; "x"] dune_files)
  = (OK "Dune", typing ["x"] dune_files)
  /\ prompt_for_title (frame_of_file empty_books) 2
       (typing ["Dune"; "Emma"] dune_files)
     = (Err EOFError, typing [] dune_files).
Proof.
  split.
  - apply (proj1 (prompt_for_title_spec (frame_of_file empty_books) 1
                    ["Dune"; "x"] dune_files []) eq_refl "Dune" ["x"] eq_refl).
  - apply (proj2 (proj2 (prompt_for_title_spec (frame_of_file empty_books) 2
                           ["Dune"; "Emma"] dune_files []))).
    + discriminate.
    + repeat constructor.
Defined.

(** ** Removing a book *)

Lemma filter_ext_in {A} (P Q : A -> Prop) `{!forall x, Decision (P x)}
    `{!forall x, Decision (Q x)} (l : list A) :
  (forall x, x ∈ l -> P x <-> Q x) -> filter P l = filter Q l.
Proof.
  induction l as [|x l IH]; intros Hext; [reflexivity |].
  assert (filter P l = filter Q l) as Hrec.
  { apply IH. intros y Hy. apply Hext. by right. }
  destruct (decide (P x)) as [HP | HP].
  - rewrite !filter_cons_True; [by rewrite Hrec | | done].
    apply Hext; [by left | done].
  - rewrite !filter_cons_False; [done | | done].
    intros HQ. apply HP. apply Hext; [by left | done].
Qed.

Lemma filter_all {A} (P : A -> Prop) `{!forall x, Decision (P x)} (l : list A) :
  (forall x, x ∈ l -> P x) -> filter P l = l.
Proof.
  induction l as [|x l IH]; intros Hall; [reflexivity |].
  rewrite filter_cons_True by (apply Hall; by left).
  rewrite IH; [done |]. intros y Hy. apply Hall. by right.
Qed.

Lemma filter_none {A} (P : A -> Prop) `{!forall x, Decision (P x)} (l : list A) :
  (forall x, x ∈ l -> ~ P x) -> filter P l = [].
Proof.
  induction l as [|x l IH]; intros Hnone; [reflexivity |].
  rewrite filter_cons_False by (apply Hnone; by left).
  apply IH. intros y Hy. apply Hnone. by right.
Qed.

Lemma drop_mask_unmasked (mask : gmap string value -> bool) (df : DataFrame) lr :
  lr ∈ rows (drop_mask mask df) -> mask (snd lr) = false /\ lr ∈ rows df.
Proof.
  unfold drop_mask. simpl. intros Hin.
  apply list_elem_of_filter in Hin as [Hlabel Hin]. split; [| done].
  destruct (mask (snd lr)) eqn:Hm; [| done].
  exfalso. apply Hlabel. apply list_elem_of_fmap. exists lr. split; [done |].
  apply list_elem_of_filter. done.
Qed.

Lemma drop_mask_rows (mask : gmap string value -> bool) (df : DataFrame) :
  NoDup (index df) ->
  rows (drop_mask mask df) = filter (fun lr => mask (snd lr) = false) (rows df).
Proof.
  intros Hnd. unfold drop_mask. simpl. apply filter_ext_in.
  intros [l r] Hin. simpl. split.
  - intros Hlabel. destruct (mask r) eqn:Hm; [| done].
    exfalso. apply Hlabel. apply list_elem_of_fmap. exists (l, r).
    split; [done |]. apply list_elem_of_filter. done.
  - intros Hm Hlabel.
    apply list_elem_of_fmap in Hlabel as ([l' r'] & Hl & Hin').
    simpl in Hl. subst l'.
    apply list_elem_of_filter in Hin' as [Hm' Hin']. simpl in Hm'.
    assert (r = r') as -> by (eapply NoDup_index_lookup; eauto).
    congruence.
Qed.

Lemma drop_mask_none (mask : gmap string value -> bool) (df : DataFrame) :
  (forall lr, lr ∈ rows df -> mask (snd lr) = false) ->
  drop_mask mask df = df.
Proof.
  intros Hno. unfold drop_mask. destruct df as [cols rs]. simpl in *. f_equal.
  apply filter_all. intros lr Hin Hlabel.
  apply list_elem_of_fmap in Hlabel as (lr' & _ & Hin').
  apply list_elem_of_filter in Hin' as [Hm Hin'].
  rewrite Hno in Hm by done. discriminate.
Qed.

(** [remove_existing_book] leaves no record with the title, and a catalog
    that has none as it is, so removing twice is removing once; in a
    catalog whose labels are all different, as one read from its file is,
    it takes out exactly the records with the title and keeps the others,
    labels and order included. *)
Theorem remove_existing_book_spec (books_db : DataFrame) (book_title : string) :
  title_in book_title (remove_existing_book books_db book_title) = false
  /\ (title_in book_title books_db = false ->
      remove_existing_book books_db book_title = books_db)
  /\ remove_existing_book (remove_existing_book books_db book_title) book_title
     = remove_existing_book books_db book_title
  /\ (NoDup (index books_db) ->
      rows (remove_existing_book books_db book_title)
      = filter (fun lr => title_is book_title (snd lr) = false)
               (rows books_db)).
Proof.
  assert (title_in book_title (remove_existing_book books_db book_title)
          = false) as Hgone.
  { destruct (title_in book_title (remove_existing_book books_db book_title))
      eqn:Hin; [| done].
    apply title_in_true in Hin as (lr & Hlr & Ht).
    apply drop_mask_unmasked in Hlr as [Hm _]. congruence. }
  split; [exact Hgone |]. split; [| split].
  - intros Hno. apply drop_mask_none. by apply title_in_false.
  - apply drop_mask_none. by apply title_in_false.
  - apply drop_mask_rows.
Qed.

Lemma remove_existing_book_spec_witness :
  let books_db :=
    frame_of_file {| csv_columns := book_db_cols;
                     csv_rows := [emma_book; dune_book] |} in
  NoDup (index books_db)
  /\ rows (remove_existing_book books_db "Emma")
     = filter (fun lr => title_is "Emma" (snd lr) = false) (rows books_db).
Proof.
  cbv zeta.
  assert (NoDup (index (frame_of_file
                          {| csv_columns := book_db_cols;
                             csv_rows := [emma_book; dune_book] |}))) as Hnd
    by (apply (bool_decide_unpack _); vm_compute; exact I).
  split; [exact Hnd |].
  exact (proj2 (proj2 (proj2 (remove_existing_book_spec _ "Emma"))) Hnd).
Defined.

Example remove_emma :
  (fun lr => (fst lr, cell (snd lr) "Title"))
  <$> rows (remove_existing_book
              (frame_of_file {| csv_columns := book_db_cols;
                                csv_rows := [emma_book; dune_book] |}) "Emma")
  = [(1, Str "Dune")].
Proof. vm_compute. reflexivity. Qed.

(** ** Editing a book: what changes and what does not *)

Lemma edit_existing_book_inv py_int py_float (books_db : DataFrame)
    (book_title : string) (lines : list string)
    (files : gmap string csv_file) (tr : list event) df' w' :
  edit_existing_book py_int py_float books_db book_title
    {| stdin := lines; fs := files; trace := tr |} = (OK df', w') ->
  exists key_line new_value rest key prop v,
    lines = key_line :: new_value :: rest
    /\ py_int key_line = Some key
    /\ (key, prop) ∈ book_prop_dict
    /\ w' = {| stdin := rest; fs := files; trace := tr |}
    /\ (prop = "Length" -> exists z, py_int new_value = Some z /\ v = Int z)
    /\ (prop = "Rating" -> exists q, py_float new_value = Some q /\ v = Float q)
    /\ (prop ≠ "Length" -> prop ≠ "Rating" -> v = Str new_value)
    /\ (if bool_decide (prop ∈ ["Author FN"; "Author MN"; "Author LN"])
        then title_in book_title books_db = true
             /\ exists author,
                  df' = loc_set_mask (title_is book_title) "Author" author
                          (loc_set_mask (title_is book_title) prop v books_db)
        else df' = loc_set_mask (title_is book_title) prop v books_db).
Proof.
  intros Hrun.
  unfold edit_existing_book, int_input, input, dict_get, mbind, M_bind in Hrun.
  destruct lines as [|key_line lines]; cbn [stdin] in Hrun; [discriminate |].
  unfold from_option at 1 in Hrun.
  destruct (py_int key_line) as [key|] eqn:Hkey; [| discriminate].
  unfold mret at 1, M_ret at 1 in Hrun.
  destruct (list_find (fun kv => fst kv = key) book_prop_dict)
    as [[i [k prop]]|] eqn:Hfind; [| discriminate].
  apply list_find_Some in Hfind as (Hi & Hk & _). simpl in Hk. subst k.
  cbn [fmap option_fmap option_map from_option snd] in Hrun.
  unfold mret at 1, M_ret at 1 in Hrun.
  destruct lines as [|new_value rest]; cbn [stdin] in Hrun; [discriminate |].
  assert ((key, prop) ∈ book_prop_dict) as Hdict
    by (apply list_elem_of_lookup; eauto).
  match type of Hrun with
  | (match ?m ?w with _ => _ end) = _ =>
      destruct (m w) as [[v|?] w1] eqn:Hformat; [| discriminate]
  end.
  assert (w1 = {| stdin := rest; fs := files; trace := tr |}
          /\ (prop = "Length" ->
              exists z, py_int new_value = Some z /\ v = Int z)
          /\ (prop = "Rating" ->
              exists q, py_float new_value = Some q /\ v = Float q)
          /\ (prop ≠ "Length" -> prop ≠ "Rating" -> v = Str new_value))
    as (-> & HLength & HRating & Hother).
  { clear Hrun. unfold from_option, mret, M_ret, raise in Hformat.
    destruct (String.eqb_spec prop "Length") as [-> | HnL].
    - destruct (py_int new_value) as [z|]; simpl in Hformat; [| discriminate].
      injection Hformat as <- <-. repeat split; try done. eauto.
    - destruct (String.eqb_spec prop "Rating") as [-> | HnR].
      + destruct (py_float new_value) as [q|]; simpl in Hformat;
          [| discriminate].
        injection Hformat as <- <-. repeat split; try done. eauto.
      + injection Hformat as <- <-. repeat split; done. }
  exists key_line, new_value, rest, key, prop, v.
  do 3 (split; [done |]).
  case_bool_decide as Hname.
  - unfold first_value, from_option, lift, mret, M_ret, raise in Hrun.
    destruct (head (loc_mask_values (title_is book_title) "Author FN" _))
      as [fnv|] eqn:Hfn; [| discriminate].
    destruct (head (loc_mask_values (title_is book_title) "Author MN" _))
      as [mnv|]; [| discriminate].
    destruct (head (loc_mask_values (title_is book_title) "Author LN" _))
      as [lnv|]; [| discriminate].
    destruct (generate_full_author _ _ _) as [author|]; [| discriminate].
    injection Hrun as <- <-. do 4 (split; [done |]). split; [| by eexists].
    apply title_in_true.
    unfold loc_mask_values in Hfn.
    destruct (filter _ _) as [|lr1 l] eqn:Hfilter; [discriminate |].
    assert (lr1 ∈ filter (fun lr => title_is book_title (snd lr) = true)
                     (rows (loc_set_mask (title_is book_title) prop v
                                         books_db))) as Hin
      by (rewrite Hfilter; by left).
    apply list_elem_of_filter in Hin as [Ht Hin].
    unfold loc_set_mask in Hin. simpl in Hin.
    apply list_elem_of_fmap in Hin as (lr0 & -> & Hin0).
    exists lr0. split; [done |].
    destruct (title_is book_title (snd lr0)) eqn:E; [done | congruence].
  - injection Hrun as <- <-. done.
Qed.

Lemma loc_set_mask_lookup (mask : gmap string value -> bool) col (v : value)
    (df : DataFrame) (i : nat) lr :
  rows df !! i = Some lr ->
  rows (loc_set_mask mask col v df) !! i
  = Some (if mask (snd lr) then (fst lr, <[col := v]> (snd lr)) else lr).
Proof.
  intros Hi. unfold loc_set_mask. simpl. rewrite list_lookup_fmap, Hi. done.
Qed.

Lemma index_loc_set_mask (mask : gmap string value -> bool) col (v : value)
    (df : DataFrame) :
  index (loc_set_mask mask col v df) = index df.
Proof.
  unfold index, loc_set_mask. simpl. rewrite <- list_fmap_compose.
  apply list_fmap_ext. intros i [l r] _. simpl. by destruct (mask r).
Qed.

Lemma rows_loc_set_mask_none (mask : gmap string value -> bool) col (v : value)
    (df : DataFrame) :
  (forall lr, lr ∈ rows df -> mask (snd lr) = false) ->
  rows (loc_set_mask mask col v df) = rows df.
Proof.
  intros Hno. unfold loc_set_mask. simpl.
  rewrite <- (list_fmap_id (rows df)) at 2.
  apply list_fmap_ext. intros i lr Hi. simpl.
  rewrite Hno; [done |]. apply list_elem_of_lookup. eauto.
Qed.

Lemma book_prop_dict_cases (key : Z) (prop : string) :
  (key, prop) ∈ book_prop_dict ->
  prop ≠ "Author"
  /\ (prop ∈ ["Author FN"; "Author MN"; "Author LN"] <-> key ∈ [2; 3; 4])
  /\ (prop = "Title" <-> key = 1).
Proof.
  unfold book_prop_dict. intros Hin.
  repeat (apply elem_of_cons in Hin as [[= -> ->] | Hin];
          [split; [done |]; split; split; intros H;
           first [ done
                 | by apply (bool_decide_unpack _)
                 | exfalso; revert H; apply (bool_decide_unpack _);
                   vm_compute; exact I ] |]).
  inversion Hin.
Qed.

(** A completed [edit_existing_book] keeps the records where they are and
    their labels as they are; a record with another title is untouched, and
    in a record with the title nothing changes but the chosen field and,
    when that field is a name part, the author.  Editing the title, length,
    rating or genre never touches the author. *)
Theorem edit_existing_book_frame (py_int : string -> option Z)
    (py_float : string -> option Q) (books_db : DataFrame)
    (book_title : string) (lines : list string)
    (files : gmap string csv_file) (tr : list event)
    (df' : DataFrame) (w' : world) :
  edit_existing_book py_int py_float books_db book_title
    {| stdin := lines; fs := files; trace := tr |} = (OK df', w') ->
  exists key prop,
    (key, prop) ∈ book_prop_dict
    /\ fs w' = files /\ trace w' = tr
    /\ index df' = index books_db
    /\ (forall (i : nat) lr lr',
          rows books_db !! i = Some lr -> rows df' !! i = Some lr' ->
          (title_is book_title (snd lr) = false -> lr' = lr)
          /\ (forall col, col ≠ prop -> col ≠ "Author" ->
                cell (snd lr') col = cell (snd lr) col)
          /\ (key ∉ [2; 3; 4] ->
              cell (snd lr') "Author" = cell (snd lr) "Author")).
Proof.
  intros Hrun. apply edit_existing_book_inv in Hrun
    as (key_line & new_value & rest & key & prop & v & -> & Hkey & Hdict & ->
        & _ & _ & _ & Hshape).
  exists key, prop. split; [done |]. split; [done |]. split; [done |].
  destruct (book_prop_dict_cases key prop Hdict) as (HnA & Hnames & _).
  case_bool_decide as Hname.
  - destruct Hshape as [_ [author ->]].
    split; [by rewrite !index_loc_set_mask |].
    intros i lr lr' Hi Hi'.
    rewrite (loc_set_mask_lookup _ _ _ _ i
               (if title_is book_title (snd lr)
                then (fst lr, <[prop := v]> (snd lr)) else lr)) in Hi'
      by by apply loc_set_mask_lookup.
    injection Hi' as <-.
    destruct (title_is book_title (snd lr)) eqn:Ht; simpl.
    + destruct (title_is book_title (<[prop := v]> (snd lr))); simpl.
      * split; [done |]. split.
        -- intros col Hc1 Hc2. unfold cell.
           by rewrite !lookup_insert_ne by done.
        -- intros Hk. exfalso. apply Hk. by apply Hnames.
      * split; [done |]. split.
        -- intros col Hc1 Hc2. unfold cell.
           by rewrite !lookup_insert_ne by done.
        -- intros Hk. exfalso. apply Hk. by apply Hnames.
    + rewrite Ht. done.
  - subst df'. split; [by rewrite index_loc_set_mask |].
    intros i lr lr' Hi Hi'.
    rewrite (loc_set_mask_lookup _ _ _ _ i lr Hi) in Hi'. injection Hi' as <-.
    destruct (title_is book_title (snd lr)) eqn:Ht; simpl; [| done].
    split; [done |]. split.
    + intros col Hc1 Hc2. unfold cell. by rewrite lookup_insert_ne by done.
    + intros _. unfold cell. by rewrite lookup_insert_ne by done.
Qed.

Lemma edit_existing_book_frame_witness :
  exists df' w',
    edit_existing_book ascii_int ascii_float
      (frame_of_file {| csv_columns := book_db_cols;
                        csv_rows := [emma_book; dune_book] |})
      "Dune" (typing ["5"; "412"] dune_files) = (OK df', w')
    /\ exists key prop,
         (key, prop) ∈ book_prop_dict
         /\ fs w' = dune_files /\ trace w' = []
         /\ index df'
            = index (frame_of_file {| csv_columns := book_db_cols;
                                      csv_rows := [emma_book; dune_book] |})
         /\ (forall (i : nat) lr lr',
               rows (frame_of_file
                       {| csv_columns := book_db_cols;
                          csv_rows := [emma_book; dune_book] |}) !! i
               = Some lr ->
               rows df' !! i = Some lr' ->
               (title_is "Dune" (snd lr) = false -> lr' = lr)
               /\ (forall col, col ≠ prop -> col ≠ "Author" ->
                     cell (snd lr') col = cell (snd lr) col)
               /\ (key ∉ [2; 3; 4] ->
                   cell (snd lr') "Author" = cell (snd lr) "Author")).
Proof.
  eexists _, _. split; [vm_compute; reflexivity |].
  eapply (edit_existing_book_frame ascii_int ascii_float _ "Dune"
            ["5"; "412"] dune_files []).
  vm_compute. reflexivity.
Defined.

(** [edit_existing_book] on a title the catalog does not have: asked for a
    name part it stops with [IndexError], having read the two answers, and
    asked for any other field it completes, if it does, with the records
    it was given. *)
Theorem edit_existing_book_unknown_title (py_int : string -> option Z)
    (py_float : string -> option Q) (books_db : DataFrame)
    (book_title key_line new_value : string) (rest : list string)
    (files : gmap string csv_file) (tr : list event) (key : Z) :
  title_in book_title books_db = false ->
  py_int key_line = Some key ->
  let w := {| stdin := key_line :: new_value :: rest;
              fs := files; trace := tr |} in
  (key ∈ [2; 3; 4] ->
   edit_existing_book py_int py_float books_db book_title w
   = (Err IndexError, {| stdin := rest; fs := files; trace := tr |}))
  /\ (forall df' w',
        edit_existing_book py_int py_float books_db book_title w
        = (OK df', w') -> rows df' = rows books_db).
Proof.
  intros Habsent Hkey. cbv zeta. split.
  - intros Hin.
    assert (exists prop, prop ∈ ["Author FN"; "Author MN"; "Author LN"]
              /\ dict_get book_prop_dict key = mret prop
              /\ String.eqb prop "Length" = false
              /\ String.eqb prop "Rating" = false)
      as (prop & Hprop & Hget & Hlen & Hrat).
    { repeat (apply elem_of_cons in Hin as [-> | Hin];
              [eexists; split; [| split; [reflexivity | split; reflexivity]];
               apply (bool_decide_unpack _); vm_compute; exact I |]).
      inversion Hin. }
    unfold edit_existing_book, int_input, input, mbind, M_bind.
    cbn [stdin]. unfold from_option at 1. rewrite Hkey.
    unfold mret at 1, M_ret at 1. rewrite Hget.
    unfold mret at 1, M_ret at 1. cbn [stdin].
    rewrite Hlen, Hrat. unfold mret at 1, M_ret at 1.
    rewrite (bool_decide_eq_true_2 _ Hprop).
    unfold loc_mask_values.
    rewrite rows_loc_set_mask_none by by apply title_in_false.
    assert (filter (fun lr : Z * gmap string value =>
                      title_is book_title (snd lr) = true) (rows books_db)
            = []) as ->.
    { apply filter_none. intros lr Hlr.
      rewrite (title_in_false book_title books_db Habsent lr Hlr). done. }
    reflexivity.
  - intros df' w' Hrun. apply edit_existing_book_inv in Hrun
      as (kl & nv & rs & k & prop & v & _ & _ & _ & _ & _ & _ & _ & Hshape).
    case_bool_decide.
    + destruct Hshape as [Hin _]. congruence.
    + subst df'. apply rows_loc_set_mask_none. by apply title_in_false.
Qed.

Lemma edit_existing_book_unknown_title_witness :
  title_in "Ulysses"
    (frame_of_file {| csv_columns := book_db_cols;
                      csv_rows := [emma_book; dune_book] |}) = false
  /\ edit_existing_book ascii_int ascii_float
       (frame_of_file {| csv_columns := book_db_cols;
                         csv_rows := [emma_book; dune_book] |})
       "Ulysses" (typing ["4"; "Joyce"; "x"] dune_files)
     = (Err IndexError, typing ["x"] dune_files).
Proof.
  split; [vm_compute; reflexivity |].
  apply (proj1 (edit_existing_book_unknown_title ascii_int ascii_float
                  (frame_of_file {| csv_columns := book_db_cols;
                                    csv_rows := [emma_book; dune_book] |})
                  "Ulysses" "4" "Joyce" ["x"] dune_files [] 4
                  ltac:(vm_compute; reflexivity) eq_refl)).
  right. right. left.
Defined.

(** ** Adding a book *)

Lemma add_new_book_short (books_db : DataFrame) (book_title : string)
    (w : world) :
  (length (stdin w) < 6)%nat ->
  add_new_book books_db book_title w
  = (Err EOFError, {| stdin := []; fs := fs w; trace := trace w |}).
Proof.
  destruct w as [lines files tr]. simpl. intros Hshort.
  unfold add_new_book, input, mbind, M_bind.
  destruct lines as [|l1 [|l2 [|l3 [|l4 [|l5 [|l6 rest]]]]]];
    simpl in *; try reflexivity; lia.
Qed.

(** [add_new_book] does not look whether the catalog has the title: given
    six answers it appends one record with the title after the records
    there are, which stay as they are, and numbers all of them again from
    0, so a catalog that had the title has it once more; given fewer than
    six it uses them up and stops with [EOFError]. *)
Theorem add_new_book_appends (books_db : DataFrame) (book_title : string)
    (w : world) :
  ((length (stdin w) < 6)%nat ->
   add_new_book books_db book_title w
   = (Err EOFError, {| stdin := []; fs := fs w; trace := trace w |}))
  /\ ((6 <= length (stdin w))%nat ->
      exists df' record,
        add_new_book books_db book_title w
        = (OK df', {| stdin := List.skipn 6 (stdin w);
                      fs := fs w; trace := trace w |})
        /\ cell record "Title" = Str book_title
        /\ cell record "Times Read" = NaN
        /\ snd <$> rows df' = ((snd <$> rows books_db) ++ [record])%list
        /\ index df'
           = Z.of_nat <$> seq 0 (S (length (rows books_db)))
        /\ length (filter (fun lr => title_is book_title (snd lr) = true)
                          (rows df'))
           = S (length (filter (fun lr => title_is book_title (snd lr) = true)
                               (rows books_db)))).
Proof.
  split; [apply add_new_book_short |].
  destruct w as [lines files tr]. simpl. intros Hlines.
  destruct lines as [|fn [|mn [|ln [|len [|rat [|gen rest]]]]]];
    simpl in Hlines; try lia.
  exists (append_dict (new_book book_title fn mn ln len rat gen
                                 (Str (full_author fn mn ln))) books_db),
    (list_to_map (new_book book_title fn mn ln len rat gen
                           (Str (full_author fn mn ln)))).
  split; [apply add_new_book_run |].
  split; [reflexivity |]. split; [reflexivity |].
  split; [apply snd_append_dict |]. split.
  - unfold index, append_dict. simpl. rewrite fst_range_index.
    rewrite length_app, length_fmap. simpl.
    by replace (length (rows books_db) + 1)%nat
      with (S (length (rows books_db))) by lia.
  - set (d := new_book book_title fn mn ln len rat gen
                       (Str (full_author fn mn ln))).
    assert (forall l : list (Z * gmap string value),
              length (filter (fun lr => title_is book_title (snd lr) = true) l)
              = length (filter (fun r => title_is book_title r = true)
                               (snd <$> l))) as Hcount.
    { induction l as [|x l IH]; [reflexivity |]. rewrite fmap_cons.
      destruct (title_is book_title (snd x)) eqn:E.
      - rewrite !filter_cons_True by done. simpl. by rewrite IH.
      - rewrite !filter_cons_False by (rewrite E; discriminate). done. }
    rewrite (Hcount (rows (append_dict d books_db))), (Hcount (rows books_db)).
    rewrite snd_append_dict, filter_app, length_app.
    rewrite filter_cons_True by apply new_book_titled.
    simpl. lia.
Qed.

Lemma add_new_book_appends_witness :
  (6 <= length (stdin (typing ["Frank"; ""; "Herbert"; "412"; "5"; "SF"; "x"]
                              dune_files)))%nat
  /\ exists df' record,
       add_new_book
         (frame_of_file {| csv_columns := book_db_cols;
                           csv_rows := [emma_book; dune_book] |}) "Dune"
         (typing ["Frank"; ""; "Herbert"; "412"; "5"; "SF"; "x"] dune_files)
       = (OK df', typing ["x"] dune_files)
       /\ cell record "Title" = Str "Dune"
       /\ cell record "Times Read" = NaN
       /\ snd <$> rows df' = ([emma_book; dune_book] ++ [record])%list
       /\ index df' = [0; 1; 2]
       /\ length (filter (fun lr => title_is "Dune" (snd lr) = true) (rows df'))
          = 2%nat.
Proof.
  split; [simpl; lia |].
  apply (proj2 (add_new_book_appends
                  (frame_of_file {| csv_columns := book_db_cols;
                                    csv_rows := [emma_book; dune_book] |})
                  "Dune"
                  (typing ["Frank"; ""; "Herbert"; "412"; "5"; "SF"; "x"]
                          dune_files))).
  simpl. lia.
Defined.

(** ** A catalog session *)

Lemma quiet_first_value vs : quiet (first_value vs).
Proof. unfold first_value. solve_quiet. Qed.

Lemma quiet_select_mode py_int : quiet (select_mode py_int).
Proof. unfold select_mode. solve_quiet. Qed.

#[local] Hint Resolve quiet_first_value quiet_select_mode : quiet.

Lemma quiet_edit_existing_book py_int py_float books_db book_title :
  quiet (edit_existing_book py_int py_float books_db book_title).
Proof. unfold edit_existing_book. solve_quiet. Qed.

#[local] Hint Resolve quiet_edit_existing_book : quiet.

(** After a quiet step, what is to be shown of the whole run is to be shown
    of the rest of it, from a world with the same files and log. *)
Lemma after_quiet {A B} (m : M A) (k : A -> M B)
    (post : result B * world -> Prop) (files : gmap string csv_file)
    (tr : list event) :
  quiet m ->
  (forall e w1, fs w1 = files -> trace w1 = tr -> post (Err e, w1)) ->
  (forall a w1, fs w1 = files -> trace w1 = tr -> post (k a w1)) ->
  forall w, fs w = files -> trace w = tr -> post ((m ≫= k) w).
Proof.
  intros Hm Herr Hok w Hfs Htr. unfold mbind, M_bind.
  destruct (Hm w) as [Hfs1 Htr1].
  destruct (m w) as [[a|e] w1]; simpl in *.
  - apply Hok; congruence.
  - apply Herr; congruence.
Qed.

Lemma sorted_file_in_order by_columns (df sorted : DataFrame) :
  sort_values by_columns true df = OK sorted ->
  in_sort_order by_columns (csv_rows (file_of_frame sorted))
  /\ csv_rows (file_of_frame sorted) ≡ₚ snd <$> rows df
  /\ csv_columns (file_of_frame sorted) = columns df.
Proof.
  unfold sort_values. destruct (sortable by_columns df); [| discriminate].
  intros [= <-]. unfold file_of_frame, reset_index. simpl.
  rewrite snd_range_index. split; [apply stable_sort_sorts |].
  split; [| done]. by rewrite stable_sort_Permutation.
Qed.


Lemma select_mode_at_once py_int (line : string) (rest : list string)
    (files : gmap string csv_file) (tr : list event) (m : Z) :
  py_int line = Some m -> m ∈ [1; 2; 3] ->
  select_mode py_int {| stdin := line :: rest; fs := files; trace := tr |}
  = (OK m, {| stdin := rest; fs := files; trace := tr |}).
Proof.
  intros Hline Hm.
  unfold select_mode, int_input, input, on_stdin, mbind, M_bind. simpl.
  rewrite Hline. simpl. destruct rest; simpl; by rewrite bool_decide_eq_true_2.
Qed.

Lemma prompt_for_title_at_once (db : DataFrame) (update_mode : Z)
    (t : string) (rest : list string) (files : gmap string csv_file)
    (tr : list event) :
  update_mode = 1 \/ title_in t db = true ->
  prompt_for_title db update_mode
    {| stdin := t :: rest; fs := files; trace := tr |}
  = (OK t, {| stdin := rest; fs := files; trace := tr |}).
Proof.
  intros Hcase. unfold prompt_for_title, input, on_stdin, mbind, M_bind. simpl.
  case_bool_decide as Hmode; [reflexivity |].
  destruct Hcase as [-> | Ht]; [done |].
  destruct rest; simpl; by rewrite Ht.
Qed.

Lemma homogeneous_subset (vs ws : list value) :
  (forall v, v ∈ ws -> v ∈ vs) -> homogeneous vs = true ->
  homogeneous ws = true.
Proof.
  intros Hsub. rewrite !homogeneous_spec. intros Hall k1 k2 H1 H2.
  apply list_elem_of_omap in H1 as (v1 & Hv1 & Hk1).
  apply list_elem_of_omap in H2 as (v2 & Hv2 & Hk2).
  apply Hall; apply list_elem_of_omap; eauto.
Qed.

Lemma sortable_subset by_columns (df1 df2 : DataFrame) :
  (forall lr, lr ∈ rows df2 -> lr ∈ rows df1) ->
  sortable by_columns df1 = true -> sortable by_columns df2 = true.
Proof.
  intros Hsub. unfold sortable. rewrite !forallb_forall.
  intros Hall c Hc. apply (homogeneous_subset (column_values df1 c)).
  - unfold column_values. intros v Hv.
    apply list_elem_of_fmap in Hv as (lr & -> & Hlr).
    apply list_elem_of_fmap. eauto.
  - by apply Hall.
Qed.

Lemma snd_filter_snd (P : gmap string value -> Prop)
    `{!forall r, Decision (P r)} (l : list (Z * gmap string value)) :
  snd <$> filter (fun lr => P (snd lr)) l = filter P (snd <$> l).
Proof.
  induction l as [|x l IH]; [reflexivity |]. rewrite fmap_cons.
  destruct (decide (P (snd x))).
  - rewrite !filter_cons_True by done. rewrite fmap_cons. by rewrite IH.
  - by rewrite !filter_cons_False by done.
Qed.

(** The records a frame read from a file keeps when a title is removed. *)
Lemma removed_records (catalog : csv_file) (book_title : string) :
  snd <$> rows (remove_existing_book (frame_of_file catalog) book_title)
  = filter (fun r => cell r "Title" ≠ Str book_title) (csv_rows catalog).
Proof.
  unfold remove_existing_book.
  rewrite drop_mask_rows by apply frame_of_file_NoDup.
  pose proof (snd_filter_snd (fun r => title_is book_title r = false)
                (rows (frame_of_file catalog))) as Hsnd.
  cbv beta in Hsnd. rewrite Hsnd.
  unfold frame_of_file. simpl. rewrite snd_range_index.
  apply list_filter_iff. intros r. rewrite <- title_is_true.
  by destruct (title_is book_title r).
Qed.

(** Removing a book in a session: the mode typed is 3 and the title typed
    is in the catalog.  The session completes, having read those two lines,
    and the catalog on disk holds the records it held except those with the
    title, in order of last name and title, under the same columns. *)
Theorem catalog_session_removes (py_int : string -> option Z)
    (py_float : string -> option Q) (dir : string) (w : world)
    (catalog : csv_file) (mode_line book_title : string)
    (rest : list string) :
  fs w !! (dir +:+ "/" +:+ "books.csv") = Some catalog ->
  stdin w = mode_line :: book_title :: rest ->
  py_int mode_line = Some 3 ->
  in_catalog book_title catalog ->
  sortable ["Author LN"; "Title"] (frame_of_file catalog) = true ->
  exists w' catalog',
    update_book_db py_int py_float dir w = (OK tt, w')
    /\ stdin w' = rest
    /\ fs w' !! (dir +:+ "/" +:+ "books.csv") = Some catalog'
    /\ csv_columns catalog' = csv_columns catalog
    /\ csv_rows catalog'
       ≡ₚ filter (fun r => cell r "Title" ≠ Str book_title) (csv_rows catalog)
    /\ in_sort_order ["Author LN"; "Title"] (csv_rows catalog')
    /\ ~ in_catalog book_title catalog'.
Proof.
  intros Hfile Hlines Hmode Hin Hsortable.
  destruct w as [lines files tr]. simpl in *. subst lines.
  assert (sortable ["Author LN"; "Title"]
            (remove_existing_book (frame_of_file catalog) book_title) = true)
    as Hsortable'.
  { apply (sortable_subset _ (frame_of_file catalog)); [| done].
    intros lr Hlr. by apply drop_mask_unmasked in Hlr as [_ Hlr]. }
  destruct (sort_values ["Author LN"; "Title"] true
              (remove_existing_book (frame_of_file catalog) book_title))
    as [sorted|e] eqn:Hsort;
    [| by rewrite sort_values_run in Hsort by done].
  exists {| stdin := rest;
            fs := <[dir +:+ "/" +:+ "books.csv" := file_of_frame sorted]> files;
            trace := tr ++ [SortValues ["Author LN"; "Title"];
                            ToCsv (dir +:+ "/" +:+ "books.csv")] |},
    (file_of_frame sorted).
  apply sorted_file_in_order in Hsort as Hsorted.
  destruct Hsorted as (Hord & Hperm & Hcols).
  rewrite removed_records in Hperm.
  split; [| split; [done |]; split; [simpl; by rewrite lookup_insert_eq |];
            split; [done |]; split; [done |]; split; [done |]].
  - unfold update_book_db, read_csv. cbv zeta. unfold mbind at 1, M_bind at 1.
    cbn [fs]. rewrite Hfile.
    unfold mbind at 1, M_bind at 1.
    rewrite (select_mode_at_once py_int mode_line _ files tr 3 Hmode)
      by (right; right; left).
    unfold mbind at 1, M_bind at 1.
    rewrite prompt_for_title_at_once
      by (right; by apply title_in_frame_of_file).
    rewrite (bool_decide_eq_false_2 (3 = 1)) by done.
    rewrite (bool_decide_eq_false_2 (3 = 2)) by done.
    unfold mbind at 1, M_bind at 1, mret at 1, M_ret at 1.
    unfold sort_values_M, lift, emit, to_csv, mbind, M_bind, mret, M_ret.
    rewrite Hsort. simpl. by rewrite <- app_assoc.
  - intros (r & Hr & Ht). rewrite Hperm in Hr.
    apply list_elem_of_filter in Hr as [Hne _]. done.
Qed.

Lemma catalog_session_removes_witness :
  ascii_int "3" = Some 3
  /\ exists w' catalog',
       update_book_db ascii_int ascii_float "d"
         (typing ["3"; "Emma"; "x"] dune_files) = (OK tt, w')
       /\ stdin w' = ["x"]
       /\ fs w' !! ("d" +:+ "/" +:+ "books.csv") = Some catalog'
       /\ csv_columns catalog' = book_db_cols
       /\ csv_rows catalog'
          ≡ₚ filter (fun r => cell r "Title" ≠ Str "Emma")
                    [emma_book; dune_book]
       /\ in_sort_order ["Author LN"; "Title"] (csv_rows catalog')
       /\ ~ in_catalog "Emma" catalog'.
Proof.
  split; [reflexivity |].
  apply (catalog_session_removes ascii_int ascii_float "d"
           (typing ["3"; "Emma"; "x"] dune_files)
           {| csv_columns := book_db_cols;
              csv_rows := [emma_book; dune_book] |} "3" "Emma" ["x"]).
  - vm_compute. reflexivity.
  - reflexivity.
  - reflexivity.
  - exists emma_book. split; [left | reflexivity].
  - vm_compute. reflexivity.
Defined.

Lemma text_keys_sortable (df : DataFrame) :
  text_keys (snd <$> rows df) ->
  sortable ["Author LN"; "Title"] df = true.
Proof.
  intros Htext. unfold sortable. apply forallb_forall. intros c Hc.
  apply list_elem_of_In in Hc.
  apply text_column_homogeneous. unfold column_values.
  apply Forall_forall. intros v Hv.
  apply list_elem_of_fmap in Hv as (lr & -> & Hlr).
  apply (Htext (snd lr) c); [| done]. by apply list_elem_of_fmap_2.
Qed.



(** ** A synchronizer pass: what it leaves alone *)

(** The part the two synchronizer functions share: read the catalog, add
    the book if it is new, set one column on the records of the title,
    write the catalog. *)
Lemma pass_shape (path book_title col : string) (v : value) (w w' : world)
    (catalog : csv_file) :
  fs w !! path = Some catalog ->
  (books_db ← read_csv path;
   books_db ←
     (if title_in book_title books_db then
        mret (loc_set_mask (title_is book_title) col v books_db)
      else
        books_db ← add_new_book books_db book_title;
        mret (loc_set_mask (title_is book_title) col v books_db));
   to_csv books_db path) w = (OK tt, w') ->
  exists base extra,
    fs w' = <[path := file_of_frame
                        (loc_set_mask (title_is book_title) col v base)]> (fs w)
    /\ snd <$> rows base = (csv_rows catalog ++ extra)%list
    /\ title_in book_title base = true
    /\ (if title_in book_title (frame_of_file catalog)
        then extra = [] /\ stdin w' = stdin w
        else exists r, extra = [r] /\ title_is book_title r = true).
Proof.
  intros Hfile Hrun. destruct w as [lines files tr]. simpl in *.
  unfold read_csv, to_csv, mbind, M_bind, mret, M_ret in Hrun.
  simpl in Hrun. rewrite Hfile in Hrun.
  destruct (title_in book_title (frame_of_file catalog)) eqn:Hin.
  - injection Hrun as <-. exists (frame_of_file catalog), [].
    simpl. rewrite app_nil_r. split; [done |].
    split; [unfold frame_of_file; simpl; by rewrite snd_range_index |].
    done.
  - destruct (decide (length lines < 6)%nat) as [Hshort | Hlong].
    + rewrite (add_new_book_short (frame_of_file catalog) book_title
                 {| stdin := lines; fs := files; trace := tr |}) in Hrun
        by done.
      discriminate.
    + destruct lines as [|fn [|mn [|ln [|len [|rat [|gen rest]]]]]];
        simpl in Hlong; try lia.
      rewrite add_new_book_run in Hrun. injection Hrun as <-.
      eexists _, _. simpl. split; [done |]. split.
      * rewrite snd_append_dict. unfold frame_of_file. simpl.
        by rewrite snd_range_index.
      * split; [apply title_in_append_new_book |].
        eexists. split; [done |]. apply new_book_titled.
Qed.

Lemma pass_frame (path book_title col : string) (v : value) (w w' : world)
    (catalog : csv_file) (base : DataFrame) (extra : list (gmap string value)) :
  col ≠ "Title" ->
  fs w' = <[path := file_of_frame
                      (loc_set_mask (title_is book_title) col v base)]> (fs w) ->
  snd <$> rows base = (csv_rows catalog ++ extra)%list ->
  (forall p, p ≠ path -> fs w' !! p = fs w !! p)
  /\ exists catalog',
       fs w' !! path = Some catalog'
       /\ length (csv_rows catalog')
          = (length (csv_rows catalog) + length extra)%nat
       /\ forall (i : nat) r,
            csv_rows catalog !! i = Some r ->
            exists r',
              csv_rows catalog' !! i = Some r'
              /\ (cell r "Title" ≠ Str book_title -> r' = r)
              /\ (forall c, c ≠ col -> cell r' c = cell r c).
Proof.
  intros Hcol -> Hbase. split; [intros p Hp; by rewrite lookup_insert_ne |].
  eexists. rewrite lookup_insert_eq. split; [done |].
  unfold file_of_frame. cbn [csv_rows].
  rewrite snd_loc_set_mask, Hbase. split.
  - by rewrite length_fmap, length_app.
  - intros i r Hi. rewrite list_lookup_fmap, lookup_app_l
      by (by apply lookup_lt_Some in Hi).
    rewrite Hi. simpl. eexists. split; [done |].
    destruct (title_is book_title r) eqn:Ht.
    + split.
      * intros Hne. by apply title_is_true in Ht.
      * intros c Hc. unfold cell. by rewrite lookup_insert_ne.
    + done.
Qed.

(** A completed pass of either synchronizer function touches no file but
    the catalog, and in the catalog it keeps every record in its place:
    the records of other titles are as they were, and in the records of
    the title nothing has changed but the derived field of the pass.  The
    catalog has one record more when the title was new, none otherwise, and
    a pass for a title the catalog has reads nothing from the terminal. *)
Theorem synchronizer_pass_frame (reading_db : DataFrame)
    (dir book_title : string) (w : world) (catalog : csv_file) :
  let books := dir +:+ "/books.csv" in
  let grown :=
    if title_in book_title (frame_of_file catalog) then 0%nat else 1%nat in
  fs w !! books = Some catalog ->
  (forall w',
     update_reading_count reading_db dir book_title w = (OK tt, w') ->
     (forall p, p ≠ books -> fs w' !! p = fs w !! p)
     /\ (in_catalog book_title catalog -> stdin w' = stdin w)
     /\ exists catalog',
          fs w' !! books = Some catalog'
          /\ length (csv_rows catalog')
             = (length (csv_rows catalog) + grown)%nat
          /\ forall (i : nat) r,
               csv_rows catalog !! i = Some r ->
               exists r',
                 csv_rows catalog' !! i = Some r'
                 /\ (cell r "Title" ≠ Str book_title -> r' = r)
                 /\ (forall c, c ≠ "Times Read" -> cell r' c = cell r c))
  /\ (forall w',
        update_book_rating reading_db dir book_title w = (OK tt, w') ->
        (forall p, p ≠ books -> fs w' !! p = fs w !! p)
        /\ (in_catalog book_title catalog -> stdin w' = stdin w)
        /\ exists catalog',
             fs w' !! books = Some catalog'
             /\ length (csv_rows catalog')
                = (length (csv_rows catalog) + grown)%nat
             /\ forall (i : nat) r,
                  csv_rows catalog !! i = Some r ->
                  exists r',
                    csv_rows catalog' !! i = Some r'
                    /\ (cell r "Title" ≠ Str book_title -> r' = r)
                    /\ (forall c, c ≠ "Rating" -> cell r' c = cell r c)).
Proof.
  cbv zeta. intros Hfile.
  assert (forall col v (w0 w' : world),
            col ≠ "Title" ->
            fs w0 = fs w -> stdin w0 = stdin w ->
            (books_db ← read_csv (dir +:+ "/books.csv");
             books_db ←
               (if title_in book_title books_db then
                  mret (loc_set_mask (title_is book_title) col v books_db)
                else
                  books_db ← add_new_book books_db book_title;
                  mret (loc_set_mask (title_is book_title) col v books_db));
             to_csv books_db (dir +:+ "/books.csv")) w0 = (OK tt, w') ->
            (forall p, p ≠ dir +:+ "/books.csv" -> fs w' !! p = fs w !! p)
            /\ (in_catalog book_title catalog -> stdin w' = stdin w)
            /\ exists catalog',
                 fs w' !! (dir +:+ "/books.csv") = Some catalog'
                 /\ length (csv_rows catalog')
                    = (length (csv_rows catalog)
                       + if title_in book_title (frame_of_file catalog)
                         then 0 else 1)%nat
                 /\ forall (i : nat) r,
                      csv_rows catalog !! i = Some r ->
                      exists r',
                        csv_rows catalog' !! i = Some r'
                        /\ (cell r "Title" ≠ Str book_title -> r' = r)
                        /\ (forall c, c ≠ col -> cell r' c = cell r c))
    as Hpass.
  { intros col v w0 w' Hcol Hfs0 Hin0 Hrun.
    apply (pass_shape _ _ _ _ _ _ catalog) in Hrun
      as (base & extra & Hfs' & Hbase & _ & Hextra); [| by rewrite Hfs0].
    destruct (pass_frame _ _ _ _ _ _ catalog base extra Hcol Hfs' Hbase)
      as (Hother & catalog' & Hcat' & Hlen & Hrows).
    rewrite Hfs0 in Hother. split; [done |]. split.
    - intros Hin. apply title_in_frame_of_file in Hin.
      rewrite Hin in Hextra. destruct Hextra as [_ ->]. done.
    - exists catalog'. split; [done |]. split; [| done].
      rewrite Hlen. f_equal.
      destruct (title_in book_title (frame_of_file catalog)).
      + by destruct Hextra as [-> _].
      + by destruct Hextra as (r & -> & _). }
  split.
  - intros w' Hrun. unfold update_reading_count in Hrun. cbv zeta in Hrun.
    unfold mbind at 1, M_bind at 1, emit in Hrun.
    apply Hpass in Hrun; done.
  - intros w' Hrun. unfold update_book_rating in Hrun. cbv zeta in Hrun.
    unfold mbind at 1, M_bind at 1, emit in Hrun.
    unfold mbind at 1, M_bind at 1, lift in Hrun.
    destruct (series_mean _) as [avg|]; [| discriminate].
    apply Hpass in Hrun; done.
Qed.

Lemma synchronizer_pass_frame_witness :
  fs (typing [] dune_files) !! ("d" +:+ "/books.csv")
  = Some {| csv_columns := book_db_cols; csv_rows := [emma_book; dune_book] |}
  /\ exists w',
       update_reading_count dune_log "d" "Dune" (typing [] dune_files)
       = (OK tt, w')
       /\ (forall p, p ≠ "d" +:+ "/books.csv" ->
             fs w' !! p = fs (typing [] dune_files) !! p)
       /\ stored_rows "d/books.csv" w'
          = [emma_book; <["Times Read" := Int 1]> dune_book].
Proof.
  split; [vm_compute; reflexivity |].
  eexists. split; [vm_compute; reflexivity |]. split.
  - eapply (proj1 (synchronizer_pass_frame dune_log "d" "Dune"
                     (typing [] dune_files)
                     {| csv_columns := book_db_cols;
                        csv_rows := [emma_book; dune_book] |}
                     ltac:(vm_compute; reflexivity))).
    vm_compute. reflexivity.
  - vm_compute. reflexivity.
Defined.

Lemma add_column_again (cols : list string) (c : string) :
  add_column (add_column cols c) c = add_column cols c.
Proof.
  unfold add_column. destruct (decide (c ∈ cols)) as [Hin | Hin].
  - by rewrite !(bool_decide_eq_true_2 _ Hin).
  - rewrite (bool_decide_eq_false_2 _ Hin).
    rewrite bool_decide_eq_true_2; [done |].
    apply elem_of_app. right. by left.
Qed.

(** Setting the same value again through a file changes nothing. *)
Lemma loc_set_mask_again (book_title col : string) (v : value)
    (df : DataFrame) :
  col ≠ "Title" ->
  file_of_frame
    (loc_set_mask (title_is book_title) col v
       (frame_of_file
          (file_of_frame (loc_set_mask (title_is book_title) col v df))))
  = file_of_frame (loc_set_mask (title_is book_title) col v df).
Proof.
  intros Hcol. unfold file_of_frame at 1 3. f_equal.
  - simpl. apply add_column_again.
  - rewrite !snd_loc_set_mask. unfold frame_of_file, file_of_frame. simpl.
    rewrite snd_range_index.
    change ((fun lr => if title_is book_title (snd lr)
                       then (fst lr, <[col := v]> (snd lr)) else lr)
            <$> rows df) with (rows (loc_set_mask (title_is book_title) col v df)).
    rewrite snd_loc_set_mask. rewrite <- list_fmap_compose.
    apply list_fmap_ext. intros i r _. simpl.
    destruct (title_is book_title r) eqn:Ht.
    + rewrite title_is_insert_ne, Ht by done. apply insert_insert_eq.
    + by rewrite Ht.
Qed.

Lemma title_in_synced (book_title col : string) (v : value) (df : DataFrame) :
  col ≠ "Title" ->
  title_in book_title df = true ->
  title_in book_title
    (frame_of_file
       (file_of_frame (loc_set_mask (title_is book_title) col v df))) = true.
Proof.
  intros Hcol Hin. apply title_in_frame_of_file.
  by apply synced_catalog.
Qed.



(** ** Adding and removing reading entries *)

(** [add_reading_entry], given a start and a finish that read as dates or
    as nothing and a rating that is empty or an integer, completes: it has
    read three lines, and the log has one row more, after the rows it had,
    all numbered again from 0.  The new row carries the title, the dates,
    the rating (missing for an empty line) and the reading time its dates
    give: the days from start to finish and one more, or nothing when a
    date is missing. *)
Theorem add_reading_entry_appends (py_int : string -> option Z)
    (to_datetime_date : string -> option (option Z))
    (reading_db : DataFrame) (book_title start_line finish_line
    rating_line : string) (rest : list string)
    (files : gmap string csv_file) (tr : list event)
    (start finish : option Z) (rating : value) :
  to_datetime_date start_line = Some start ->
  to_datetime_date finish_line = Some finish ->
  (rating_line = "" /\ rating = NaN
   \/ rating_line ≠ "" /\ exists z, py_int rating_line = Some z
                                  /\ rating = Int z) ->
  exists df' entry,
    add_reading_entry py_int to_datetime_date reading_db book_title
      {| stdin := start_line :: finish_line :: rating_line :: rest;
         fs := files; trace := tr |}
    = (OK df', {| stdin := rest; fs := files;
                  trace := tr ++ [ReadingEntryAdded book_title] |})
    /\ snd <$> rows df' = ((snd <$> rows reading_db) ++ [entry])%list
    /\ index df' = Z.of_nat <$> seq 0 (S (length (rows reading_db)))
    /\ cell entry "Title" = Str book_title
    /\ cell entry "Start" = date_value start
    /\ cell entry "Finish" = date_value finish
    /\ cell entry "Rating" = rating
    /\ cell entry "Reading Time"
       = match start, finish with
         | Some s, Some f => Int (f - s + 1)
         | _, _ => NaN
         end.
Proof.
  intros Hstart Hfinish Hrating.
  set (reading_time := match start, finish with
                       | Some s, Some f => Int (f - s + 1)
                       | _, _ => NaN
                       end).
  assert (update_reading_time (date_value start) (date_value finish)
          = OK reading_time) as Htime.
  { subst reading_time. destruct start, finish; reflexivity. }
  assert (forall w0, format_rating py_int rating_line w0 = (OK rating, w0))
    as Hformat.
  { intros w0. unfold format_rating.
    destruct Hrating as [[-> ->] | (Hne & z & Hz & ->)].
    - reflexivity.
    - rewrite bool_decide_eq_true_2 by done. rewrite Hz. reflexivity. }
  exists (append_dict [("Title", Str book_title);
                       ("Start", date_value start);
                       ("Finish", date_value finish);
                       ("Reading Time", reading_time);
                       ("Rating", rating)] reading_db),
    (list_to_map [("Title", Str book_title);
                  ("Start", date_value start);
                  ("Finish", date_value finish);
                  ("Reading Time", reading_time);
                  ("Rating", rating)]).
  split.
  - unfold add_reading_entry, date_input, input, mbind, M_bind. cbn [stdin].
    rewrite Hstart. cbn [fmap option_fmap option_map from_option].
    unfold mret at 1, M_ret at 1. cbn [stdin].
    rewrite Hfinish. cbn [fmap option_fmap option_map from_option].
    unfold mret at 1, M_ret at 1. cbn [stdin].
    rewrite Hformat. unfold lift. rewrite Htime.
    reflexivity.
  - split; [apply snd_append_dict |]. split.
    + unfold index, append_dict. simpl. rewrite fst_range_index.
      rewrite length_app, length_fmap. simpl.
      by replace (length (rows reading_db) + 1)%nat
        with (S (length (rows reading_db))) by lia.
    + repeat split; reflexivity.
Qed.

Lemma add_reading_entry_appends_witness :
  iso_date "2024-02-01" = Some (Some 738917)
  /\ iso_date "" = Some None
  /\ exists df' entry,
       add_reading_entry ascii_int iso_date dune_log "Dune"
         (typing ["2024-02-01"; ""; ""; "x"] dune_files)
       = (OK df', {| stdin := ["x"]; fs := dune_files;
                     trace := [] ++ [ReadingEntryAdded "Dune"] |})
       /\ snd <$> rows df' = ((snd <$> rows dune_log) ++ [entry])%list
       /\ index df' = Z.of_nat <$> seq 0 (S (length (rows dune_log)))
       /\ cell entry "Title" = Str "Dune"
       /\ cell entry "Start" = date_value (Some 738917)
       /\ cell entry "Finish" = date_value None
       /\ cell entry "Rating" = NaN
       /\ cell entry "Reading Time" = NaN.
Proof.
  split; [vm_compute; reflexivity |]. split; [reflexivity |].
  apply (add_reading_entry_appends ascii_int iso_date dune_log "Dune"
           "2024-02-01" "" "" ["x"] dune_files [] (Some 738917) None NaN).
  - vm_compute. reflexivity.
  - reflexivity.
  - left. split; reflexivity.
Defined.

Lemma one_row_per_label (l : list (Z * gmap string value)) (label : Z) :
  NoDup (fst <$> l) -> label ∈ fst <$> l ->
  (length (filter (fun lr => fst lr ≠ label) l) + 1)%nat = length l.
Proof.
  induction l as [|[k r] l IH]; intros Hnd Hin; [inversion Hin |].
  rewrite fmap_cons in Hnd, Hin. simpl in Hnd, Hin.
  apply NoDup_cons in Hnd as [Hk Hnd].
  destruct (decide (k = label)) as [-> | Hne].
  - rewrite filter_cons_False by (simpl; intros H; by apply H).
    rewrite filter_all; [simpl; lia |].
    intros [k' r'] Hx. simpl. intros ->. apply Hk.
    apply list_elem_of_fmap. by exists (label, r').
  - rewrite filter_cons_True by done. simpl.
    apply elem_of_cons in Hin as [-> | Hin]; [done |].
    rewrite <- (IH Hnd Hin). lia.
Qed.

(** [remove_reading_entry] at a position the log has completes: it has read
    one line, and the log it returns is the log without the row at that
    position, the other rows in their order and under the labels they had
    (nothing is renumbered).  With labels all different that is exactly
    one row fewer. *)
Theorem remove_reading_entry_removes (py_int : string -> option Z)
    (reading_db : DataFrame) (book_title idx_line : string)
    (rest : list string) (files : gmap string csv_file) (tr : list event)
    (idx : Z) :
  py_int idx_line = Some idx ->
  idx ∈ index reading_db ->
  exists df',
    remove_reading_entry py_int reading_db book_title
      {| stdin := idx_line :: rest; fs := files; trace := tr |}
    = (OK df', {| stdin := rest; fs := files;
                  trace := tr ++ [ReadingEntryRemoved book_title] |})
    /\ columns df' = columns reading_db
    /\ rows df' = filter (fun lr => fst lr ≠ idx) (rows reading_db)
    /\ (idx ∉ index df')
    /\ (NoDup (index reading_db) ->
        (length (rows df') + 1)%nat = length (rows reading_db)).
Proof.
  intros Hidx Hvalid. eexists. split.
  - unfold remove_reading_entry, int_input, input, lift, drop, emit,
      mbind, M_bind, from_option, mret, M_ret. simpl.
    rewrite Hidx. rewrite (bool_decide_eq_true_2 _ Hvalid). reflexivity.
  - simpl. split; [done |]. split; [done |]. split.
    + unfold index. simpl. intros Hin.
      apply list_elem_of_fmap in Hin as (lr & Hl & Hin).
      apply list_elem_of_filter in Hin as [Hne _]. by apply Hne.
    + intros Hnd. by apply one_row_per_label.
Qed.

Lemma remove_reading_entry_removes_witness :
  ascii_int "1" = Some 1
  /\ (1 ∈ index dune_log)
  /\ exists df',
       remove_reading_entry ascii_int dune_log "Dune"
         (typing ["1"; "x"] dune_files)
       = (OK df', {| stdin := ["x"]; fs := dune_files;
                     trace := [] ++ [ReadingEntryRemoved "Dune"] |})
       /\ columns df' = columns dune_log
       /\ rows df' = filter (fun lr => fst lr ≠ 1) (rows dune_log)
       /\ (1 ∉ index df')
       /\ (NoDup (index dune_log) ->
           (length (rows df') + 1)%nat = length (rows dune_log)).
Proof.
  assert (1 ∈ index dune_log) as Hin
    by (apply (bool_decide_unpack _); vm_compute; exact I).
  split; [reflexivity |]. split; [exact Hin |].
  apply (remove_reading_entry_removes ascii_int dune_log "Dune" "1" ["x"]
           dune_files [] 1 eq_refl Hin).
Defined.

(** ** A reading-log session, from disk to disk *)

Lemma pass_after_mutation (mutate : M DataFrame) (dir book_title : string)
    (w0 w4 : world) (reading_db' : DataFrame) :
  (reading_db ← mutate;
   update_reading_count reading_db dir book_title;;
   update_book_rating reading_db dir book_title;;
   mret reading_db) w0 = (OK reading_db', w4) ->
  exists w1, mutate w0 = (OK reading_db', w1).
Proof.
  unfold mbind, M_bind. intros Hrun.
  destruct (mutate w0) as [[reading_db|e] w1]; [| discriminate].
  destruct (update_reading_count reading_db dir book_title w1)
    as [[[]|e] w2]; [| discriminate].
  destruct (update_book_rating reading_db dir book_title w2)
    as [[[]|e] w3]; [| discriminate].
  injection Hrun as <- <-. eauto.
Qed.

(** A session that completes has read the log from its file, applied one
    of the three mutations to it, sorted what came out and written that. *)
Lemma update_reading_db_inv py_int to_datetime_date (dir : string)
    (w w' : world) :
  update_reading_db py_int to_datetime_date dir w = (OK tt, w') ->
  exists log reading_db' sorted book_title w0 w1,
    fs w !! (dir +:+ "/" +:+ "reading.csv") = Some log
    /\ (add_reading_entry py_int to_datetime_date (frame_of_file log)
          book_title w0 = (OK reading_db', w1)
        \/ edit_reading_entry py_int to_datetime_date (frame_of_file log)
             book_title w0 = (OK reading_db', w1)
        \/ remove_reading_entry py_int (frame_of_file log) book_title w0
           = (OK reading_db', w1))
    /\ sort_values ["Finish"; "Start"] false reading_db' = OK sorted
    /\ fs w' !! (dir +:+ "/" +:+ "reading.csv") = Some (file_of_frame sorted).
Proof.
  unfold update_reading_db. cbv zeta. unfold mbind at 1, M_bind at 1, read_csv.
  intros Hrun.
  destruct (fs w !! (dir +:+ "/" +:+ "reading.csv")) as [log|] eqn:Hlog;
    [| discriminate].
  unfold mbind at 1, M_bind at 1 in Hrun.
  destruct (int_input py_int w) as [[update_mode|e] w2]; [| discriminate].
  unfold mbind at 1, M_bind at 1 in Hrun.
  destruct (prompt_for_title (frame_of_file log) update_mode w2)
    as [[book_title|e] w3]; [| discriminate].
  unfold mbind at 1, M_bind at 1 in Hrun.
  match type of Hrun with
  | (match ?branch w3 with _ => _ end) = _ =>
      destruct (branch w3) as [[reading_db'|e] w4] eqn:Hbranch;
      [| discriminate]
  end.
  unfold sort_values_M, lift, emit, to_csv, mbind, M_bind, mret, M_ret in Hrun.
  destruct (sort_values ["Finish"; "Start"] false reading_db')
    as [sorted|e] eqn:Hsort; [| discriminate].
  simpl in Hrun. injection Hrun as <-.
  exists log, reading_db', sorted, book_title.
  assert (exists w0 w1,
            add_reading_entry py_int to_datetime_date (frame_of_file log)
              book_title w0 = (OK reading_db', w1)
            \/ edit_reading_entry py_int to_datetime_date (frame_of_file log)
                 book_title w0 = (OK reading_db', w1)
            \/ remove_reading_entry py_int (frame_of_file log) book_title w0
               = (OK reading_db', w1)) as (w0 & w1 & Hmutation).
  { destruct (bool_decide (update_mode = 1)).
    - destruct (title_in book_title (frame_of_file log)).
      + unfold mbind at 1, M_bind at 1 in Hbranch.
        destruct (input w3) as [[switch_to_edit|e] w5]; [| discriminate].
        destruct (bool_decide (switch_to_edit ∈ ["Y"; "y"]));
          apply pass_after_mutation in Hbranch as [w1 Hmut]; eauto 6.
      + apply pass_after_mutation in Hbranch as [w1 Hmut]; eauto 6.
    - destruct (bool_decide (update_mode = 2));
        apply pass_after_mutation in Hbranch as [w1 Hmut]; eauto 6. }
  exists w0, w1. split; [done |]. split; [done |]. split; [done |].
  simpl. by rewrite lookup_insert_eq.
Qed.

Lemma add_reading_entry_effect py_int to_datetime_date (reading_db : DataFrame)
    (book_title : string) (w0 w1 : world) (df' : DataFrame) :
  add_reading_entry py_int to_datetime_date reading_db book_title w0
  = (OK df', w1) ->
  exists entry,
    snd <$> rows df' = ((snd <$> rows reading_db) ++ [entry])%list
    /\ cell entry "Title" = Str book_title
    /\ update_reading_time (cell entry "Start") (cell entry "Finish")
       = OK (cell entry "Reading Time").
Proof.
  unfold add_reading_entry, mbind, M_bind. intros Hrun.
  destruct (date_input to_datetime_date w0) as [[start|e] wa]; [| discriminate].
  destruct (date_input to_datetime_date wa) as [[finish|e] wb];
    [| discriminate].
  destruct (input wb) as [[rating_line|e] wc]; [| discriminate].
  destruct (format_rating py_int rating_line wc) as [[rating|e] wd];
    [| discriminate].
  unfold lift, emit, mret, M_ret in Hrun.
  destruct (update_reading_time start finish) as [reading_time|e] eqn:Htime;
    [| discriminate].
  injection Hrun as <- _.
  eexists. split; [apply snd_append_dict |]. split; [reflexivity |].
  exact Htime.
Qed.

Lemma edit_reading_entry_effect py_int to_datetime_date
    (reading_db : DataFrame) (book_title : string) (w0 w1 : world)
    (df' : DataFrame) :
  NoDup (index reading_db) ->
  edit_reading_entry py_int to_datetime_date reading_db book_title w0
  = (OK df', w1) ->
  exists idx,
    (forall r, (idx, r) ∈ rows df' ->
       update_reading_time (cell r "Start") (cell r "Finish")
       = OK (cell r "Reading Time"))
    /\ (forall lr, fst lr ≠ idx -> lr ∈ rows df' -> lr ∈ rows reading_db)
    /\ index df' = (if bool_decide (idx ∈ index reading_db)
                    then index reading_db
                    else (index reading_db ++ [idx])%list).
Proof.
  intros Hnd Hrun. destruct w0 as [lines files tr].
  destruct lines as [|idx_line rest].
  { unfold edit_reading_entry, int_input, input, mbind, M_bind in Hrun.
    simpl in Hrun. discriminate. }
  destruct (py_int idx_line) as [idx|] eqn:Hidx.
  2:{ unfold edit_reading_entry, int_input, input, mbind, M_bind in Hrun.
      simpl in Hrun. unfold from_option in Hrun. rewrite Hidx in Hrun.
      discriminate. }
  destruct (edit_reading_entry_inv _ _ _ _ _ _ _ _ idx _ _ Hidx Hrun)
    as (prop & v & start & finish & new_time & Hstart & Hfinish & Htime
        & Hdf & _ & _).
  clear Hrun. subst df'.
  set (edited := loc_set idx prop v reading_db) in *.
  assert (NoDup (index edited)) as Hnd1 by by apply loc_set_NoDup.
  exists idx. split; [| split].
  - intros r Hr. apply loc_set_elem in Hr as [(r1 & Hr1 & ->) | [Hno _]].
    + rewrite (loc_get_elem idx "Start" edited r1) in Hstart by done.
      rewrite (loc_get_elem idx "Finish" edited r1) in Hfinish by done.
      injection Hstart as <-. injection Hfinish as <-.
      unfold cell in *. rewrite !lookup_insert_ne by done.
      rewrite lookup_insert_eq. exact Htime.
    + exfalso. apply Hno. apply loc_set_labelled.
  - intros lr Hne Hlr. apply loc_set_other in Hlr; [| done].
    subst edited. by apply loc_set_other in Hlr.
  - rewrite index_loc_set.
    rewrite (bool_decide_eq_true_2 _ (loc_set_labelled idx prop v reading_db)).
    apply index_loc_set.
Qed.

Lemma remove_reading_entry_effect py_int (reading_db : DataFrame)
    (book_title : string) (w0 w1 : world) (df' : DataFrame) :
  remove_reading_entry py_int reading_db book_title w0 = (OK df', w1) ->
  exists idx,
    idx ∈ index reading_db
    /\ rows df' = filter (fun lr => fst lr ≠ idx) (rows reading_db).
Proof.
  unfold remove_reading_entry, mbind, M_bind. intros Hrun.
  destruct (int_input py_int w0) as [[idx|e] wa]; [| discriminate].
  unfold lift, drop, emit, mret, M_ret in Hrun.
  destruct (bool_decide (idx ∈ index reading_db)) eqn:Hin; [| discriminate].
  apply bool_decide_eq_true_1 in Hin.
  injection Hrun as <- _. by exists idx.
Qed.

Lemma sorted_in_place by_columns (df sorted : DataFrame) :
  sort_values by_columns false df = OK sorted ->
  in_sort_order by_columns (snd <$> rows sorted)
  /\ rows sorted ≡ₚ rows df.
Proof.
  unfold sort_values. destruct (sortable by_columns df); [| discriminate].
  intros [= <-]. simpl. split; [apply stable_sort_sorts |].
  apply stable_sort_Permutation.
Qed.

Lemma dune_log_consistent :
  reading_times_consistent (csv_rows (file_of_frame dune_log)).
Proof.
  intros r Hr. change (r ∈ [dune_entry; emma_entry]) in Hr.
  apply elem_of_cons in Hr as [-> | Hr]; [vm_compute; reflexivity |].
  apply list_elem_of_singleton in Hr as ->. vm_compute; reflexivity.
Qed.

(** A reading-log session keeps the log on disk consistent: when every
    entry of [reading.csv] has the reading time its start and finish give,
    so has every entry of the [reading.csv] a completed session writes,
    whatever was added, edited (at a position the log has or not) or
    removed. *)
Theorem reading_session_keeps_reading_times (py_int : string -> option Z)
    (to_datetime_date : string -> option (option Z))
    (dir : string) (w w' : world) (log : csv_file) :
  fs w !! (dir +:+ "/" +:+ "reading.csv") = Some log ->
  reading_times_consistent (csv_rows log) ->
  update_reading_db py_int to_datetime_date dir w = (OK tt, w') ->
  exists log',
    fs w' !! (dir +:+ "/" +:+ "reading.csv") = Some log'
    /\ reading_times_consistent (csv_rows log').
Proof.
  intros Hlog Hconsistent Hrun.
  apply update_reading_db_inv in Hrun
    as (log0 & reading_db' & sorted & book_title & w0 & w1 & Hlog0 & Hmutation
        & Hsort & Hwritten).
  rewrite Hlog in Hlog0. injection Hlog0 as <-.
  exists (file_of_frame sorted). split; [done |].
  apply sorted_in_place in Hsort as [_ Hperm].
  assert (forall lr, lr ∈ rows (frame_of_file log) -> snd lr ∈ csv_rows log)
    as Hfrom_file.
  { intros lr Hlr. rewrite <- (snd_range_index (csv_rows log)).
    by apply list_elem_of_fmap_2. }
  intros r Hr. unfold file_of_frame in Hr. simpl in Hr.
  apply list_elem_of_fmap in Hr as ([l r0] & -> & Hr). simpl.
  rewrite Hperm in Hr.
  destruct Hmutation as [Hadd | [Hedit | Hremove]].
  - apply add_reading_entry_effect in Hadd as (entry & Hrows & _ & Hentry).
    assert (r0 ∈ snd <$> rows reading_db') as Hin
      by (apply list_elem_of_fmap; by exists (l, r0)).
    rewrite Hrows in Hin. apply elem_of_app in Hin as [Hin | Hin].
    + apply list_elem_of_fmap in Hin as (lr & -> & Hin).
      apply Hconsistent. by apply Hfrom_file.
    + apply list_elem_of_singleton in Hin as ->. exact Hentry.
  - apply edit_reading_entry_effect in Hedit
      as (idx & Hat & Hother & _); [| apply frame_of_file_NoDup].
    destruct (decide (l = idx)) as [-> | Hne].
    + by apply Hat.
    + apply Hconsistent.
      apply (Hfrom_file (l, r0)). by apply Hother.
  - apply remove_reading_entry_effect in Hremove as (idx & _ & Hrows).
    rewrite Hrows in Hr. apply list_elem_of_filter in Hr as [_ Hr].
    apply Hconsistent. by apply (Hfrom_file (l, r0)).
Qed.

Lemma reading_session_keeps_reading_times_witness :
  exists w',
    fs (typing ["3"; "Dune"; "1"] dune_files)
      !! ("d" +:+ "/" +:+ "reading.csv") = Some (file_of_frame dune_log)
    /\ reading_times_consistent (csv_rows (file_of_frame dune_log))
    /\ update_reading_db ascii_int iso_date "d"
         (typing ["3"; "Dune"; "1"] dune_files) = (OK tt, w')
    /\ exists log',
         fs w' !! ("d" +:+ "/" +:+ "reading.csv") = Some log'
         /\ reading_times_consistent (csv_rows log').
Proof.
  eexists. split; [reflexivity |]. split; [exact dune_log_consistent |].
  assert (update_reading_db ascii_int iso_date "d"
            (typing ["3"; "Dune"; "1"] dune_files)
          = (OK tt, snd (update_reading_db ascii_int iso_date "d"
                           (typing ["3"; "Dune"; "1"] dune_files)))) as Hrun
    by (vm_compute; reflexivity).
  split; [exact Hrun |].
  exact (reading_session_keeps_reading_times ascii_int iso_date "d"
           (typing ["3"; "Dune"; "1"] dune_files) _
           (file_of_frame dune_log) eq_refl dune_log_consistent Hrun).
Defined.

(** A completed reading-log session leaves [reading.csv] in order of
    finish and then start, entries without a date last, and with one entry
    more, as many, or one fewer than it had. *)
Theorem reading_session_writes_sorted_log (py_int : string -> option Z)
    (to_datetime_date : string -> option (option Z))
    (dir : string) (w w' : world) (log : csv_file) :
  fs w !! (dir +:+ "/" +:+ "reading.csv") = Some log ->
  update_reading_db py_int to_datetime_date dir w = (OK tt, w') ->
  exists log',
    fs w' !! (dir +:+ "/" +:+ "reading.csv") = Some log'
    /\ in_sort_order ["Finish"; "Start"] (csv_rows log')
    /\ (length (csv_rows log') = S (length (csv_rows log))
        \/ length (csv_rows log') = length (csv_rows log)
        \/ S (length (csv_rows log')) = length (csv_rows log)).
Proof.
  intros Hlog Hrun.
  apply update_reading_db_inv in Hrun
    as (log0 & reading_db' & sorted & book_title & w0 & w1 & Hlog0 & Hmutation
        & Hsort & Hwritten).
  rewrite Hlog in Hlog0. injection Hlog0 as <-.
  exists (file_of_frame sorted). split; [done |].
  apply sorted_in_place in Hsort as [Hord Hperm].
  split; [exact Hord |].
  unfold file_of_frame. cbn [csv_rows]. rewrite length_fmap, Hperm.
  assert (length (rows (frame_of_file log)) = length (csv_rows log)) as Hlen.
  { unfold frame_of_file, range_index. simpl. apply length_imap. }
  destruct Hmutation as [Hadd | [Hedit | Hremove]].
  - apply add_reading_entry_effect in Hadd as (entry & Hrows & _).
    left. apply (f_equal length) in Hrows.
    rewrite length_app, !length_fmap, Hlen in Hrows. simpl in Hrows. lia.
  - apply edit_reading_entry_effect in Hedit
      as (idx & _ & _ & Hindex); [| apply frame_of_file_NoDup].
    apply (f_equal length) in Hindex. unfold index in Hindex.
    rewrite length_fmap in Hindex.
    case_bool_decide.
    + right. left. rewrite length_fmap, Hlen in Hindex. lia.
    + left. rewrite length_app, length_fmap, Hlen in Hindex.
      simpl in Hindex. lia.
  - apply remove_reading_entry_effect in Hremove as (idx & Hin & Hrows).
    right. right. rewrite Hrows.
    pose proof (one_row_per_label (rows (frame_of_file log)) idx
                  (frame_of_file_NoDup log) Hin) as Hone.
    rewrite Hlen in Hone. lia.
Qed.

Lemma reading_session_writes_sorted_log_witness :
  exists w',
    fs (typing ["1"; "Dune"; "2024-01-01"; "2024-01-10"; "5";
                "Frank"; ""; "Herbert"; ""; ""; ""] fresh_files)
      !! ("d" +:+ "/" +:+ "reading.csv") = Some empty_reading
    /\ update_reading_db ascii_int iso_date "d"
         (typing ["1"; "Dune"; "2024-01-01"; "2024-01-10"; "5";
                  "Frank"; ""; "Herbert"; ""; ""; ""] fresh_files)
       = (OK tt, w')
    /\ exists log',
         fs w' !! ("d" +:+ "/" +:+ "reading.csv") = Some log'
         /\ in_sort_order ["Finish"; "Start"] (csv_rows log')
         /\ (length (csv_rows log') = S (length (csv_rows empty_reading))
             \/ length (csv_rows log') = length (csv_rows empty_reading)
             \/ S (length (csv_rows log')) = length (csv_rows empty_reading)).
Proof.
  eexists. split; [reflexivity |].
  assert (update_reading_db ascii_int iso_date "d"
            (typing ["1"; "Dune"; "2024-01-01"; "2024-01-10"; "5";
                     "Frank"; ""; "Herbert"; ""; ""; ""] fresh_files)
          = (OK tt, snd (update_reading_db ascii_int iso_date "d"
                           (typing ["1"; "Dune"; "2024-01-01"; "2024-01-10";
                                    "5"; "Frank"; ""; "Herbert"; ""; ""; ""]
                              fresh_files)))) as Hrun
    by (vm_compute; reflexivity).
  split; [exact Hrun |].
  exact (reading_session_writes_sorted_log ascii_int iso_date "d"
           (typing ["1"; "Dune"; "2024-01-01"; "2024-01-10"; "5";
                    "Frank"; ""; "Herbert"; ""; ""; ""] fresh_files) _
           empty_reading eq_refl Hrun).
Defined.

(** ** The stores stay on disk *)

Lemma finds_files_bind paths {A B} (m : M A) (k : A -> M B) :
  finds_files paths m -> (forall a, finds_files paths (k a)) ->
  finds_files paths (m ≫= k).
Proof.
  intros Hm Hk w. unfold mbind, M_bind. destruct (Hm w) as [Hkeep Hfound].
  destruct (m w) as [[a|e] w1]; simpl in *.
  - destruct (Hk a w1) as [Hkeep1 Hfound1]. split.
    + intros p Hp. by apply Hkeep1, Hkeep.
    + intros Hw. apply Hfound1. intros p Hp. by apply Hkeep, Hw.
  - split; [done |]. intros Hw [= ->]. by apply Hfound.
Qed.

Lemma finds_files_ret paths {A} (a : A) : finds_files paths (mret a).
Proof. intros w. done. Qed.

Lemma finds_files_raise paths {A} (e : error) :
  e ≠ FileNotFoundError -> finds_files paths (@raise A e).
Proof. intros He w. split; [done |]. simpl. congruence. Qed.

Lemma finds_files_lift paths {A} (r : result A) :
  r ≠ Err FileNotFoundError -> finds_files paths (lift r).
Proof. intros Hr w. done. Qed.

Lemma finds_files_from_option paths {A} (e : error) (o : option A) :
  e ≠ FileNotFoundError -> finds_files paths (from_option e o).
Proof.
  intros He. destruct o; [apply finds_files_ret | by apply finds_files_raise].
Qed.

Lemma finds_files_input paths : finds_files paths input.
Proof. intros [[|line rest] files tr]; done. Qed.

Lemma finds_files_emit paths ev : finds_files paths (emit ev).
Proof. intros w. done. Qed.

Lemma finds_files_on_stdin paths {A}
    (f : list string -> result A * list string) :
  (forall lines, fst (f lines) ≠ Err FileNotFoundError) ->
  finds_files paths (on_stdin f).
Proof.
  intros Hf w. unfold on_stdin. specialize (Hf (stdin w)).
  by destruct (f (stdin w)).
Qed.

Lemma finds_files_read_csv paths path :
  path ∈ paths -> finds_files paths (read_csv path).
Proof.
  intros Hpath w. unfold read_csv. split.
  - by destruct (fs w !! path).
  - intros Hw. destruct (Hw path Hpath) as [f ->]. done.
Qed.

Lemma finds_files_to_csv paths df path : finds_files paths (to_csv df path).
Proof.
  intros w. split; [| done]. intros p Hp. simpl.
  apply lookup_insert_is_Some'. by right.
Qed.

Lemma finds_files_isfile paths path : finds_files paths (isfile path).
Proof. intros w. done. Qed.

Lemma select_mode_loop_found py_int lines update_mode :
  fst (select_mode_loop py_int update_mode lines) ≠ Err FileNotFoundError.
Proof.
  revert update_mode. induction lines as [|line rest IH]; intros update_mode;
    simpl; case_bool_decide; try done.
  destruct (py_int line); [apply IH | done].
Qed.

Lemma prompt_for_title_loop_found db lines book_title :
  fst (prompt_for_title_loop db book_title lines) ≠ Err FileNotFoundError.
Proof.
  revert book_title. induction lines as [|line rest IH]; intros book_title;
    simpl; destruct (title_in book_title db); first [done | apply IH].
Qed.

Lemma generate_full_author_found author_fn author_mn author_ln :
  generate_full_author author_fn author_mn author_ln
  ≠ Err FileNotFoundError.
Proof.
  unfold generate_full_author, str_join.
  destruct (str_eq author_mn ""); by destruct (mapM as_str _).
Qed.

Lemma update_reading_time_found start finish :
  update_reading_time start finish ≠ Err FileNotFoundError.
Proof.
  unfold update_reading_time.
  destruct (isnull start || isnull finish); [done |].
  by destruct start, finish.
Qed.

Lemma series_mean_found cells : series_mean cells ≠ Err FileNotFoundError.
Proof. unfold series_mean. by destruct (mapM numeric _) as [[|q qs]|]. Qed.

Lemma loc_get_found label col df :
  loc_get label col df ≠ Err FileNotFoundError.
Proof. unfold loc_get. by destruct (list_find _ _) as [[i lr]|]. Qed.

Lemma drop_found label df : drop label df ≠ Err FileNotFoundError.
Proof. unfold drop. by case_bool_decide. Qed.

Lemma sort_values_found by_columns ignore_index df :
  sort_values by_columns ignore_index df ≠ Err FileNotFoundError.
Proof. unfold sort_values. by destruct (sortable by_columns df). Qed.

Create HintDb finds.
#[local] Hint Resolve finds_files_ret finds_files_raise finds_files_lift
  finds_files_from_option finds_files_input finds_files_emit
  finds_files_on_stdin finds_files_to_csv finds_files_isfile
  select_mode_loop_found
  prompt_for_title_loop_found generate_full_author_found
  update_reading_time_found series_mean_found loc_get_found drop_found
  sort_values_found : finds.
#[local] Hint Extern 1 (_ ≠ FileNotFoundError) => discriminate : finds.

Ltac solve_finds :=
  repeat first
    [ progress auto with finds
    | apply finds_files_bind; [| intros ?]
    | match goal with
      | |- finds_files _ (if ?b then _ else _) => destruct b
      | |- finds_files _ (let _ := _ in _) => cbv zeta
      end ].

Lemma finds_files_add_new_book paths books_db book_title :
  finds_files paths (add_new_book books_db book_title).
Proof. unfold add_new_book. solve_finds. Qed.

Lemma finds_files_edit_existing_book paths py_int py_float books_db
    book_title :
  finds_files paths (edit_existing_book py_int py_float books_db book_title).
Proof.
  unfold edit_existing_book, int_input, dict_get, first_value. solve_finds.
Qed.

Lemma finds_files_update_reading_count paths dir reading_db book_title :
  (dir +:+ "/" +:+ "books.csv") ∈ paths ->
  finds_files paths (update_reading_count reading_db dir book_title).
Proof.
  intros Hbooks. unfold update_reading_count. cbv zeta.
  pose proof (finds_files_add_new_book paths).
  pose proof (finds_files_read_csv paths _ Hbooks).
  solve_finds.
Qed.

Lemma finds_files_update_book_rating paths dir reading_db book_title :
  (dir +:+ "/" +:+ "books.csv") ∈ paths ->
  finds_files paths (update_book_rating reading_db dir book_title).
Proof.
  intros Hbooks. unfold update_book_rating. cbv zeta.
  pose proof (finds_files_add_new_book paths).
  pose proof (finds_files_read_csv paths _ Hbooks).
  solve_finds.
Qed.

Lemma finds_files_update_book_db paths dir py_int py_float :
  (dir +:+ "/" +:+ "books.csv") ∈ paths ->
  finds_files paths (update_book_db py_int py_float dir).
Proof.
  intros Hbooks.
  unfold update_book_db, select_mode, prompt_for_title, int_input,
    sort_values_M, remove_existing_book. cbv zeta.
  pose proof (finds_files_add_new_book paths).
  pose proof (finds_files_edit_existing_book paths py_int py_float).
  pose proof (finds_files_read_csv paths _ Hbooks).
  solve_finds.
Qed.

Lemma finds_files_update_reading_db paths dir py_int to_datetime_date :
  (dir +:+ "/" +:+ "books.csv") ∈ paths ->
  (dir +:+ "/" +:+ "reading.csv") ∈ paths ->
  finds_files paths (update_reading_db py_int to_datetime_date dir).
Proof.
  intros Hbooks Hreading.
  unfold update_reading_db, prompt_for_title, add_reading_entry,
    edit_reading_entry, remove_reading_entry, int_input, date_input,
    format_rating, dict_get, sort_values_M. cbv zeta.
  pose proof (finds_files_update_reading_count paths dir).
  pose proof (finds_files_update_book_rating paths dir).
  pose proof (finds_files_read_csv paths _ Hreading).
  solve_finds.
Qed.

Lemma finds_files_create_databases paths force_overwrite dir :
  finds_files paths (create_databases force_overwrite dir).
Proof.
  unfold create_databases, create_books_db, create_reading_db. cbv zeta.
  solve_finds.
Qed.

Lemma stores_on_disk (dir : string) (files : gmap string csv_file) :
  is_Some (files !! (dir +:+ "/" +:+ "books.csv")) ->
  is_Some (files !! (dir +:+ "/" +:+ "reading.csv")) ->
  on_disk [dir +:+ "/" +:+ "books.csv"; dir +:+ "/" +:+ "reading.csv"] files.
Proof.
  intros Hbooks Hreading p Hp.
  apply elem_of_cons in Hp as [-> | Hp]; [done |].
  by apply list_elem_of_singleton in Hp as ->.
Qed.

Lemma update_reading_count_without_catalog reading_db dir book_title w :
  fs w !! (dir +:+ "/" +:+ "books.csv") = None ->
  fst (update_reading_count reading_db dir book_title w)
  = Err FileNotFoundError
  /\ fs (snd (update_reading_count reading_db dir book_title w)) = fs w.
Proof.
  intros Hnone. unfold update_reading_count. cbv zeta.
  change (dir +:+ "/books.csv") with (dir +:+ "/" +:+ "books.csv").
  unfold mbind, M_bind, emit, read_csv. simpl. by rewrite Hnone.
Qed.

Lemma pass_without_catalog (ev : event) (mutate : M DataFrame)
    (dir book_title : string) (w : world) :
  announces ev mutate ->
  fs w !! (dir +:+ "/" +:+ "books.csv") = None ->
  let out := (reading_db ← mutate;
              update_reading_count reading_db dir book_title;;
              update_book_rating reading_db dir book_title;;
              mret reading_db) w in
  (exists e, fst out = Err e) /\ fs (snd out) = fs w.
Proof.
  intros Hm Hnone. cbv zeta. unfold mbind, M_bind.
  destruct (Hm w) as [Hfs _].
  destruct (mutate w) as [[reading_db|e] w1]; simpl in *; [| eauto].
  destruct (update_reading_count_without_catalog reading_db dir book_title w1)
    as [Herr Hfs1]; [by rewrite Hfs |].
  destruct (update_reading_count reading_db dir book_title w1)
    as [[[]|e] w2]; simpl in *; [discriminate |].
  split; [eauto | congruence].
Qed.

(** No run removes a file: a file that is on disk is still there after
    [create_databases], after a catalog session and after a reading-log
    session, whatever is typed and whether the run completes or stops with
    an error. *)
Theorem no_run_removes_a_file (py_int : string -> option Z)
    (py_float : string -> option Q)
    (to_datetime_date : string -> option (option Z))
    (force_overwrite : bool) (dir : string) (w : world) (path : string) :
  is_Some (fs w !! path) ->
  is_Some (fs (snd (create_databases force_overwrite dir w)) !! path)
  /\ is_Some (fs (snd (update_book_db py_int py_float dir w)) !! path)
  /\ is_Some (fs (snd (update_reading_db py_int to_datetime_date dir w))
              !! path).
Proof.
  intros Hpath.
  set (stores := [dir +:+ "/" +:+ "books.csv"; dir +:+ "/" +:+ "reading.csv"]).
  assert ((dir +:+ "/" +:+ "books.csv") ∈ stores) as Hbooks
    by (apply elem_of_cons; by left).
  assert ((dir +:+ "/" +:+ "reading.csv") ∈ stores) as Hreading
    by (apply elem_of_cons; right; apply elem_of_cons; by left).
  split; [| split].
  - by apply (finds_files_create_databases stores force_overwrite dir w).
  - by apply (finds_files_update_book_db stores dir py_int py_float Hbooks w).
  - by apply (finds_files_update_reading_db stores dir py_int to_datetime_date
                Hbooks Hreading w).
Qed.

Lemma no_run_removes_a_file_witness :
  is_Some (fs (typing ["3"; "Dune"; "1"] dune_files) !! "d/books.csv")
  /\ is_Some (fs (snd (create_databases true "d"
                         (typing ["3"; "Dune"; "1"] dune_files)))
              !! "d/books.csv")
  /\ is_Some (fs (snd (update_book_db ascii_int ascii_float "d"
                         (typing ["3"; "Dune"; "1"] dune_files)))
              !! "d/books.csv")
  /\ is_Some (fs (snd (update_reading_db ascii_int iso_date "d"
                         (typing ["3"; "Dune"; "1"] dune_files)))
              !! "d/books.csv").
Proof.
  assert (is_Some (fs (typing ["3"; "Dune"; "1"] dune_files) !! "d/books.csv"))
    as Hpath by (vm_compute; eauto).
  split; [exact Hpath |].
  exact (no_run_removes_a_file ascii_int ascii_float iso_date true "d"
           (typing ["3"; "Dune"; "1"] dune_files) "d/books.csv" Hpath).
Defined.

(** A catalog session stops for a missing file exactly when [books.csv] is
    not on disk, and then at once: no line is read and nothing is changed.
    With the catalog on disk no input makes it fail that way. *)
Theorem catalog_session_missing_file (py_int : string -> option Z)
    (py_float : string -> option Q) (dir : string) (w : world) :
  let run := update_book_db py_int py_float dir w in
  match fs w !! (dir +:+ "/" +:+ "books.csv") with
  | None => run = (Err FileNotFoundError, w)
  | Some _ => fst run ≠ Err FileNotFoundError
  end.
Proof.
  cbv zeta.
  destruct (fs w !! (dir +:+ "/" +:+ "books.csv")) as [books|] eqn:Hbooks.
  - apply (finds_files_update_book_db [dir +:+ "/" +:+ "books.csv"]);
      [by apply list_elem_of_singleton |].
    intros p Hp. apply list_elem_of_singleton in Hp as ->.
    rewrite Hbooks. eauto.
  - unfold update_book_db. cbv zeta.
    unfold mbind at 1, M_bind at 1, read_csv. by rewrite Hbooks.
Qed.

(** A reading-log session without [reading.csv] stops for the missing file
    at once, nothing read and nothing changed.  With the log on disk but no
    [books.csv] it never completes, since the reading count has no catalog
    to go to, and it leaves every file as it was: the change made to the log
    is lost.  With both stores on disk no input makes it fail for a missing
    file. *)
Theorem reading_session_missing_file (py_int : string -> option Z)
    (to_datetime_date : string -> option (option Z))
    (dir : string) (w : world) :
  let run := update_reading_db py_int to_datetime_date dir w in
  match fs w !! (dir +:+ "/" +:+ "reading.csv"),
        fs w !! (dir +:+ "/" +:+ "books.csv") with
  | None, _ => run = (Err FileNotFoundError, w)
  | Some _, None => (exists e, fst run = Err e) /\ fs (snd run) = fs w
  | Some _, Some _ => fst run ≠ Err FileNotFoundError
  end.
Proof.
  cbv zeta.
  destruct (fs w !! (dir +:+ "/" +:+ "reading.csv")) as [log|] eqn:Hlog.
  2:{ unfold update_reading_db. cbv zeta.
      unfold mbind at 1, M_bind at 1, read_csv. by rewrite Hlog. }
  destruct (fs w !! (dir +:+ "/" +:+ "books.csv")) as [books|] eqn:Hbooks.
  { apply (finds_files_update_reading_db
             [dir +:+ "/" +:+ "books.csv"; dir +:+ "/" +:+ "reading.csv"]).
    - apply elem_of_cons; by left.
    - apply elem_of_cons; right; apply elem_of_cons; by left.
    - apply stores_on_disk; [rewrite Hbooks | rewrite Hlog]; eauto. }
  unfold update_reading_db. cbv zeta.
  set (post := fun out : result unit * world =>
         (exists e, fst out = Err e) /\ fs (snd out) = fs w).
  assert (forall e w1, fs w1 = fs w -> trace w1 = trace w -> post (Err e, w1))
    as Hstopped by (intros e w1 Hfs Htr; split; [by exists e | done]).
  match goal with
  | |- (exists e, fst ?out = Err e) /\ _ => change (post out)
  end.
  apply (after_quiet _ _ post (fs w) (trace w));
    [solve_quiet | done | | done | done].
  intros reading_db.
  apply (after_quiet _ _ post (fs w) (trace w)); [solve_quiet | done |].
  intros update_mode.
  apply (after_quiet _ _ post (fs w) (trace w)); [solve_quiet | done |].
  intros book_title w3 Hfs3 Htr3.
  assert (forall ev (mutate : M DataFrame) w4,
            announces ev mutate -> fs w4 = fs w ->
            post (((reading_db ← mutate;
                    update_reading_count reading_db dir book_title;;
                    update_book_rating reading_db dir book_title;;
                    mret reading_db)
                   ≫= (fun reading_db =>
                         reading_db ← sort_values_M ["Finish"; "Start"] false
                                        reading_db;
                         to_csv reading_db (dir +:+ "/" +:+ "reading.csv")))
                    w4)) as Hpass.
  { intros ev mutate w4 Hm Hfs4. unfold mbind at 1, M_bind at 1.
    destruct (pass_without_catalog ev mutate dir book_title w4 Hm)
      as [[e He] Hfs]; [by rewrite Hfs4 |].
    match goal with
    | |- post (match ?pass with _ => _ end) => destruct pass as [[db|e'] w5]
    end; simpl in *; [discriminate |].
    split; [by exists e' | simpl; congruence]. }
  destruct (bool_decide (update_mode = 1)).
  - destruct (title_in book_title reading_db).
    + unfold mbind at 1, M_bind at 1. unfold mbind at 1, M_bind at 1.
      pose proof (quiet_input w3) as [Hfs4 Htr4].
      destruct (input w3) as [[switch_to_edit|e] w4]; simpl in *.
      * destruct (bool_decide (switch_to_edit ∈ ["Y"; "y"])).
        -- apply (Hpass (ReadingEntryEdited book_title));
             [apply edit_reading_entry_announces | congruence].
        -- apply (Hpass (ReadingEntryAdded book_title));
             [apply add_reading_entry_announces | congruence].
      * apply Hstopped; congruence.
    + apply (Hpass (ReadingEntryAdded book_title));
        [apply add_reading_entry_announces | done].
  - destruct (bool_decide (update_mode = 2)).
    + apply (Hpass (ReadingEntryEdited book_title));
        [apply edit_reading_entry_announces | done].
    + apply (Hpass (ReadingEntryRemoved book_title));
        [apply remove_reading_entry_announces | done].
Qed.

(** Once [create_databases] has run in a directory, with the force flag or
    without it and whatever the directory held, a catalog session and a
    reading-log session after it do not fail for a missing file, whatever
    is typed, and both stores are on disk when they are over. *)
Theorem sessions_after_create_databases (py_int : string -> option Z)
    (py_float : string -> option Q)
    (to_datetime_date : string -> option (option Z))
    (force_overwrite : bool) (dir : string) (w : world) :
  let stores := [dir +:+ "/" +:+ "books.csv"; dir +:+ "/" +:+ "reading.csv"] in
  let w1 := snd (create_databases force_overwrite dir w) in
  let w2 := snd (update_book_db py_int py_float dir w1) in
  let w3 := snd (update_reading_db py_int to_datetime_date dir w2) in
  on_disk stores (fs w1)
  /\ fst (update_book_db py_int py_float dir w1) ≠ Err FileNotFoundError
  /\ fst (update_reading_db py_int to_datetime_date dir w2)
     ≠ Err FileNotFoundError
  /\ on_disk stores (fs w3).
Proof.
  cbv zeta.
  set (stores := [dir +:+ "/" +:+ "books.csv"; dir +:+ "/" +:+ "reading.csv"]).
  set (w1 := snd (create_databases force_overwrite dir w)).
  set (w2 := snd (update_book_db py_int py_float dir w1)).
  assert ((dir +:+ "/" +:+ "books.csv") ∈ stores) as Hbooks
    by (apply elem_of_cons; by left).
  assert ((dir +:+ "/" +:+ "reading.csv") ∈ stores) as Hreading
    by (apply elem_of_cons; right; apply elem_of_cons; by left).
  assert (on_disk stores (fs w1)) as Hw1.
  { destruct (create_databases_run force_overwrite dir w) as [_ Hfs].
    destruct (created_has_both force_overwrite dir (fs w)) as [Hb Hr].
    subst w1. rewrite Hfs. by apply stores_on_disk. }
  destruct (finds_files_update_book_db stores dir py_int py_float Hbooks w1)
    as [Hkeep1 Hfound1].
  assert (on_disk stores (fs w2)) as Hw2
    by (intros p Hp; by apply Hkeep1, Hw1).
  destruct (finds_files_update_reading_db stores dir py_int to_datetime_date
              Hbooks Hreading w2) as [Hkeep2 Hfound2].
  split; [done |]. split; [by apply Hfound1 |]. split; [by apply Hfound2 |].
  intros p Hp. by apply Hkeep2, Hw2.
Qed.

(** ** The author's name needs strings *)

(** [generate_full_author] returns a string exactly when its three
    arguments are strings and raises [TypeError] otherwise: a missing
    middle name is not the empty one, it makes the join fail, and so does a
    missing first or last name even when the middle name is empty. *)
Theorem generate_full_author_needs_strings
    (author_fn author_mn author_ln : value) :
  match as_str author_fn, as_str author_mn, as_str author_ln with
  | Some first, Some middle, Some last =>
      generate_full_author author_fn author_mn author_ln
      = OK (Str (if String.eqb middle "" then first +:+ " " +:+ last
                 else first +:+ " " +:+ middle +:+ " " +:+ last))
  | _, _, _ =>
      generate_full_author author_fn author_mn author_ln = Err TypeError
  end.
Proof.
  unfold generate_full_author, str_join.
  destruct author_fn, author_mn, author_ln; simpl; try reflexivity;
    match goal with
    | |- context [String.eqb ?s ""] => destruct (String.eqb s ""); reflexivity
    end.
Qed.
